(** * EmailMax IMAP/SMTP validator: error classification, diagnosis and probes

    A shallow embedding of [imap-smtp-validator/imap_error_diagnostic.py] and
    of the probe and orchestration code of [imap-smtp-validator/app.py].

    Conventions of the embedding.
    - A Python [str] is a [string] holding its UTF-8 bytes.  All the patterns
      and separators of the program are ASCII, so substring tests and splits
      on the bytes agree with the ones on code points.  [str.lower],
      [str.upper] and [str.capitalize] are modelled on the ASCII letters;
      the module [AnyText] has the classifier and the provider directory
      with [str.lower] and [re.search] as parameters, for what is stated of
      every text.
    - An exception is a class of the Python hierarchy plus its [str()] text.
    - A dictionary whose iteration order matters is an association list.
    - A call that may raise returns an [outcome]. *)

From Stdlib Require Import String Ascii List Bool Arith ZArith Lia DecimalString.
Import ListNotations.
Local Open Scope list_scope.
Local Open Scope string_scope.

(* ================================================================== *)
(** ** Python string primitives *)

Module PyStr.

Definition dquote : ascii := ascii_of_nat 34.

Definition is_upper (c : ascii) : bool :=
  let n := nat_of_ascii c in ((65 <=? n) && (n <=? 90))%nat.

Definition is_lower (c : ascii) : bool :=
  let n := nat_of_ascii c in ((97 <=? n) && (n <=? 122))%nat.

Definition lower_char (c : ascii) : ascii :=
  if is_upper c then ascii_of_nat (nat_of_ascii c + 32) else c.

Definition upper_char (c : ascii) : ascii :=
  if is_lower c then ascii_of_nat (nat_of_ascii c - 32) else c.

(** [s.lower()] on ASCII text: the letters [A] to [Z] are lowered and every
    other byte is kept.  Python lowers the cased letters outside ASCII too
    (the Kelvin sign becomes [k]); what is stated for every text is stated
    over [AnyText] below, where [str.lower] is a parameter. *)
Fixpoint lower (s : string) : string :=
  match s with
  | EmptyString => EmptyString
  | String c s' => String (lower_char c) (lower s')
  end.

(** [s.upper()] on ASCII text: the letters [a] to [z] are raised and every
    other byte is kept (Python raises the sharp s to [SS]). *)
Fixpoint upper (s : string) : string :=
  match s with
  | EmptyString => EmptyString
  | String c s' => String (upper_char c) (upper s')
  end.

(** [s.capitalize()] *)
Definition capitalize (s : string) : string :=
  match s with
  | EmptyString => EmptyString
  | String c s' => String (upper_char c) (lower s')
  end.

(** [s.startswith(p)] *)
Fixpoint startswith (p s : string) : bool :=
  match p, s with
  | EmptyString, _ => true
  | String _ _, EmptyString => false
  | String a p', String b s' => Ascii.eqb a b && startswith p' s'
  end.

(** [needle in hay] *)
Fixpoint contains (needle hay : string) : bool :=
  startswith needle hay ||
  match hay with
  | EmptyString => false
  | String _ hay' => contains needle hay'
  end.

(** [s.split(sep)] for a non-empty [sep]: [skip] counts the characters of a
    separator occurrence still to be dropped, [cur] is the piece being read. *)
Fixpoint split_aux (sep : string) (skip : nat) (cur s : string) : list string :=
  match s with
  | EmptyString => [cur]
  | String c s' =>
      match skip with
      | S k => split_aux sep k cur s'
      | O =>
          if startswith sep s
          then cur :: split_aux sep (String.length sep - 1) EmptyString s'
          else split_aux sep 0 (cur ++ String c EmptyString) s'
      end
  end.

Definition split (sep s : string) : list string :=
  split_aux sep 0 EmptyString s.

(** [s[n:]] *)
Fixpoint slice_from (n : nat) (s : string) : string :=
  match n, s with
  | O, _ => s
  | S _, EmptyString => EmptyString
  | S n', String _ s' => slice_from n' s'
  end.

(** [s.lstrip(c)], [s.rstrip(c)] and [s.strip(c)] for a one-character set *)
Fixpoint lstrip (c : ascii) (s : string) : string :=
  match s with
  | EmptyString => EmptyString
  | String a s' => if Ascii.eqb a c then lstrip c s' else s
  end.

Fixpoint rstrip (c : ascii) (s : string) : string :=
  match s with
  | EmptyString => EmptyString
  | String a s' =>
      match rstrip c s' with
      | EmptyString => if Ascii.eqb a c then EmptyString else String a EmptyString
      | r => String a r
      end
  end.

Definition strip (c : ascii) (s : string) : string := rstrip c (lstrip c s).

(** [s[0]] and [s[-1]], when the string is not empty. *)
Definition first_char (s : string) : option ascii :=
  match s with
  | EmptyString => None
  | String a _ => Some a
  end.

Fixpoint last_char (s : string) : option ascii :=
  match s with
  | EmptyString => None
  | String a EmptyString => Some a
  | String _ s' => last_char s'
  end.

(** Truthiness of a string, and of an optional string ([None] is falsy). *)
Definition truthy (s : string) : bool :=
  match s with EmptyString => false | _ => true end.

Definition truthy_opt (o : option string) : bool :=
  match o with None => false | Some s => truthy s end.

(** [xs[-1]] on a non-empty list of strings *)
Definition last_item (xs : list string) : string := List.last xs EmptyString.

(** Whether every byte of [s] satisfies [p]. *)
Fixpoint all_chars (p : ascii -> bool) (s : string) : bool :=
  match s with
  | EmptyString => true
  | String c s' => p c && all_chars p s'
  end.

(** [s.isascii()] *)
Definition isascii (s : string) : bool :=
  all_chars (fun c => Nat.ltb (nat_of_ascii c) 128) s.

End PyStr.

(* ================================================================== *)
(** ** Python exceptions *)

Module PyExc.

(** The exception classes the program raises, catches or tests with
    [isinstance].  [OSError] is [socket.error]; [socket_timeout] is
    [socket.timeout]. *)
Inductive exc_class : Type :=
  | Exception
  | OSError
  | ConnectionError
  | ConnectionRefusedError
  | socket_timeout
  | gaierror
  | SSLError
  | IMAP4_error
  | IMAP4_abort
  | SMTPException
  | SMTPServerDisconnected
  | SMTPAuthenticationError
  | ValueError
  | UnicodeDecodeError
  | AttributeError
  | KeyError
  | TypeError.

Definition exc_class_eq_dec (a b : exc_class) : {a = b} + {a <> b}.
Proof. decide equality. Defined.

Definition exc_class_eqb (a b : exc_class) : bool :=
  if exc_class_eq_dec a b then true else false.

(** The class itself followed by its ancestors below [BaseException]. *)
Definition ancestors (c : exc_class) : list exc_class :=
  match c with
  | Exception => [Exception]
  | OSError => [OSError; Exception]
  | ConnectionError => [ConnectionError; OSError; Exception]
  | ConnectionRefusedError =>
      [ConnectionRefusedError; ConnectionError; OSError; Exception]
  | socket_timeout => [socket_timeout; OSError; Exception]
  | gaierror => [gaierror; OSError; Exception]
  | SSLError => [SSLError; OSError; Exception]
  | IMAP4_error => [IMAP4_error; Exception]
  | IMAP4_abort => [IMAP4_abort; IMAP4_error; Exception]
  | SMTPException => [SMTPException; OSError; Exception]
  | SMTPServerDisconnected =>
      [SMTPServerDisconnected; SMTPException; OSError; Exception]
  | SMTPAuthenticationError =>
      [SMTPAuthenticationError; SMTPException; OSError; Exception]
  | ValueError => [ValueError; Exception]
  | UnicodeDecodeError => [UnicodeDecodeError; ValueError; Exception]
  | AttributeError => [AttributeError; Exception]
  | KeyError => [KeyError; Exception]
  | TypeError => [TypeError; Exception]
  end.

Definition issubclass (c parent : exc_class) : bool :=
  existsb (exc_class_eqb parent) (ancestors c).

(** [cls.__name__] *)
Definition class_name (c : exc_class) : string :=
  match c with
  | Exception => "Exception"
  | OSError => "OSError"
  | ConnectionError => "ConnectionError"
  | ConnectionRefusedError => "ConnectionRefusedError"
  | socket_timeout => "timeout"
  | gaierror => "gaierror"
  | SSLError => "SSLError"
  | IMAP4_error => "error"
  | IMAP4_abort => "abort"
  | SMTPException => "SMTPException"
  | SMTPServerDisconnected => "SMTPServerDisconnected"
  | SMTPAuthenticationError => "SMTPAuthenticationError"
  | ValueError => "ValueError"
  | UnicodeDecodeError => "UnicodeDecodeError"
  | AttributeError => "AttributeError"
  | KeyError => "KeyError"
  | TypeError => "TypeError"
  end.

(** An exception object: its class and the text of [str(e)]. *)
Record exn : Type := mk_exn { exn_class : exc_class; exn_str : string }.

Definition isinstance (e : exn) (c : exc_class) : bool :=
  issubclass (exn_class e) c.

(** The result of a call that may raise. *)
Inductive outcome (A : Type) : Type :=
  | Ok (a : A)
  | Raise (e : exn).
Arguments Ok {A} a.
Arguments Raise {A} e.

Definition is_ok {A} (o : outcome A) : bool :=
  match o with Ok _ => true | Raise _ => false end.

Definition obind {A B} (o : outcome A) (k : A -> outcome B) : outcome B :=
  match o with Ok a => k a | Raise e => Raise e end.

End PyExc.

(* ================================================================== *)
(** ** [imap_error_diagnostic.py] *)

Module Diagnostic.
Import PyStr PyExc.

(** *** Error catalogs, in their declared order *)

Record catalog_entry : Type := mk_entry { causa : string; solucao : list string }.

Definition catalog : Type := list (string * catalog_entry).

Definition GMAIL_ERRORS : catalog :=
  [ ("AUTHENTICATE failed",
     mk_entry "Falha na autenticação com o Gmail"
       [ "Verifique se a 'Verificação em duas etapas' está ativada e se você está usando uma senha de aplicativo";
         "Verifique se a opção 'Permitir aplicativos menos seguros' está ativada (se aplicável)";
         "Confirme que o email e senha estão corretos" ]);
    ("Invalid credentials",
     mk_entry "Credenciais inválidas para o Gmail"
       [ "Para contas com autenticação de dois fatores: use uma senha de aplicativo";
         "Verifique se o formato da senha de app é correto (16 caracteres em grupos de 4)";
         "Tente gerar uma nova senha de aplicativo" ]);
    ("Application-specific password required",
     mk_entry "Senha de aplicativo necessária para o Gmail"
       [ "Acesse sua conta Google > Segurança > Senhas de app > Gere uma nova senha";
         "Use o formato exato fornecido pelo Google (xxxx xxxx xxxx xxxx)";
         "Para mais informações: https://support.google.com/accounts/answer/185833" ]);
    ("Web login required",
     mk_entry "Login via navegador necessário para o Gmail"
       [ "Faça login através de um navegador para confirmar a identidade";
         "Verifique se há alguma notificação de segurança pendente na sua conta Google";
         "Após o login no navegador, espere alguns minutos e tente novamente" ]);
    ("Too many simultaneous connections",
     mk_entry "Muitas conexões simultâneas ao Gmail"
       [ "Feche outras aplicações que possam estar usando IMAP com esta conta";
         "Espere alguns minutos antes de tentar novamente";
         "O Gmail limita a 15 conexões IMAP simultâneas por conta" ]) ].

Definition OUTLOOK_ERRORS : catalog :=
  [ ("AUTHENTICATE failed",
     mk_entry "Falha na autenticação com o servidor Outlook/Office 365"
       [ "Verifique se MFA está ativado e use uma senha de aplicativo";
         "Confirme que o email e senha estão corretos";
         "Verifique as configurações de segurança da sua conta Microsoft" ]);
    ("SYS/TEMP_FAIL",
     mk_entry "Falha temporária no servidor Outlook/Office 365"
       [ "Esta é uma falha temporária do servidor. Tente novamente em alguns minutos";
         "Verifique o status dos serviços Microsoft: https://portal.office.com/servicestatus" ]);
    ("LIMIT/MAX_CONN",
     mk_entry "Limite de conexões atingido no Outlook/Office 365"
       [ "Feche outras aplicações que possam estar usando IMAP com esta conta";
         "Espere alguns minutos antes de tentar novamente" ]) ].

Definition YAHOO_ERRORS : catalog :=
  [ ("AUTHENTICATE failed",
     mk_entry "Falha na autenticação com o Yahoo Mail"
       [ "Verifique se 'Permitir apps que usam login menos seguro' está ativado";
         "Utilize uma senha de aplicativo se tiver verificação em duas etapas ativada";
         "Acesse as configurações de segurança da sua conta Yahoo" ]);
    ("LOGIN failed",
     mk_entry "Login falhou no Yahoo Mail"
       [ "O Yahoo pode exigir senhas de aplicativo. Gere uma em sua conta";
         "Verifique as configurações de segurança em account.yahoo.com";
         "Confirme se a conta não está bloqueada por tentativas de login suspeitas" ]) ].

Definition GENERIC_ERRORS : catalog :=
  [ ("AUTHENTICATE failed",
     mk_entry "Falha na autenticação com o servidor de email"
       [ "Verifique se o email e senha estão corretos";
         "Verifique se a autenticação de dois fatores está ativada e se necessita de senha de app";
         "Alguns provedores podem bloquear aplicativos de terceiros por segurança" ]);
    ("LOGIN failed",
     mk_entry "Falha no login IMAP"
       [ "Verifique se o email e senha estão corretos";
         "Confirme se o servidor IMAP está correto para seu provedor";
         "Verifique configurações de segurança da sua conta de email" ]);
    ("STARTTLS",
     mk_entry "Problema na inicialização de conexão segura STARTTLS"
       [ "Verifique se o servidor suporta STARTTLS";
         "Tente usar uma conexão SSL/TLS direta (porta 993) ao invés de STARTTLS";
         "Pode haver um problema de certificado com o servidor" ]);
    ("socket error",
     mk_entry "Erro de conexão de rede"
       [ "Verifique sua conexão com a internet";
         "Confirme se o host e porta do servidor IMAP estão corretos";
         "Verifique se seu provedor não está bloqueando conexões" ]);
    ("connection refused",
     mk_entry "Conexão recusada pelo servidor"
       [ "Verifique se o servidor IMAP está online";
         "Confirme se o host e porta estão corretos";
         "Alguns provedores podem bloquear tentativas de conexão de certos IPs" ]);
    ("CONNECTION",
     mk_entry "Problema de conexão com o servidor IMAP"
       [ "Verifique sua conexão com a internet";
         "Confirme se o host e porta do servidor IMAP estão corretos";
         "O servidor pode estar temporariamente indisponível" ]);
    ("timeout",
     mk_entry "Tempo limite excedido na conexão IMAP"
       [ "Verifique sua conexão com a internet";
         "O servidor pode estar com alta carga ou não responder";
         "Tente novamente mais tarde ou use um timeout maior" ]);
    ("SSL",
     mk_entry "Problema na conexão SSL/TLS"
       [ "Verifique se o servidor suporta SSL/TLS na porta configurada";
         "Pode haver um problema com o certificado do servidor";
         "Tente usar uma porta diferente ou configuração SSL diferente" ]);
    ("certificate",
     mk_entry "Problema com certificado SSL do servidor"
       [ "O certificado do servidor pode estar expirado ou inválido";
         "Em ambiente de desenvolvimento, você pode tentar desabilitar verificação de certificado";
         "Em produção, verifique se o servidor tem um certificado válido" ]);
    ("revocation",
     mk_entry "Verificação de revogação de certificado SSL falhou"
       [ "Problemas com OCSP (Online Certificate Status Protocol)";
         "Pode ser necessário desativar a verificação de revogação em ambiente de teste";
         "Em produção, confirme que o certificado do servidor é válido" ]);
    ("Too many simultaneous connections",
     mk_entry "Muitas conexões IMAP simultâneas"
       [ "Feche outras aplicações que possam estar usando IMAP com esta conta";
         "Espere alguns minutos antes de tentar novamente";
         "A maioria dos provedores limita o número de conexões por conta" ]) ].

(** *** The ordered patterns of the classifier

    Every pattern of [ERROR_PATTERNS] is a [|]-alternation of literals under
    the [(?i)] flag; it is kept as the list of its alternatives. *)
Definition ERROR_PATTERNS : list (list string * string) :=
  [ (["AUTHENTICATE failed"], "authentication");
    (["LOGIN failed"], "authentication");
    (["Invalid credentials"], "credentials");
    (["password"], "credentials");
    (["Application-specific password"], "app_password");
    (["certificate"], "ssl_certificate");
    (["SSL"; "TLS"; "STARTTLS"], "ssl_connection");
    (["timeout"], "timeout");
    (["Too many simultaneous"], "rate_limit");
    (["connection refused"], "connection_refused");
    (["socket"], "socket");
    (["Web login"], "web_login_required");
    (["LIMIT/MAX_CONN"], "connection_limit");
    (["SYS/TEMP_FAIL"], "temporary_failure");
    (["denied"; "prohibited"; "disallowed"], "access_denied");
    (["blocked"; "block"], "blocked");
    (["throttl"], "throttled");
    (["banned"], "banned") ].

(** [re.search(pattern, text, re.IGNORECASE)] for such a pattern, on ASCII
    text: one of the alternatives occurs in the text, letter case ignored.
    (On other text Python also lets [k] match the Kelvin sign, [s] the long
    s and [i] the dotless i.) *)
Definition re_search (alternatives : list string) (text : string) : bool :=
  existsb (fun lit => contains (lower lit) (lower text)) alternatives.

(** The [for] loop of [classificar_erro_imap]: the kind of the first pattern
    that matches. *)
Fixpoint first_match (patterns : list (list string * string)) (text : string)
  : option string :=
  match patterns with
  | [] => None
  | (pattern, error_type) :: rest =>
      if re_search pattern text then Some error_type else first_match rest text
  end.

Definition classificar_erro_imap (erro : exn) (host email : option string)
  : string :=
  let erro_str := lower (exn_str erro) in
  match first_match ERROR_PATTERNS erro_str with
  | Some error_type => error_type
  | None =>
      if isinstance erro IMAP4_error then "imap_protocol"
      else if isinstance erro SSLError then "ssl_error"
      else if isinstance erro socket_timeout then "timeout"
      else if isinstance erro OSError then "socket_error"
      else if isinstance erro ConnectionRefusedError then "connection_refused"
      else "unknown"
  end.

(** The error kinds of the taxonomy. *)
Definition error_kinds : list string :=
  [ "authentication"; "credentials"; "app_password"; "ssl_certificate";
    "ssl_connection"; "timeout"; "rate_limit"; "connection_refused"; "socket";
    "web_login_required"; "connection_limit"; "temporary_failure";
    "access_denied"; "blocked"; "throttled"; "banned"; "imap_protocol";
    "ssl_error"; "socket_error"; "unknown" ].

(** *** Provider identification *)

Definition none_has_no_lower : exn :=
  mk_exn AttributeError "'NoneType' object has no attribute 'lower'".

Definition identificar_provedor (host email : option string) : outcome string :=
  match host with
  | None => Raise none_has_no_lower
  | Some host =>
      let host := lower host in
      let domain :=
        match email with
        | Some email =>
            if truthy email then lower (last_item (split "@" email))
            else EmptyString
        | None => EmptyString
        end in
      if contains "gmail" host || contains "google" host
         || contains "gmail" domain
      then Ok "gmail"
      else if contains "outlook" host || contains "office365" host
              || contains "hotmail" host || contains "live" host
              || existsb (fun d => contains d domain)
                   [ "outlook.com"; "hotmail.com"; "live.com";
                     "office365.com"; "microsoft.com" ]
      then Ok "outlook"
      else if contains "yahoo" host || contains "yahoo" domain
      then Ok "yahoo"
      else Ok "generic"
  end.

Definition obter_catalogo_provedor (provedor : string) : catalog :=
  if String.eqb provedor "gmail" then GMAIL_ERRORS
  else if String.eqb provedor "outlook" then OUTLOOK_ERRORS
  else if String.eqb provedor "yahoo" then YAHOO_ERRORS
  else GENERIC_ERRORS.

(** *** Diagnosis *)

Record diagnostico : Type := mk_diagnostico {
  erro_original : string;
  tipo_erro : string;
  provedor : string;
  diag_causa : string;
  solucoes : list string;
  classe_erro : string;                          (* detalhes_tecnicos *)
  authentication_details : option (bool * bool); (* requer_senha_app, verificar_2fa *)
  ssl_details : option (bool * bool);            (* verificar_certificado, verificar_porta_ssl *)
  connection_details : option (bool * bool)      (* verificar_firewall, verificar_ip_bloqueado *)
}.

(** The catalog scan: the entry of the first signature found in the text,
    letter case ignored. *)
Fixpoint scan_catalog (c : catalog) (erro_str : string) : option catalog_entry :=
  match c with
  | [] => None
  | (pattern, info) :: rest =>
      if contains (lower pattern) (lower erro_str) then Some info
      else scan_catalog rest erro_str
  end.

Definition default_entry : catalog_entry :=
  mk_entry "Erro IMAP não classificado"
    [ "Verifique se as credenciais estão corretas";
      "Confirme as configurações do servidor IMAP (host, porta, SSL/TLS)";
      "Verifique sua conexão com a internet" ].

Definition diagnosticar_erro_imap (erro : exn) (host email : option string)
  : outcome diagnostico :=
  let erro_str := exn_str erro in
  let erro_type := classificar_erro_imap erro host email in
  obind (if truthy_opt host || truthy_opt email
         then identificar_provedor host email else Ok "generic")
    (fun provedor =>
       let catalogo := obter_catalogo_provedor provedor in
       let diagnostico := scan_catalog catalogo erro_str in
       let diagnostico :=
         match diagnostico with
         | Some info => Some info
         | None =>
             if negb (String.eqb provedor "generic")
             then scan_catalog GENERIC_ERRORS erro_str
             else None
         end in
       let diagnostico :=
         match diagnostico with
         | Some info => info
         | None => default_entry
         end in
       let is_kind k := String.eqb erro_type k in
       Ok {| erro_original := erro_str;
             tipo_erro := erro_type;
             provedor := provedor;
             diag_causa := causa diagnostico;
             solucoes := solucao diagnostico;
             classe_erro := class_name (exn_class erro);
             authentication_details :=
               if is_kind "authentication"
               then Some (contains "app_password" (lower erro_str)
                          || String.eqb provedor "gmail", true)
               else None;
             ssl_details :=
               if negb (is_kind "authentication") && is_kind "ssl_error"
               then Some (contains "certificate" (lower erro_str), true)
               else None;
             connection_details :=
               if negb (is_kind "authentication") && negb (is_kind "ssl_error")
                  && is_kind "connection_refused"
               then Some (true, true)
               else None |}).

(** The secondary heuristic.  [None] stands for [{"problema_comum": False}]. *)
Record erro_comum : Type := mk_erro_comum {
  comum_tipo : string;
  comum_mensagem : string;
  comum_solucao : string
}.

(** How an f-string shows an optional string. *)
Definition format_opt (o : option string) : string :=
  match o with Some s => s | None => "None" end.

Definition verificar_erro_comum (host : option string) (erro_str : string)
  : option erro_comum :=
  let erro_lower := lower erro_str in
  if contains "certificate" erro_lower && contains "verify" erro_lower then
    Some (mk_erro_comum "certificado_ssl"
            "Problema de verificação de certificado SSL"
            "Em ambiente de desenvolvimento, você pode desabilitar temporariamente a verificação de certificado")
  else if (contains "access" erro_lower && contains "denied" erro_lower)
          || contains "blocked" erro_lower then
    Some (mk_erro_comum "bloqueio_acesso"
            "Possível bloqueio de acesso por região ou IP"
            "Alguns provedores bloqueiam acessos de determinadas regiões ou IPs. Tente usar um proxy ou VPN.")
  else if contains "too many" erro_lower || contains "rate" erro_lower
          || contains "limit" erro_lower then
    Some (mk_erro_comum "rate_limiting"
            "Limite de taxa de conexões atingido"
            "Reduza o número de tentativas ou aguarde alguns minutos antes de tentar novamente")
  else if contains "resolve" erro_lower || contains "dns" erro_lower then
    Some (mk_erro_comum "problema_dns"
            "Problema de resolução DNS para o servidor"
            ("Verifique se o host '" ++ format_opt host
               ++ "' está correto e pode ser resolvido pela rede"))
  else None.

Definition gerar_mensagem_amigavel (d : diagnostico) : string :=
  let tipo_erro := tipo_erro d in
  let provedor := capitalize (provedor d) in
  if String.eqb tipo_erro "authentication" then
    "Erro de autenticação com " ++ provedor ++ ": " ++ diag_causa d ++ ". "
      ++ "Verifique suas credenciais e configurações de segurança da conta."
  else if String.eqb tipo_erro "credentials" then
    if String.eqb provedor "Gmail" then
      "Credenciais inválidas para " ++ provedor
        ++ ". Se você usa autenticação de dois fatores, "
        ++ "certifique-se de usar uma senha de aplicativo no formato correto (xxxx xxxx xxxx xxxx)."
    else
      "Credenciais inválidas para " ++ provedor ++ ". Verifique seu email e senha."
  else if String.eqb tipo_erro "app_password" then
    "É necessário usar uma senha de aplicativo para " ++ provedor ++ ". "
      ++ "Ative a verificação em duas etapas e crie uma senha de aplicativo específica."
  else if String.eqb tipo_erro "ssl_connection" then
    "Erro na conexão segura com " ++ provedor ++ ". "
      ++ "Verifique as configurações SSL/TLS e a porta do servidor."
  else if String.eqb tipo_erro "timeout" then
    "Tempo limite excedido ao conectar com " ++ provedor ++ ". "
      ++ "Verifique sua conexão de internet ou tente novamente mais tarde."
  else if String.eqb tipo_erro "connection_refused" then
    "Conexão recusada pelo servidor " ++ provedor ++ ". "
      ++ "Verifique se o servidor está online e se as configurações de host e porta estão corretas."
  else
    "Erro ao conectar com " ++ provedor ++ ": " ++ diag_causa d ++ ". "
      ++ "Verifique as configurações e tente novamente.".

(** The payload returned to the client. *)
Record sanitized : Type := mk_sanitized {
  error_type : string;
  message : string;
  solutions : list string;
  provider : string;                      (* technical_details *)
  error_class : string;                   (* technical_details *)
  common_issue : option (string * string) (* type, solution *)
}.

Definition sanitizar_erro_imap (erro : exn) (host email : option string)
  : outcome sanitized :=
  obind (diagnosticar_erro_imap erro host email)
    (fun diagnostico =>
       let erro_comum := verificar_erro_comum host (exn_str erro) in
       let mensagem := gerar_mensagem_amigavel diagnostico in
       Ok {| error_type := tipo_erro diagnostico;
             message := mensagem;
             solutions := solucoes diagnostico;
             provider := provedor diagnostico;
             error_class := classe_erro diagnostico;
             common_issue :=
               match erro_comum with
               | Some c => Some (comum_tipo c, comum_solucao c)
               | None => None
               end |}).

(** The entries of a catalog. *)
Definition entries (c : catalog) : list catalog_entry := map snd c.

(** The names [identificar_provedor] can return. *)
Definition provider_names : list string := ["gmail"; "outlook"; "yahoo"; "generic"].

(** A catalog entry with a cause and two or three solution steps, none empty. *)
Definition well_formed_entry (entry : catalog_entry) : bool :=
  truthy (causa entry)
  && (2 <=? List.length (solucao entry))%nat
  && (List.length (solucao entry) <=? 3)%nat
  && forallb truthy (solucao entry).

End Diagnostic.

(* ================================================================== *)
(** ** The outside world and the effects of the probes *)

Module Eff.
Import PyExc.

(** The external operations the probes perform. *)
Inductive operation : Type :=
  | DnsResolveA | DnsResolveMX
  | SockCreate | SockSetTimeout | SockConnectEx | SockClose
  | ImapOpen | ImapLogin | ImapList | ImapSelect | ImapLogout
  | SmtpOpen | SmtpEhlo | SmtpStartTLS | SmtpLogin | SmtpQuit.

Definition operation_eq_dec (a b : operation) : {a = b} + {a <> b}.
Proof. decide equality. Defined.

(** One entry of the trace: an operation was attempted, and whether it
    returned ([true]) or raised ([false]). *)
Record event : Type := Call { ev_op : operation; ev_returned : bool }.

Definition trace : Type := list event.

(** A computation appends to the trace and returns or raises. *)
Definition M (A : Type) : Type := trace -> outcome A * trace.

Definition ret {A} (a : A) : M A := fun t => (Ok a, t).

Definition raise {A} (e : exn) : M A := fun t => (Raise e, t).

Definition bind {A B} (m : M A) (k : A -> M B) : M B :=
  fun t =>
    match m t with
    | (Ok a, t') => k a t'
    | (Raise e, t') => (Raise e, t')
    end.

(** [try: m  except Exception as e: handler e] *)
Definition try_except {A} (m : M A) (handler : exn -> M A) : M A :=
  fun t =>
    match m t with
    | (Ok a, t') => (Ok a, t')
    | (Raise e, t') => handler e t'
    end.

(** An external call: the world decides its outcome, the trace records it. *)
Definition call {A} (op : operation) (o : outcome A) : M A :=
  fun t => (o, (t ++ [Call op (is_ok o)])%list).

(** A pure computation that may raise. *)
Definition lift {A} (o : outcome A) : M A := fun t => (o, t).

(** A computation that returns from every trace. *)
Definition total {A} (m : M A) : Prop :=
  forall t, exists a t', m t = (Ok a, t').

(** A computation that only appends to the trace, and whose result and
    events do not depend on the trace it starts from. *)
Definition extends {A} (m : M A) : Prop :=
  forall t, m t = (fst (m []), (t ++ snd (m []))%list).

(** The events a computation adds when it starts from the empty trace. *)
Definition events_of {A} (m : M A) : trace := snd (m []).

(** The operations of a trace, in order. *)
Definition operations (t : trace) : list operation := map ev_op t.

Fixpoint is_prefix (l1 l2 : list operation) : bool :=
  match l1, l2 with
  | [], _ => true
  | _ :: _, [] => false
  | a :: l1', b :: l2' =>
      (if operation_eq_dec a b then true else false) && is_prefix l1' l2'
  end.

(** Every event but the last one returned. *)
Definition stops_at_first_raise (t : trace) : bool :=
  forallb ev_returned (removelast t).

Definition attempted (op : operation) (t : trace) : bool :=
  existsb (fun ev => if operation_eq_dec (ev_op ev) op then true else false) t.

Definition returned (op : operation) (t : trace) : bool :=
  existsb (fun ev => (if operation_eq_dec (ev_op ev) op then true else false)
                     && ev_returned ev) t.

End Eff.

Declare Scope eff_scope.
Delimit Scope eff_scope with eff.
Notation "x <- m ;; k" := (Eff.bind m (fun x => k))
  (at level 61, m at next level, right associativity) : eff_scope.
Notation "m ;;; k" := (Eff.bind m (fun _ => k))
  (at level 61, right associativity) : eff_scope.

(* ================================================================== *)
(** ** [app.py]: provider directory, network probe, handshake drivers *)

Module Validator.
Import PyStr PyExc Eff.
Local Open Scope eff_scope.
Local Open Scope Z_scope.

(** How an f-string shows an integer. *)
Definition str_of_Z (z : Z) : string :=
  DecimalString.NilEmpty.string_of_int (Z.to_int z).

(** *** Records of the program *)

Record endpoint : Type := mk_endpoint {
  ep_host : string;
  ep_port : Z;
  ep_secure : bool;
  ep_starttls : option bool     (* only the SMTP entries carry it *)
}.

Record provider_config : Type := mk_config {
  cfg_imap : endpoint;
  cfg_smtp : endpoint;
  password_pattern : option string;
  password_instructions : option string;
  detected : option string
}.

(** [KNOWN_PROVIDERS], by key. *)
Definition office365 : provider_config :=
  mk_config (mk_endpoint "outlook.office365.com" 993 true None)
            (mk_endpoint "smtp.office365.com" 587 false (Some true))
            None None None.

Definition KNOWN_PROVIDERS : list (string * provider_config) :=
  [ ("gmail",
     mk_config (mk_endpoint "imap.gmail.com" 993 true None)
               (mk_endpoint "smtp.gmail.com" 587 false (Some true))
               (Some "^[a-z]{4} [a-z]{4} [a-z]{4} [a-z]{4}$")
               (Some "Para contas Gmail, use uma Senha de Aplicativo no formato: xxxx xxxx xxxx xxxx")
               None);
    ("outlook", office365);
    ("yahoo",
     mk_config (mk_endpoint "imap.mail.yahoo.com" 993 true None)
               (mk_endpoint "smtp.mail.yahoo.com" 587 false (Some true))
               None
               (Some "Para contas Yahoo, habilite o acesso a apps e use uma senha de aplicativo")
               None);
    ("hotmail", office365) ].

Definition key_error (k : string) : exn := mk_exn KeyError ("'" ++ k ++ "'").

(** [KNOWN_PROVIDERS[key]] *)
Fixpoint lookup (key : string) (d : list (string * provider_config))
  : outcome provider_config :=
  match d with
  | [] => Raise (key_error key)
  | (k, v) :: rest => if String.eqb k key then Ok v else lookup key rest
  end.

(** One answer of an MX query. *)
Record mx_record : Type := mk_mx { preference : Z; exchange : string }.

(** One item of the data returned by [imap.list()]: a [bytes] line, or
    something else (a tuple for a literal, or [None]). *)
Inductive list_item : Type :=
  | ItemBytes (b : string)
  | ItemOther.

(** What the network and the servers answer to each external call. *)
Record world : Type := mk_world {
  resolve_A : string -> outcome (list string);
  resolve_MX : string -> outcome (list mx_record);
  socket_create : outcome unit;
  socket_settimeout : Z -> outcome unit;
  socket_connect_ex : string -> Z -> outcome Z;
  socket_close : outcome unit;
  imap_open : bool -> string -> Z -> Z -> outcome unit;
  imap_login : string -> string -> outcome unit;
  imap_list : outcome (string * list list_item);
  imap_select : string -> outcome unit;
  imap_logout : outcome unit;
  smtp_open : bool -> string -> Z -> Z -> outcome unit;
  smtp_ehlo : outcome unit;
  smtp_starttls : outcome unit;
  smtp_ehlo_after_starttls : outcome unit;
  smtp_login : string -> string -> outcome unit;
  smtp_esmtp_features : option (list string);
  smtp_quit : outcome unit;
  smtp_code : exn -> Z
}.

(** Result of [check_dns] and of [test_network_connection]. *)
Record check_result : Type := mk_check {
  chk_success : bool;
  chk_message : string;
  chk_addresses : option (list string)
}.

(** Result of a handshake driver; a key absent from the dictionary is [None]. *)
Record driver_result : Type := mk_driver {
  drv_success : bool;
  drv_message : string;
  drv_stage : string;
  drv_details : option check_result;
  drv_mailboxes : option (list string);
  drv_extensions : option (list string);
  drv_error_type : option string;
  drv_error_code : option Z;
  drv_solutions : option (list string);
  drv_diagnostic_info : option Diagnostic.sanitized
}.

Definition failed_check (message stage : string) (details : check_result)
  : driver_result :=
  mk_driver false message stage (Some details) None None None None None None.

Definition diagnosed (message stage error_type : string)
  (d : Diagnostic.sanitized) : driver_result :=
  mk_driver false message stage None None None (Some error_type) None
    (Some (Diagnostic.solutions d)) (Some d).

(** *** Provider directory *)

(** The profile synthesized when nothing is detected. *)
Definition default_config (domain : string) : provider_config :=
  mk_config (mk_endpoint ("imap." ++ domain) 993 true None)
            (mk_endpoint ("smtp." ++ domain) 587 false (Some true))
            None None (Some "auto").

Definition detect_provider_config (w : world) (email : string)
  : M provider_config :=
  let domain := lower (last_item (split "@" email)) in
  if contains "gmail" domain then lift (lookup "gmail" KNOWN_PROVIDERS)
  else if contains "outlook" domain || contains "hotmail" domain
          || contains "live" domain
  then lift (lookup "outlook" KNOWN_PROVIDERS)
  else if contains "yahoo" domain then lift (lookup "yahoo" KNOWN_PROVIDERS)
  else
    inferred <-
      try_except
        (result <- call DnsResolveMX (resolve_MX w domain) ;;
         match result with
         | first :: _ =>
             let mx_record := exchange first in
             if contains "google" mx_record || contains "gmail" mx_record
             then cfg <- lift (lookup "gmail" KNOWN_PROVIDERS) ;; ret (Some cfg)
             else if contains "outlook" mx_record
                     || contains "microsoft" mx_record
             then cfg <- lift (lookup "outlook" KNOWN_PROVIDERS) ;; ret (Some cfg)
             else if contains "yahoo" mx_record
             then cfg <- lift (lookup "yahoo" KNOWN_PROVIDERS) ;; ret (Some cfg)
             else ret None
         | [] => ret None
         end)
        (fun _ => ret None) ;;
    match inferred with
    | Some cfg => ret cfg
    | None => ret (default_config domain)
    end.

(** The conditions of the directory, named to state its properties: the
    domain of an email (lowered as ASCII text, like [lower]), whether a
    domain carries a known provider name,
    whether an MX host carries one, and whether the MX lookup of a world
    yields no inference (it raises, is empty, or its first exchange names
    no provider). *)
Definition email_domain (email : string) : string :=
  lower (last_item (split "@" email)).

Definition names_known_provider (domain : string) : bool :=
  contains "gmail" domain || contains "outlook" domain
  || contains "hotmail" domain || contains "live" domain
  || contains "yahoo" domain.

Definition mx_names_provider (mx_record : string) : bool :=
  contains "google" mx_record || contains "gmail" mx_record
  || contains "outlook" mx_record || contains "microsoft" mx_record
  || contains "yahoo" mx_record.

Definition no_mx_inference (w : world) (domain : string) : bool :=
  match resolve_MX w domain with
  | Raise _ => true
  | Ok [] => true
  | Ok (first :: _) => negb (mx_names_provider (exchange first))
  end.

(** *** Network probe *)

Definition check_dns (w : world) (host : string) : M check_result :=
  try_except
    (addresses <- call DnsResolveA (resolve_A w host) ;;
     match addresses with
     | _ :: _ =>
         ret (mk_check true ("Servidor " ++ host ++ " encontrado via DNS")
                (Some addresses))
     | [] =>
         ret (mk_check false
                ("Não foi possível resolver o servidor " ++ host ++ " via DNS")
                None)
     end)
    (fun e =>
       ret (mk_check false
              ("Erro ao resolver DNS para " ++ host ++ ": " ++ exn_str e) None)).

Definition test_network_connection (w : world) (host : string)
  (port timeout : Z) : M check_result :=
  let hp := host ++ ":" ++ str_of_Z port in
  try_except
    (call SockCreate (socket_create w) ;;;
     call SockSetTimeout (socket_settimeout w timeout) ;;;
     result <- call SockConnectEx (socket_connect_ex w host port) ;;
     call SockClose (socket_close w) ;;;
     if result =? 0 then
       ret (mk_check true ("Conexão com " ++ hp ++ " estabelecida com sucesso")
              None)
     else
       let error_message :=
         if result =? 111 then
           "Conexão recusada por " ++ hp
             ++ " - verifique se o servidor está online"
         else if (result =? 110) || (result =? 10060) then
           "Tempo limite excedido ao conectar a " ++ hp
         else
           "Não foi possível conectar a " ++ hp ++ " - Erro: "
             ++ str_of_Z result in
       ret (mk_check false error_message None))
    (fun e =>
       ret (mk_check false ("Erro ao conectar com " ++ hp ++ ": " ++ exn_str e)
              None)).

(** *** Parsing of the mailbox listing *)

Definition in_range (lo hi n : nat) : bool := ((lo <=? n) && (n <=? hi))%nat.

(** Well-formed UTF-8, as the strict decoder of Python accepts it: no overlong
    form, no surrogate, nothing above U+10FFFF. *)
Fixpoint utf8_valid (s : string) : bool :=
  match s with
  | EmptyString => true
  | String b0 r0 =>
      let n0 := nat_of_ascii b0 in
      if (n0 <=? 127)%nat then utf8_valid r0
      else
        match r0 with
        | EmptyString => false
        | String b1 r1 =>
            let n1 := nat_of_ascii b1 in
            if in_range 194 223 n0 then in_range 128 191 n1 && utf8_valid r1
            else
              match r1 with
              | EmptyString => false
              | String b2 r2 =>
                  let n2 := nat_of_ascii b2 in
                  if in_range 224 239 n0 then
                    (if (n0 =? 224)%nat then in_range 160 191 n1
                     else if (n0 =? 237)%nat then in_range 128 159 n1
                     else in_range 128 191 n1)
                    && in_range 128 191 n2 && utf8_valid r2
                  else
                    match r2 with
                    | EmptyString => false
                    | String b3 r3 =>
                        let n3 := nat_of_ascii b3 in
                        in_range 240 244 n0
                        && (if (n0 =? 240)%nat then in_range 144 191 n1
                            else if (n0 =? 244)%nat then in_range 128 143 n1
                            else in_range 128 191 n1)
                        && in_range 128 191 n2 && in_range 128 191 n3
                        && utf8_valid r3
                    end
              end
        end
  end.

Definition unicode_decode_error : exn :=
  mk_exn UnicodeDecodeError "'utf-8' codec can't decode bytes".

(** [b.decode('utf-8')] *)
Definition decode_utf8 (b : string) : outcome string :=
  if utf8_valid b then Ok b else Raise unicode_decode_error.

(** The separator [ "." ] of the listing, with its blanks and quotes. *)
Definition list_separator : string :=
  " " ++ String dquote ("." ++ String dquote " ").

(** The body of the [for mailbox in mailbox_list] loop: the names one item
    appends to [mailboxes].  The loop is the same in [test_imap_connection]
    and in [teste_imap_especifico] of [imap_diagnostic_endpoint.py]. *)
Definition mailbox_names_of (mailbox : list_item) : list string :=
  match mailbox with
  | ItemBytes b =>
      match decode_utf8 b with
      | Ok decoded =>
          let parts := split list_separator decoded in
          if (1 <? List.length parts)%nat
          then [strip dquote (nth 1 parts EmptyString)]
          else []
      | Raise _ => []
      end
  | ItemOther => []
  end.

Fixpoint parse_mailbox_list (mailbox_list : list list_item) : list string :=
  match mailbox_list with
  | [] => []
  | mailbox :: rest => (mailbox_names_of mailbox ++ parse_mailbox_list rest)%list
  end.

(** Whether an item of the listing is a [bytes] line that decodes. *)
Definition decodes (mailbox : list_item) : bool :=
  match mailbox with
  | ItemBytes b => is_ok (decode_utf8 b)
  | ItemOther => false
  end.

(** *** Handshake drivers *)

Definition sanitizar (e : exn) (host email : string) : M Diagnostic.sanitized :=
  lift (Diagnostic.sanitizar_erro_imap e (Some host) (Some email)).

(** The [try] block of [test_imap_connection]. *)
Definition imap_session (w : world) (email password host : string)
  (port : Z) (secure : bool) (timeout : Z) : M driver_result :=
  call ImapOpen (imap_open w secure host port timeout) ;;;
  call ImapLogin (imap_login w email password) ;;;
  listing <- call ImapList (imap_list w) ;;
  let '(status, mailbox_list) := listing in
  let mailboxes :=
    if String.eqb status "OK" then parse_mailbox_list mailbox_list else [] in
  call ImapSelect (imap_select w "INBOX") ;;;
  try_except (call ImapLogout (imap_logout w)) (fun _ => ret tt) ;;;
  ret (mk_driver true
         ("Conexão IMAP com " ++ host ++ ":" ++ str_of_Z port
            ++ " estabelecida com sucesso")
         "authenticated" None (Some mailboxes) None None None None None).

(** The [except] clauses of [test_imap_connection], in their order. *)
Definition imap_except (email host : string) (e : exn) : M driver_result :=
  diagnostico <- sanitizar e host email ;;
  let message := Diagnostic.message diagnostico in
  if isinstance e IMAP4_error then
    let error_type := Diagnostic.error_type diagnostico in
    if existsb (String.eqb error_type)
         ["authentication"; "credentials"; "app_password"]
    then ret (diagnosed message "authentication" error_type diagnostico)
    else ret (diagnosed message "protocol" error_type diagnostico)
  else if isinstance e SSLError then
    ret (diagnosed message "ssl" "ssl_error" diagnostico)
  else if isinstance e socket_timeout || isinstance e OSError
          || isinstance e ConnectionRefusedError
          || isinstance e ConnectionError then
    ret (diagnosed message "connection"
           (Diagnostic.error_type diagnostico) diagnostico)
  else
    ret (diagnosed message "connection" "unknown" diagnostico).

Definition test_imap_connection (w : world) (email password host : string)
  (port : Z) (secure : bool) (timeout : Z) : M driver_result :=
  dns_check <- check_dns w host ;;
  if negb (chk_success dns_check) then
    ret (failed_check ("Falha na resolução DNS: " ++ chk_message dns_check)
           "dns" dns_check)
  else
  net_check <- test_network_connection w host port timeout ;;
  if negb (chk_success net_check) then
    ret (failed_check ("Falha na conexão de rede: " ++ chk_message net_check)
           "network" net_check)
  else
  try_except (imap_session w email password host port secure timeout)
    (imap_except email host).

Definition smtp_failure (message stage error_type : string)
  (error_code : option Z) : driver_result :=
  mk_driver false message stage None None None (Some error_type) error_code
    None None.

(** The [try] block of [test_smtp_connection]. *)
Definition smtp_session (w : world) (email password host : string)
  (port : Z) (secure starttls : bool) (timeout : Z) : M driver_result :=
  call SmtpOpen (smtp_open w secure host port timeout) ;;;
  call SmtpEhlo (smtp_ehlo w) ;;;
  (if starttls && negb secure then
     call SmtpStartTLS (smtp_starttls w) ;;;
     call SmtpEhlo (smtp_ehlo_after_starttls w)
   else ret tt) ;;;
  call SmtpLogin (smtp_login w email password) ;;;
  let supported_extensions :=
    match smtp_esmtp_features w with
    | Some features => features
    | None => []
    end in
  call SmtpQuit (smtp_quit w) ;;;
  ret (mk_driver true
         ("Conexão SMTP com " ++ host ++ ":" ++ str_of_Z port
            ++ " estabelecida com sucesso")
         "authenticated" None None (Some supported_extensions) None None
         None None).

(** The [except] clauses of [test_smtp_connection], in their order. *)
Definition smtp_except (w : world) (e : exn) : M driver_result :=
  if isinstance e SMTPAuthenticationError then
    ret (smtp_failure ("Falha na autenticação SMTP: " ++ exn_str e)
           "authentication" "credentials" (Some (smtp_code w e)))
  else if isinstance e SMTPException then
    ret (smtp_failure ("Erro SMTP: " ++ exn_str e)
           "protocol" "protocol_error" None)
  else if isinstance e SSLError then
    ret (smtp_failure ("Erro SSL na conexão SMTP: " ++ exn_str e)
           "ssl" "ssl_error" None)
  else
    ret (smtp_failure ("Erro ao conectar via SMTP: " ++ exn_str e)
           "connection" "unknown" None).

Definition test_smtp_connection (w : world) (email password host : string)
  (port : Z) (secure starttls : bool) (timeout : Z) : M driver_result :=
  dns_check <- check_dns w host ;;
  if negb (chk_success dns_check) then
    ret (failed_check ("Falha na resolução DNS: " ++ chk_message dns_check)
           "dns" dns_check)
  else
  net_check <- test_network_connection w host port timeout ;;
  if negb (chk_success net_check) then
    ret (failed_check ("Falha na conexão de rede: " ++ chk_message net_check)
           "network" net_check)
  else
  try_except (smtp_session w email password host port secure starttls timeout)
    (smtp_except w).

(** The same world, but for the outcome of the IMAP logout. *)
Definition set_imap_logout (o : outcome unit) (w : world) : world :=
  {| resolve_A := resolve_A w;
     resolve_MX := resolve_MX w;
     socket_create := socket_create w;
     socket_settimeout := socket_settimeout w;
     socket_connect_ex := socket_connect_ex w;
     socket_close := socket_close w;
     imap_open := imap_open w;
     imap_login := imap_login w;
     imap_list := imap_list w;
     imap_select := imap_select w;
     imap_logout := o;
     smtp_open := smtp_open w;
     smtp_ehlo := smtp_ehlo w;
     smtp_starttls := smtp_starttls w;
     smtp_ehlo_after_starttls := smtp_ehlo_after_starttls w;
     smtp_login := smtp_login w;
     smtp_esmtp_features := smtp_esmtp_features w;
     smtp_quit := smtp_quit w;
     smtp_code := smtp_code w |}.

(** The stages a driver reports before the handshake, and those it reports
    for a failure of the handshake. *)
Definition preflight_stages : list string := ["dns"; "network"].

Definition handshake_failure_stages : list string :=
  ["authentication"; "protocol"; "ssl"; "connection"].

(** The operations of the two drivers, in the order of their happy path. *)
Definition preflight_sequence : list operation :=
  [DnsResolveA; SockCreate; SockSetTimeout; SockConnectEx; SockClose].

Definition imap_sequence : list operation :=
  (preflight_sequence
     ++ [ImapOpen; ImapLogin; ImapList; ImapSelect; ImapLogout])%list.

Definition smtp_sequence (secure starttls : bool) : list operation :=
  (preflight_sequence
     ++ [SmtpOpen; SmtpEhlo]
     ++ (if starttls && negb secure then [SmtpStartTLS; SmtpEhlo] else [])
     ++ [SmtpLogin; SmtpQuit])%list.

(** Whether the resolver of the world gives an address for the host. *)
Definition dns_ok (w : world) (host : string) : bool :=
  match resolve_A w host with
  | Ok (_ :: _) => true
  | _ => false
  end.

(** Whether the world lets the reachability check succeed. *)
Definition reachable (w : world) (host : string) (port timeout : Z) : bool :=
  match socket_create w, socket_settimeout w timeout,
        socket_connect_ex w host port, socket_close w with
  | Ok _, Ok _, Ok result, Ok _ => result =? 0
  | _, _, _, _ => false
  end.

(** Whether a driver returned a result that reports success. *)
Definition succeeded (o : outcome driver_result) : bool :=
  match o with Ok r => drv_success r | Raise _ => false end.

(** *** Orchestrator *)

(** The request of [test_connection] once its endpoint settings are resolved
    (explicit fields over detected ones). *)
Record request : Type := mk_request {
  req_email : string;
  req_password : string;
  req_imap : endpoint;
  req_smtp_host : string;
  req_smtp_port : Z;
  req_smtp_secure : bool;
  req_smtp_starttls : bool;
  req_test_imap : bool;
  req_test_smtp : bool;
  req_timeout : Z
}.

Record imap_error_info : Type := mk_imap_error {
  ie_solutions : list string;
  ie_error_type : string;
  ie_details : Diagnostic.sanitized
}.

(** The [results] dictionary. *)
Record results : Type := mk_results {
  res_success : bool;
  res_message : string;
  res_imap : option driver_result;        (* details.imap *)
  res_smtp : option driver_result;        (* details.smtp *)
  res_imap_error : option imap_error_info (* details.diagnostics.imap_error *)
}.

(** The answer of the route: the results, or the internal-error payload. *)
Inductive response : Type :=
  | Results (r : results)
  | InternalError (message : string).

Definition none_not_subscriptable : exn :=
  mk_exn TypeError "'NoneType' object is not subscriptable".

(** [results['details'][k]['success']] and [...['message']] *)
Definition subscript (d : option driver_result) : M driver_result :=
  match d with
  | Some r => ret r
  | None => raise none_not_subscriptable
  end.

Definition MSG_BOTH_OK : string :=
  "Servidores IMAP e SMTP acessíveis e autenticação bem-sucedida".
Definition MSG_BOTH_FAILED : string :=
  "Falha no acesso aos servidores IMAP e SMTP".
Definition MSG_IMAP_FAILED : string :=
  "Falha no acesso ao servidor IMAP, SMTP acessível".
Definition MSG_SMTP_FAILED : string :=
  "Falha no acesso ao servidor SMTP, IMAP acessível".
Definition MSG_NO_TEST : string := "Nenhum teste solicitado".

(** The block that decides the overall result. *)
Definition overall_result (test_imap test_smtp : bool) (r : results) : M results :=
  if test_imap && test_smtp then
    imap <- subscript (res_imap r) ;;
    smtp <- subscript (res_smtp r) ;;
    let success := drv_success imap && drv_success smtp in
    let message :=
      if success then MSG_BOTH_OK
      else if negb (drv_success imap) && negb (drv_success smtp)
      then MSG_BOTH_FAILED
      else if negb (drv_success imap) then MSG_IMAP_FAILED
      else MSG_SMTP_FAILED in
    ret (mk_results success message (res_imap r) (res_smtp r) (res_imap_error r))
  else if test_imap then
    imap <- subscript (res_imap r) ;;
    ret (mk_results (drv_success imap) (drv_message imap)
           (res_imap r) (res_smtp r) (res_imap_error r))
  else if test_smtp then
    smtp <- subscript (res_smtp r) ;;
    ret (mk_results (drv_success smtp) (drv_message smtp)
           (res_imap r) (res_smtp r) (res_imap_error r))
  else
    ret (mk_results (res_success r) MSG_NO_TEST
           (res_imap r) (res_smtp r) (res_imap_error r)).

Definition test_connection (w : world) (q : request) : M response :=
  try_except
    (let results0 := mk_results false EmptyString None None None in
     results1 <-
       (if req_test_imap q then
          imap_result <-
            test_imap_connection w (req_email q) (req_password q)
              (ep_host (req_imap q)) (ep_port (req_imap q))
              (ep_secure (req_imap q)) (req_timeout q) ;;
          let imap_error :=
            match drv_diagnostic_info imap_result with
            | Some info =>
                if negb (drv_success imap_result) then
                  Some (mk_imap_error
                          (match drv_solutions imap_result with
                           | Some l => l | None => [] end)
                          (match drv_error_type imap_result with
                           | Some k => k | None => "unknown" end)
                          info)
                else None
            | None => None
            end in
          ret (mk_results false EmptyString (Some imap_result) None imap_error)
        else ret results0) ;;
     results2 <-
       (if req_test_smtp q then
          smtp_result <-
            test_smtp_connection w (req_email q) (req_password q)
              (req_smtp_host q) (req_smtp_port q)
              (req_smtp_secure q) (req_smtp_starttls q) (req_timeout q) ;;
          ret (mk_results (res_success results1) (res_message results1)
                 (res_imap results1) (Some smtp_result)
                 (res_imap_error results1))
        else ret results1) ;;
     final <- overall_result (req_test_imap q) (req_test_smtp q) results2 ;;
     ret (Results final))
    (fun e => ret (InternalError ("Erro interno do servidor: " ++ exn_str e))).

End Validator.

(* ================================================================== *)
(** ** The classifier and the provider directory on any text

    [PyStr.lower] and [Diagnostic.re_search] are [str.lower] and [re.search]
    as they act on ASCII text.  On other text Python goes by the case tables
    of Unicode.  Here the classifier and the provider directory are written
    with [str.lower] and [re.search] as parameters, and with the patterns as
    the source spells them: what is proved of them holds whatever the two
    compute, and so for every text. *)

Module AnyText.
Import PyStr PyExc Eff Validator.
Local Open Scope eff_scope.
Local Open Scope Z_scope.

Definition ERROR_PATTERNS : list (string * string) :=
  [ ("(?i)AUTHENTICATE failed", "authentication");
    ("(?i)LOGIN failed", "authentication");
    ("(?i)Invalid credentials", "credentials");
    ("(?i)password", "credentials");
    ("(?i)Application-specific password", "app_password");
    ("(?i)certificate", "ssl_certificate");
    ("(?i)SSL|TLS|STARTTLS", "ssl_connection");
    ("(?i)timeout", "timeout");
    ("(?i)Too many simultaneous", "rate_limit");
    ("(?i)connection refused", "connection_refused");
    ("(?i)socket", "socket");
    ("(?i)Web login", "web_login_required");
    ("(?i)LIMIT/MAX_CONN", "connection_limit");
    ("(?i)SYS/TEMP_FAIL", "temporary_failure");
    ("(?i)denied|prohibited|disallowed", "access_denied");
    ("(?i)blocked|block", "blocked");
    ("(?i)throttl", "throttled");
    ("(?i)banned", "banned") ].

(** The exception classes [classificar_erro_imap] tests when no pattern
    matches, in the order of its [isinstance] chain. *)
Definition runtime_categories : list exc_class :=
  [IMAP4_error; SSLError; socket_timeout; OSError; ConnectionRefusedError].

Section Text.

(** [s.lower()] *)
Variable str_lower : string -> string.

(** Whether [re.search(pattern, text, re.IGNORECASE)] finds a match. *)
Variable re_search : string -> string -> bool.

(** The [for] loop of [classificar_erro_imap]. *)
Fixpoint first_match (patterns : list (string * string)) (text : string)
  : option string :=
  match patterns with
  | [] => None
  | (pattern, error_type) :: rest =>
      if re_search pattern text then Some error_type else first_match rest text
  end.

Definition classificar_erro_imap (erro : exn) (host email : option string)
  : string :=
  let erro_str := str_lower (exn_str erro) in
  match first_match ERROR_PATTERNS erro_str with
  | Some error_type => error_type
  | None =>
      if isinstance erro IMAP4_error then "imap_protocol"
      else if isinstance erro SSLError then "ssl_error"
      else if isinstance erro socket_timeout then "timeout"
      else if isinstance erro OSError then "socket_error"
      else if isinstance erro ConnectionRefusedError then "connection_refused"
      else "unknown"
  end.

(** [email.split('@')[-1].lower()] *)
Definition email_domain (email : string) : string :=
  str_lower (last_item (split "@" email)).

Definition detect_provider_config (w : world) (email : string)
  : M provider_config :=
  let domain := str_lower (last_item (split "@" email)) in
  if contains "gmail" domain then lift (lookup "gmail" KNOWN_PROVIDERS)
  else if contains "outlook" domain || contains "hotmail" domain
          || contains "live" domain
  then lift (lookup "outlook" KNOWN_PROVIDERS)
  else if contains "yahoo" domain then lift (lookup "yahoo" KNOWN_PROVIDERS)
  else
    inferred <-
      try_except
        (result <- call DnsResolveMX (resolve_MX w domain) ;;
         match result with
         | first :: _ =>
             let mx_record := exchange first in
             if contains "google" mx_record || contains "gmail" mx_record
             then cfg <- lift (lookup "gmail" KNOWN_PROVIDERS) ;; ret (Some cfg)
             else if contains "outlook" mx_record
                     || contains "microsoft" mx_record
             then cfg <- lift (lookup "outlook" KNOWN_PROVIDERS) ;; ret (Some cfg)
             else if contains "yahoo" mx_record
             then cfg <- lift (lookup "yahoo" KNOWN_PROVIDERS) ;; ret (Some cfg)
             else ret None
         | [] => ret None
         end)
        (fun _ => ret None) ;;
    match inferred with
    | Some cfg => ret cfg
    | None => ret (default_config domain)
    end.

End Text.

(** The two parameters on ASCII text: [lower], and [Diagnostic.re_search] on
    the alternatives of the pattern, which follow its [(?i)] flag. *)
Definition ascii_search (pattern text : string) : bool :=
  Diagnostic.re_search (split "|" (slice_from 4 pattern)) text.

End AnyText.

(* ================================================================== *)
(** ** [app.py]: the routes around the probes *)

Module Service.
Import PyStr PyExc Eff Validator.
Local Open Scope eff_scope.
Local Open Scope Z_scope.

(** *** [require_api_key] *)

(** What the decorated route does: answer 401, or run the route. *)
Inductive guarded (A : Type) : Type :=
  | Unauthorized
  | Proceed (a : A).
Arguments Unauthorized {A}.
Arguments Proceed {A} a.

(** [API_KEY] is read from the environment; [authorization] is the value of
    the [Authorization] header, [None] when the header is absent. *)
Definition require_api_key {A} (API_KEY : string)
  (authorization : option string) (f : A) : guarded A :=
  let api_key :=
    match authorization with
    | Some k =>
        if truthy k && startswith "Bearer " k then Some (slice_from 7 k)
        else Some k
    | None => None
    end in
  match api_key with
  | Some k =>
      if negb (truthy k) || negb (String.eqb k API_KEY) then Unauthorized
      else Proceed f
  | None => Unauthorized
  end.

(** *** [get_service_uptime] *)

(** A [datetime.timedelta], as Python keeps it. *)
Record timedelta : Type := mk_timedelta {
  td_days : Z;
  td_seconds : Z;
  td_microseconds : Z
}.

(** The days, hours, minutes and seconds shown by [get_service_uptime] for
    the difference [now - SERVICE_START_TIME]. *)
Definition uptime_fields (uptime : timedelta) : Z * Z * Z * Z :=
  let days := td_days uptime in
  let hours := td_seconds uptime / 3600 in
  let remainder := td_seconds uptime mod 3600 in
  let minutes := remainder / 60 in
  let seconds := remainder mod 60 in
  (days, hours, minutes, seconds).

Definition uptime_formatted (uptime : timedelta) : string :=
  let '(days, hours, minutes, seconds) := uptime_fields uptime in
  str_of_Z days ++ "d " ++ str_of_Z hours ++ "h " ++ str_of_Z minutes ++ "m "
    ++ str_of_Z seconds ++ "s".

(** *** [check_server] *)

Record server_result : Type := mk_server_result {
  srv_success : bool;
  srv_message : string;
  srv_dns : check_result;
  srv_network : option check_result
}.

Inductive server_response : Type :=
  | ServerResult (r : server_result)
  | ServerBadRequest (message : string)    (* 400 *)
  | ServerError (message : string).        (* 500 *)

(** [host] is [None] when the request has no body or no [host] key; [port]
    is the outcome of [int(data.get('port', 0))]. *)
Definition check_server (w : world) (DEFAULT_TIMEOUT : Z)
  (host : option string) (port : outcome Z) : M server_response :=
  try_except
    (match host with
     | None => ret (ServerBadRequest "Parâmetro host é obrigatório")
     | Some host =>
         port <- lift port ;;
         dns_result <- check_dns w host ;;
         let result :=
           mk_server_result (chk_success dns_result) (chk_message dns_result)
             dns_result None in
         if (0 <? port) && chk_success dns_result then
           net_result <- test_network_connection w host port DEFAULT_TIMEOUT ;;
           let success := srv_success result && chk_success net_result in
           let message :=
             if negb (chk_success net_result) then chk_message net_result
             else srv_message result in
           ret (ServerResult
                  (mk_server_result success message dns_result (Some net_result)))
         else ret (ServerResult result)
     end)
    (fun e => ret (ServerError ("Erro interno do servidor: " ++ exn_str e))).

(** *** The endpoint settings of [test_connection] *)

(** The fields of the request body that [test_connection] reads for its
    settings; an absent key is [None].  The ports are the integers that
    [int(...)] returns: a request whose port is not a number is outside this
    record. *)
Record settings_request : Type := mk_settings_request {
  sr_email : string;
  sr_autodetect : option bool;
  sr_imapHost : option string;
  sr_imapPort : option Z;
  sr_imapSecure : option bool;
  sr_smtpHost : option string;
  sr_smtpPort : option Z;
  sr_smtpSecure : option bool;
  sr_smtpStartTLS : option bool
}.

Record settings : Type := mk_settings {
  set_imap_host : string;
  set_imap_port : Z;
  set_imap_secure : bool;
  set_smtp_host : string;
  set_smtp_port : Z;
  set_smtp_secure : bool;
  set_smtp_starttls : bool
}.

(** [d.get(key, default)] *)
Definition get {A} (field : option A) (default : A) : A :=
  match field with Some v => v | None => default end.

Definition key_missing : exn := mk_exn KeyError "missing key".

(** [d[key]] *)
Definition item {A} (field : option A) : M A :=
  match field with Some v => ret v | None => raise key_missing end.

Definition present {A} (field : option A) : bool :=
  match field with Some _ => true | None => false end.

(** The block of [test_connection] that settles the endpoints. *)
Definition resolve_settings (w : world) (data : settings_request) : M settings :=
  let detect_settings := get (sr_autodetect data) true in
  if negb (present (sr_imapHost data) && present (sr_imapPort data)
           && present (sr_smtpHost data) && present (sr_smtpPort data))
     || detect_settings
  then
    provider_settings <- detect_provider_config w (sr_email data) ;;
    let imap := cfg_imap provider_settings in
    let smtp := cfg_smtp provider_settings in
    ret (mk_settings
           (get (sr_imapHost data) (ep_host imap))
           (get (sr_imapPort data) (ep_port imap))
           (get (sr_imapSecure data) (ep_secure imap))
           (get (sr_smtpHost data) (ep_host smtp))
           (get (sr_smtpPort data) (ep_port smtp))
           (get (sr_smtpSecure data) (ep_secure smtp))
           (get (sr_smtpStartTLS data) (get (ep_starttls smtp) true)))
  else
    imap_host <- item (sr_imapHost data) ;;
    imap_port <- item (sr_imapPort data) ;;
    smtp_host <- item (sr_smtpHost data) ;;
    smtp_port <- item (sr_smtpPort data) ;;
    ret (mk_settings
           imap_host imap_port
           (get (sr_imapSecure data) (imap_port =? 993))
           smtp_host smtp_port
           (get (sr_smtpSecure data) (smtp_port =? 465))
           (get (sr_smtpStartTLS data) (smtp_port =? 587))).

(** A field of the settings agrees with the request when the request gives it. *)
Definition honours {A} (field : option A) (value : A) : Prop :=
  match field with Some v => value = v | None => True end.

(** Whether the request makes [test_connection] skip provider resolution. *)
Definition detection_skipped (data : settings_request) : bool :=
  present (sr_imapHost data) && present (sr_imapPort data)
  && present (sr_smtpHost data) && present (sr_smtpPort data)
  && negb (get (sr_autodetect data) true).

(** *** [verify_email_domain] *)

Record domain_report : Type := mk_domain_report {
  dr_domain : string;
  dr_hasMxRecords : bool;
  dr_mxRecords : list mx_record;
  dr_provider : string;
  dr_imap : endpoint;
  dr_smtp : endpoint;
  dr_needsAppPassword : option bool;
  dr_instructions : option string
}.

Inductive domain_response : Type :=
  | DomainReport (r : domain_report)
  | DomainBadRequest (message : string)    (* 400 *)
  | DomainError (message : string).        (* 500 *)

(** The name [verify_email_domain] gives to the provider; [str_lower] is
    [str.lower]. *)
Definition provider_name_of (str_lower : string -> string) (domain : string)
  (mx_records : list mx_record) : string :=
  if contains "gmail" domain then "Gmail"
  else if contains "outlook" domain || contains "hotmail" domain
          || contains "live" domain then "Outlook/Microsoft"
  else if contains "yahoo" domain then "Yahoo"
  else
    match mx_records with
    | first :: _ =>
        let mx_domain := str_lower (exchange first) in
        if contains "google" mx_domain || contains "gmail" mx_domain
        then "Gmail (G Suite)"
        else if contains "outlook" mx_domain || contains "microsoft" mx_domain
        then "Microsoft 365"
        else if contains "yahoo" mx_domain then "Yahoo"
        else if contains "zoho" mx_domain then "Zoho"
        else if contains "protonmail" mx_domain then "ProtonMail"
        else "Desconhecido"
    | [] => "Desconhecido"
    end.

(** [email] is [None] when the request has no body or no [email] key, and
    [str_lower] is [str.lower].  Two MX queries go out: the one of the route
    itself and, after it, the one of [detect_provider_config].  The network
    may answer them differently, so the first is answered by [w] and the
    second by [later].  The elapsed time of the report is left out. *)
Definition verify_email_domain (str_lower : string -> string)
  (w later : world) (email : option string) : M domain_response :=
  try_except
    (match email with
     | None => ret (DomainBadRequest "Parâmetro email é obrigatório")
     | Some email =>
         let domain := str_lower (last_item (split "@" email)) in
         mx <-
           try_except
             (mx_result <- call DnsResolveMX (resolve_MX w domain) ;;
              ret ((0 <? Z.of_nat (List.length mx_result)), mx_result))
             (fun _ => ret (false, [])) ;;
         let '(has_mx, mx_records) := mx in
         provider_settings <-
           AnyText.detect_provider_config str_lower later email ;;
         let provider_name := provider_name_of str_lower domain mx_records in
         let is_gmail := String.eqb provider_name "Gmail" in
         ret (DomainReport
                (mk_domain_report domain has_mx mx_records provider_name
                   (cfg_imap provider_settings) (cfg_smtp provider_settings)
                   (if is_gmail then Some true else None)
                   (if is_gmail
                    then Some "Para o Gmail, você precisa ativar a verificação em duas etapas e usar uma senha de aplicativo."
                    else None)))
     end)
    (fun e => ret (DomainError ("Erro interno do servidor: " ++ exn_str e))).

(** *** [check_email_providers] *)

(** [d[key] = value] on a dictionary kept in insertion order. *)
Fixpoint dict_set {V} (key : string) (value : V) (d : list (string * V))
  : list (string * V) :=
  match d with
  | [] => [(key, value)]
  | (k, v) :: rest =>
      if String.eqb k key then (key, value) :: rest
      else (k, v) :: dict_set key value rest
  end.

Record provider_target : Type := mk_target {
  pt_name : string;
  pt_imap : string;
  pt_imap_port : Z;
  pt_smtp : string;
  pt_smtp_port : Z
}.

Definition providers_to_check : list provider_target :=
  [ mk_target "Gmail" "imap.gmail.com" 993 "smtp.gmail.com" 587;
    mk_target "Outlook" "outlook.office365.com" 993 "smtp.office365.com" 587;
    mk_target "Yahoo" "imap.mail.yahoo.com" 993 "smtp.mail.yahoo.com" 587 ].

(** One entry of the report; its response time is left out. *)
Record probe_entry : Type := mk_probe_entry {
  pe_success : bool;
  pe_message : string
}.

(** One of the two [try] blocks of the loop body: the entry it stores, and
    the value of [all_success] after it. *)
Definition probe_endpoint (w : world) (ok_message host : string) (port : Z)
  (all_success : bool) : M (probe_entry * bool) :=
  try_except
    (dns_result <- check_dns w host ;;
     if chk_success dns_result then
       result <- test_network_connection w host port 5 ;;
       ret (mk_probe_entry (chk_success result)
              (if negb (chk_success result) then chk_message result
               else ok_message),
            if negb (chk_success result) then false else all_success)
     else
       ret (mk_probe_entry false
              ("Falha na resolução DNS: " ++ chk_message dns_result),
            false))
    (fun e => ret (mk_probe_entry false ("Erro: " ++ exn_str e), false)).

Definition provider_results : Type := list (string * (probe_entry * probe_entry)).

Fixpoint check_providers_loop (w : world) (providers : list provider_target)
  (results : provider_results) (all_success : bool)
  : M (provider_results * bool) :=
  match providers with
  | [] => ret (results, all_success)
  | provider :: rest =>
      i <- probe_endpoint w "Conectividade IMAP OK" (pt_imap provider)
             (pt_imap_port provider) all_success ;;
      s <- probe_endpoint w "Conectividade SMTP OK" (pt_smtp provider)
             (pt_smtp_port provider) (snd i) ;;
      check_providers_loop w rest
        (dict_set (pt_name provider) (fst i, fst s) results) (snd s)
  end.

(** The report of the route; its timestamp is left out. *)
Record providers_report : Type := mk_providers_report {
  cep_success : bool;
  cep_message : string;
  cep_providers : provider_results
}.

Definition check_email_providers (w : world) : M providers_report :=
  r <- check_providers_loop w providers_to_check [] true ;;
  let all_success := snd r in
  ret (mk_providers_report all_success
         (if all_success then "Todos os provedores acessíveis"
          else "Problemas de conectividade detectados")
         (fst r)).

(** Whether the world lets the two checks of an endpoint succeed. *)
Definition endpoint_ok (w : world) (host : string) (port : Z) : bool :=
  dns_ok w host && reachable w host port 5.

(** *** [check_external_connectivity] and [health_check] *)

Record health_target : Type := mk_health_target {
  ht_host : string;
  ht_port : Z;
  ht_protocol : string
}.

Definition HEALTH_CHECK_TARGETS : list health_target :=
  [ mk_health_target "dns.google" 53 "dns";
    mk_health_target "www.google.com" 443 "https" ].

(** One entry of the connectivity report; its response time is left out. *)
Record target_entry : Type := mk_target_entry {
  te_success : bool;
  te_message : string;
  te_error : option string
}.

Definition connectivity_loop_body (w : world) (target : health_target)
  (results : list (string * target_entry)) : M (list (string * target_entry)) :=
  let host := ht_host target in
  let port := ht_port target in
  let protocol := ht_protocol target in
  try_except
    (if existsb (String.eqb protocol) ["tcp"; "http"; "https"] then
       connection_result <- test_network_connection w host port 5 ;;
       ret (dict_set host
              (mk_target_entry (chk_success connection_result)
                 (chk_message connection_result) None) results)
     else if String.eqb protocol "dns" then
       dns_result <- check_dns w host ;;
       ret (dict_set host
              (mk_target_entry (chk_success dns_result)
                 (chk_message dns_result) None) results)
     else ret results)
    (fun e =>
       ret (dict_set host
              (mk_target_entry false
                 ("Erro ao verificar conectividade com " ++ host ++ ":"
                    ++ str_of_Z port)
                 (Some (exn_str e))) results)).

Fixpoint connectivity_loop (w : world) (targets : list health_target)
  (results : list (string * target_entry)) : M (list (string * target_entry)) :=
  match targets with
  | [] => ret results
  | target :: rest =>
      results' <- connectivity_loop_body w target results ;;
      connectivity_loop w rest results'
  end.

Record connectivity_report : Type := mk_connectivity {
  con_targets : list (string * target_entry);
  con_overall_success : bool
}.

Definition check_external_connectivity (w : world) : M connectivity_report :=
  results <- connectivity_loop w HEALTH_CHECK_TARGETS [] ;;
  ret (mk_connectivity results
         (forallb (fun entry => te_success (snd entry)) results)).

Section Health.

(** The numbers sampled by [psutil]: processor, memory and disk usage. *)
Variable snapshot : Type.

(** What the host answers to the calls of [health_check] that are not
    network probes. *)
Record host_system : Type := mk_host_system {
  hs_hostname : outcome string;
  hs_platform : outcome string;
  hs_python_version : outcome string;
  hs_sample : outcome snapshot;
  hs_uptime : timedelta
}.

(** The result of [get_system_resources]: the sample, or [{'error': text}]. *)
Inductive resources : Type :=
  | Sampled (s : snapshot)
  | SamplingError (text : string).

Definition get_system_resources (h : host_system) : resources :=
  match hs_sample h with
  | Ok s => Sampled s
  | Raise e => SamplingError (exn_str e)
  end.

(** [resources.get('error')], as a truth value. *)
Definition resources_error (r : resources) : bool :=
  match r with
  | Sampled _ => false
  | SamplingError text => truthy text
  end.

Record health_details : Type := mk_health_details {
  hd_status : string;
  hd_hostname : string;
  hd_platform : string;
  hd_python_version : string;
  hd_resources : resources;
  hd_uptime_formatted : string;
  hd_connectivity : connectivity_report
}.

Inductive health_response : Type :=
  | HealthBasic (status : string)
  | HealthDetailed (d : health_details)
  | HealthError (status error : string).     (* 500 *)

(** [detailed] is the query argument of that name, [None] when absent.  The
    response time of the report is left out. *)
Definition health_check (w : world) (h : host_system) (detailed : option string)
  : M health_response :=
  let is_detailed := String.eqb (lower (get detailed "false")) "true" in
  if negb is_detailed then ret (HealthBasic "healthy")
  else
    try_except
      (hostname <- lift (hs_hostname h) ;;
       platform <- lift (hs_platform h) ;;
       python_version <- lift (hs_python_version h) ;;
       let resources := get_system_resources h in
       let uptime := uptime_formatted (hs_uptime h) in
       connectivity <- check_external_connectivity w ;;
       let overall_status := "healthy" in
       let overall_status :=
         if negb (con_overall_success connectivity) then "degraded"
         else overall_status in
       let overall_status :=
         if resources_error resources then "warning" else overall_status in
       ret (HealthDetailed
              (mk_health_details overall_status hostname platform
                 python_version resources uptime connectivity)))
      (fun e => ret (HealthError "unhealthy" (exn_str e))).

End Health.

End Service.

(* ================================================================== *)
(** ** [imap_diagnostic_endpoint.py] *)

Module DiagnosticEndpoint.
Import PyStr PyExc Eff Validator.
Local Open Scope eff_scope.
Local Open Scope Z_scope.

(** A value that is a [bytes] or a [str]: an item of [imap.capabilities], or
    the welcome banner. *)
Inductive pyobj : Type :=
  | PyBytes (b : string)
  | PyStr (s : string).

Definition pyobj_eqb (a b : pyobj) : bool :=
  match a, b with
  | PyBytes x, PyBytes y => String.eqb x y
  | PyStr x, PyStr y => String.eqb x y
  | _, _ => false
  end.

(** [x in caps] *)
Definition py_in (x : pyobj) (caps : list pyobj) : bool :=
  existsb (pyobj_eqb x) caps.

Definition squote : ascii := ascii_of_nat 39.
Definition backslash : ascii := ascii_of_nat 92.

Definition hex_digit (n : nat) : ascii :=
  ascii_of_nat (if (n <? 10)%nat then 48 + n else 87 + n).

(** [repr(b)] of a [bytes]. *)
Definition bytes_repr (b : string) : string :=
  let quote :=
    if contains (String squote EmptyString) b
       && negb (contains (String dquote EmptyString) b)
    then dquote else squote in
  let escape (c : ascii) : string :=
    let n := nat_of_ascii c in
    if Ascii.eqb c quote || Ascii.eqb c backslash
    then String backslash (String c EmptyString)
    else if (n =? 9)%nat then String backslash "t"
    else if (n =? 10)%nat then String backslash "n"
    else if (n =? 13)%nat then String backslash "r"
    else if (n <? 32)%nat || (127 <=? n)%nat
    then String backslash
           (String "x" (String (hex_digit (n / 16))
                          (String (hex_digit (n mod 16)) EmptyString)))
    else String c EmptyString in
  let fix body (s : string) : string :=
    match s with
    | EmptyString => EmptyString
    | String c s' => escape c ++ body s'
    end in
  String "b" (String quote (body b ++ String quote EmptyString)).

(** [str(x)] *)
Definition py_str (x : pyobj) : string :=
  match x with
  | PyBytes b => bytes_repr b
  | PyStr s => s
  end.

Definition py_truthy (x : pyobj) : bool :=
  match x with
  | PyBytes b => truthy b
  | PyStr s => truthy s
  end.

(** The white space of [\s], on the ASCII characters. *)
Definition is_space (c : ascii) : bool :=
  let n := nat_of_ascii c in
  ((9 <=? n) && (n <=? 13) || (28 <=? n) && (n <=? 32))%nat.

Fixpoint skip_nonspace (s : string) : string :=
  match s with
  | EmptyString => EmptyString
  | String c s' => if is_space c then s else skip_nonspace s'
  end.

(** Whether [IMAP4[^\s]* server] matches at the start of the string. *)
Definition imap4_server_follows (s : string) : bool :=
  startswith "IMAP4" s
  && startswith " server" (skip_nonspace (slice_from 5 s)).

(** The first group of [re.search(r'([^\s]+) IMAP4[^\s]* server', welcome)]:
    the first word that is followed by one blank, [IMAP4], any characters
    that are not white space, one blank and [server].  [word] is the word
    being read. *)
Fixpoint search_server_type (word s : string) : option string :=
  match s with
  | EmptyString => None
  | String c s' =>
      if is_space c then
        if Ascii.eqb c " " && truthy word && imap4_server_follows s'
        then Some word
        else search_server_type EmptyString s'
      else search_server_type (word ++ String c EmptyString) s'
  end.

(** What the server shows besides the answers to the commands: the value of
    [imap.capabilities] and of [imap.welcome] ([None] when the attribute is
    missing). *)
Record imap_server : Type := mk_imap_server {
  srv_capabilities : list pyobj;
  srv_welcome : option pyobj
}.

Record server_info : Type := mk_server_info {
  welcome_message : string;
  server_type : option string
}.

(** The block that reads the welcome banner; it may raise when the banner
    does not decode. *)
Definition read_server_info (server : imap_server) : outcome (option server_info) :=
  match srv_welcome server with
  | Some banner =>
      if py_truthy banner then
        obind (match banner with
               | PyBytes b => decode_utf8 b
               | PyStr _ => Ok (py_str banner)
               end)
          (fun welcome =>
             Ok (Some (mk_server_info welcome
                         (search_server_type EmptyString welcome))))
      else Ok None
  | None => Ok None
  end.

Record server_features : Type := mk_features {
  idle_supported : bool;
  condstore_supported : bool;
  enable_supported : bool;
  id_supported : bool
}.

(** The result of [teste_imap_especifico]; the times of [connection_info]
    are left out. *)
Record test_result : Type := mk_test_result {
  tr_success : bool;
  tr_message : string;
  tr_test_type : string;
  tr_diagnostics : option Diagnostic.sanitized;
  tr_server_capabilities : list string;
  tr_server_features : option server_features;
  tr_folders : option (list string);      (* names; count is their number *)
  tr_server_info : option server_info
}.

(** A call whose exception is kept as a value, so that the result built so
    far can be handed to the handler. *)
Definition attempt {A} (m : M A) : M (outcome A) :=
  fun t => let '(o, t') := m t in (Ok o, t').

(** The [except Exception] clause of [teste_imap_especifico], applied to the
    result as it stands when the exception is raised. *)
Definition teste_except (email host : string) (result : test_result) (e : exn)
  : M test_result :=
  _ <- lift (Diagnostic.diagnosticar_erro_imap e (Some host) (Some email)) ;;
  diagnostics <- lift (Diagnostic.sanitizar_erro_imap e (Some host) (Some email)) ;;
  ret (mk_test_result (tr_success result) (Diagnostic.message diagnostics)
         (tr_test_type result) (Some diagnostics)
         (tr_server_capabilities result) (tr_server_features result)
         (tr_folders result) (tr_server_info result)).

Definition teste_imap_especifico (w : world) (server : imap_server)
  (email password host : string) (port : Z) (secure : bool)
  (test_type : string) : M test_result :=
  let is_one_of l := existsb (String.eqb test_type) l in
  let result := mk_test_result false EmptyString test_type None [] None None
                  None in
  opened <- attempt (call ImapOpen (imap_open w secure host port 30)) ;;
  match opened with
  | Raise e => teste_except email host result e
  | Ok _ =>
      let result :=
        if is_one_of ["capabilities"; "all"] then
          let caps := srv_capabilities server in
          mk_test_result (tr_success result) (tr_message result) test_type None
            (map py_str caps)
            (Some (mk_features (py_in (PyBytes "IDLE") caps)
                     (py_in (PyBytes "CONDSTORE") caps)
                     (py_in (PyBytes "ENABLE") caps)
                     (py_in (PyBytes "ID") caps)))
            None None
        else result in
      after_login <-
        (if is_one_of ["login"; "all"] then
           logged <- attempt (call ImapLogin (imap_login w email password)) ;;
           match logged with
           | Raise e => ret (result, Some e)
           | Ok _ =>
               let result :=
                 mk_test_result true (tr_message result) test_type None
                   (tr_server_capabilities result) (tr_server_features result)
                   None None in
               if is_one_of ["folders"; "all"] then
                 listed <- attempt (call ImapList (imap_list w)) ;;
                 match listed with
                 | Raise e => ret (result, Some e)
                 | Ok (status, mailbox_list) =>
                     if String.eqb status "OK" then
                       ret (mk_test_result true (tr_message result) test_type
                              None (tr_server_capabilities result)
                              (tr_server_features result)
                              (Some (parse_mailbox_list mailbox_list)) None,
                            None)
                     else ret (result, None)
                 end
               else ret (result, None)
           end
         else ret (result, None)) ;;
      match after_login with
      | (result, Some e) => teste_except email host result e
      | (result, None) =>
          let result :=
            match read_server_info server with
            | Ok (Some info) =>
                mk_test_result (tr_success result) (tr_message result)
                  test_type None (tr_server_capabilities result)
                  (tr_server_features result) (tr_folders result) (Some info)
            | _ => result
            end in
          try_except (call ImapLogout (imap_logout w)) (fun _ => ret tt) ;;;
          ret (if tr_success result then
                 mk_test_result true
                   ("Teste de " ++ test_type ++ " completado com sucesso")
                   test_type None (tr_server_capabilities result)
                   (tr_server_features result) (tr_folders result)
                   (tr_server_info result)
               else result)
      end
  end.

(** *** [imap_server_capabilities] *)

Definition startswith_type_error : exn :=
  mk_exn TypeError "startswith first arg must be str or a tuple of str, not bytes".

Definition str_has_no_decode : exn :=
  mk_exn AttributeError "'str' object has no attribute 'decode'".

(** [cap.startswith(b'AUTH=')]: a [str] refuses a [bytes] prefix. *)
Definition starts_with_auth (cap : pyobj) : outcome bool :=
  match cap with
  | PyBytes b => Ok (startswith "AUTH=" b)
  | PyStr _ => Raise startswith_type_error
  end.

(** [any(cap.startswith(b'AUTH=') for cap in caps)] *)
Fixpoint any_starts_with_auth (caps : list pyobj) : outcome bool :=
  match caps with
  | [] => Ok false
  | cap :: rest =>
      obind (starts_with_auth cap)
        (fun found => if found then Ok true else any_starts_with_auth rest)
  end.

(** The loop that collects the SASL mechanisms. *)
Fixpoint collect_sasl_methods (caps : list pyobj) (sasl_methods : list string)
  : outcome (list string) :=
  match caps with
  | [] => Ok sasl_methods
  | cap :: rest =>
      obind (starts_with_auth cap)
        (fun found =>
           if found then
             match cap with
             | PyBytes b =>
                 obind (decode_utf8 (slice_from 5 b))
                   (fun method =>
                      collect_sasl_methods rest (sasl_methods ++ [method])%list)
             | PyStr _ => Raise str_has_no_decode
             end
           else collect_sasl_methods rest sasl_methods)
  end.

Record capability_features : Type := mk_capability_features {
  cf_idle_supported : bool;
  cf_condstore_supported : bool;
  cf_enable_supported : bool;
  cf_id_supported : bool;
  cf_sasl_supported : bool;
  cf_sasl_methods : option (list string)
}.

(** The result of [imap_server_capabilities]; its connection time is left
    out. *)
Record capabilities_result : Type := mk_capabilities_result {
  cap_success : bool;
  cap_host : string;
  cap_port : Z;
  cap_secure : bool;
  cap_capabilities : list string;
  cap_welcome_message : option string;
  cap_server_type : option string;
  cap_features : option capability_features;
  cap_error : option string;
  cap_error_type : option string
}.

Inductive capabilities_response : Type :=
  | CapabilitiesResult (r : capabilities_result)
  | CapabilitiesBadRequest (message : string)     (* 400 *)
  | CapabilitiesError (message : string).         (* 500 *)

(** The inner [except Exception] clause, applied to the result as it stands
    when the exception is raised. *)
Definition capabilities_except (host : string) (r : capabilities_result)
  (e : exn) : capabilities_result :=
  mk_capabilities_result (cap_success r) (cap_host r) (cap_port r)
    (cap_secure r) (cap_capabilities r) (cap_welcome_message r)
    (cap_server_type r) (cap_features r) (Some (exn_str e))
    (Some (Diagnostic.classificar_erro_imap e (Some host) None)).

(** The steps of the inner [try] block after the connection is open, up to
    the logout: the result as it stands at the end or at the exception. *)
Definition read_capabilities (server : imap_server) (r : capabilities_result)
  : capabilities_result * option exn :=
  let caps := srv_capabilities server in
  let r := mk_capabilities_result (cap_success r) (cap_host r) (cap_port r)
             (cap_secure r) (map py_str caps) None None None None None in
  match any_starts_with_auth caps with
  | Raise e => (r, Some e)
  | Ok sasl_supported =>
      let features :=
        mk_capability_features (py_in (PyBytes "IDLE") caps)
          (py_in (PyBytes "CONDSTORE") caps) (py_in (PyBytes "ENABLE") caps)
          (py_in (PyBytes "ID") caps) sasl_supported None in
      let r := mk_capabilities_result (cap_success r) (cap_host r) (cap_port r)
                 (cap_secure r) (cap_capabilities r) None None (Some features)
                 None None in
      match read_server_info server with
      | Raise e => (r, Some e)
      | Ok info =>
          let r :=
            match info with
            | Some i =>
                mk_capabilities_result (cap_success r) (cap_host r)
                  (cap_port r) (cap_secure r) (cap_capabilities r)
                  (Some (welcome_message i)) (server_type i) (Some features)
                  None None
            | None => r
            end in
          match collect_sasl_methods caps [] with
          | Raise e => (r, Some e)
          | Ok sasl_methods =>
              (mk_capabilities_result (cap_success r) (cap_host r)
                 (cap_port r) (cap_secure r) (cap_capabilities r)
                 (cap_welcome_message r) (cap_server_type r)
                 (Some (mk_capability_features (cf_idle_supported features)
                          (cf_condstore_supported features)
                          (cf_enable_supported features)
                          (cf_id_supported features) sasl_supported
                          (Some sasl_methods)))
                 None None,
               None)
          end
      end
  end.

(** [host] is [None] when the request has no body or no [host] key; [port]
    is the outcome of [int(data.get('port', 993))]. *)
Definition imap_server_capabilities (w : world) (server : imap_server)
  (host : option string) (port : outcome Z) (secure : bool)
  : M capabilities_response :=
  try_except
    (match host with
     | None => ret (CapabilitiesBadRequest "Parâmetro host é obrigatório")
     | Some host =>
         port <- lift port ;;
         let result := mk_capabilities_result false host port secure [] None
                         None None None None in
         opened <- attempt (call ImapOpen (imap_open w secure host port 10)) ;;
         match opened with
         | Raise e => ret (CapabilitiesResult (capabilities_except host result e))
         | Ok _ =>
             match read_capabilities server result with
             | (result, Some e) =>
                 ret (CapabilitiesResult (capabilities_except host result e))
             | (result, None) =>
                 closed <- attempt (call ImapLogout (imap_logout w)) ;;
                 match closed with
                 | Raise e =>
                     ret (CapabilitiesResult
                            (capabilities_except host result e))
                 | Ok _ =>
                     ret (CapabilitiesResult
                            (mk_capabilities_result true (cap_host result)
                               (cap_port result) (cap_secure result)
                               (cap_capabilities result)
                               (cap_welcome_message result)
                               (cap_server_type result) (cap_features result)
                               None None))
                 end
             end
         end
     end)
    (fun e => ret (CapabilitiesError ("Erro interno do servidor: " ++ exn_str e))).

End DiagnosticEndpoint.

(* ================================================================== *)
(** ** Concrete worlds and inputs used to run the model *)

Module Fixtures.
Import PyStr PyExc Eff Validator.
Local Open Scope Z_scope.

(** A listing line [(\HasNoChildren) "d" "name"] with hierarchy delimiter [d]. *)
Definition listing_line (delimiter name : string) : string :=
  "(\HasNoChildren) " ++ String dquote (delimiter ++ String dquote
    (" " ++ String dquote (name ++ String dquote EmptyString))).

Definition nxdomain : exn :=
  mk_exn Exception "The DNS query name does not exist: unknownmailhost.example.".

(** A world in which everything answers, but for the given outcomes. *)
Definition world_with
  (mx : outcome (list mx_record))
  (connect_ex : outcome Z)
  (login : outcome unit) (logout : outcome unit)
  (quit : outcome unit) : world :=
  {| resolve_A := fun _ => Ok ["192.0.2.10"];
     resolve_MX := fun _ => mx;
     socket_create := Ok tt;
     socket_settimeout := fun _ => Ok tt;
     socket_connect_ex := fun _ _ => connect_ex;
     socket_close := Ok tt;
     imap_open := fun _ _ _ _ => Ok tt;
     imap_login := fun _ _ => login;
     imap_list := Ok ("OK", [ItemBytes (listing_line "." "INBOX");
                             ItemBytes (listing_line "." "Sent")]);
     imap_select := fun _ => Ok tt;
     imap_logout := logout;
     smtp_open := fun _ _ _ _ => Ok tt;
     smtp_ehlo := Ok tt;
     smtp_starttls := Ok tt;
     smtp_ehlo_after_starttls := Ok tt;
     smtp_login := fun _ _ => Ok tt;
     smtp_esmtp_features := Some ["size"; "starttls"; "auth"];
     smtp_quit := quit;
     smtp_code := fun _ => 535 |}.

Definition mx_google_first : world :=
  world_with (Ok [mk_mx 1 "aspmx.l.google.com."; mk_mx 5 "mx.backup.example."])
    (Ok 0) (Ok tt) (Ok tt) (Ok tt).

Definition mx_google_only : world :=
  world_with (Ok [mk_mx 10 "aspmx.l.google.com."])
    (Ok 0) (Ok tt) (Ok tt) (Ok tt).

Definition all_fine : world :=
  world_with (Raise nxdomain) (Ok 0) (Ok tt) (Ok tt) (Ok tt).

Definition login_rejected : world :=
  world_with (Raise nxdomain) (Ok 0)
    (Raise (mk_exn IMAP4_error "b'[AUTHENTICATIONFAILED] LOGIN failed.'"))
    (Ok tt) (Ok tt).

Definition logout_fails : world :=
  world_with (Raise nxdomain) (Ok 0) (Ok tt)
    (Raise (mk_exn IMAP4_abort "socket error: EOF")) (Ok tt).

Definition quit_fails : world :=
  world_with (Raise nxdomain) (Ok 0) (Ok tt) (Ok tt)
    (Raise (mk_exn SMTPServerDisconnected "Connection unexpectedly closed")).

Definition name_not_known : world :=
  world_with (Raise nxdomain)
    (Raise (mk_exn gaierror "[Errno -2] Name or service not known"))
    (Ok tt) (Ok tt) (Ok tt).

(** The listing of a server whose hierarchy delimiter is [/], and a world in
    which everything answers and the server lists its mailboxes so. *)
Definition slash_delimited_listing : list list_item :=
  [ItemBytes (listing_line "/" "INBOX");
   ItemBytes (listing_line "/" "[Gmail]/Sent Mail")].

Definition lists_with_slash : world :=
  {| resolve_A := resolve_A all_fine;
     resolve_MX := resolve_MX all_fine;
     socket_create := socket_create all_fine;
     socket_settimeout := socket_settimeout all_fine;
     socket_connect_ex := socket_connect_ex all_fine;
     socket_close := socket_close all_fine;
     imap_open := imap_open all_fine;
     imap_login := imap_login all_fine;
     imap_list := Ok ("OK", slash_delimited_listing);
     imap_select := imap_select all_fine;
     imap_logout := imap_logout all_fine;
     smtp_open := smtp_open all_fine;
     smtp_ehlo := smtp_ehlo all_fine;
     smtp_starttls := smtp_starttls all_fine;
     smtp_ehlo_after_starttls := smtp_ehlo_after_starttls all_fine;
     smtp_login := smtp_login all_fine;
     smtp_esmtp_features := smtp_esmtp_features all_fine;
     smtp_quit := smtp_quit all_fine;
     smtp_code := smtp_code all_fine |}.

End Fixtures.

(* ================================================================== *)
(** * Verification *)

(** ** Facts about the string primitives *)

Module PyStrFacts.
Import PyStr.


Lemma startswith_app (p s : string) :
  startswith p s = true <-> exists t, s = p ++ t.
Proof.
  revert s; induction p as [|a p IH]; intros s; simpl.
  - split; [intros _; now exists s | reflexivity].
  - destruct s as [|b s]; simpl.
    + split; [discriminate | intros [t Ht]; discriminate].
    + rewrite andb_true_iff, Ascii.eqb_eq, IH. split.
      * intros [-> [t ->]]. now exists t.
      * intros [t Ht]. injection Ht as -> ->. split; [reflexivity | now exists t].
Qed.

Lemma app_assoc_str (a b c : string) : (a ++ b) ++ c = a ++ (b ++ c).
Proof. induction a as [|x a IH]; simpl; [reflexivity | now rewrite IH]. Qed.

Lemma contains_app (n h : string) :
  contains n h = true <-> exists p t, h = p ++ n ++ t.
Proof.
  induction h as [|c h IH]; simpl.
  - rewrite orb_false_r, startswith_app. split.
    + intros [t Ht]. now exists EmptyString, t.
    + intros [p [t Ht]]. destruct p; simpl in Ht; [now exists t | discriminate].
  - rewrite orb_true_iff, startswith_app, IH. split.
    + intros [[t Ht] | [p [t Ht]]].
      * now exists EmptyString, t.
      * exists (String c p), t. simpl. now rewrite Ht.
    + intros [p [t Ht]]. destruct p as [|x p]; simpl in Ht.
      * left. now exists t.
      * right. injection Ht as _ Ht. now exists p, t.
Qed.

(** A text that contains [a ++ b] contains [b]. *)
Lemma contains_suffix_of_needle (a b h : string) :
  contains (a ++ b) h = true -> contains b h = true.
Proof.
  rewrite !contains_app. intros [p [t ->]].
  exists (p ++ a), t. now rewrite !app_assoc_str.
Qed.

Lemma split_aux_nonempty (sep : string) (s : string) :
  forall skip cur, split_aux sep skip cur s <> [].
Proof.
  induction s as [|c s IH]; intros skip cur; simpl; [discriminate|].
  destruct skip; [|apply IH].
  destruct (startswith sep (String c s)); [discriminate | apply IH].
Qed.

Lemma split_aux_parts (sep s : string) :
  sep <> EmptyString ->
  forall cur, 1 < List.length (split_aux sep 0 cur s) <-> contains sep s = true.
Proof.
  intros Hsep. induction s as [|c s IH]; intros cur.
  - destruct sep as [|a sep]; [congruence|]. simpl. split; [lia | discriminate].
  - cbn [split_aux contains].
    destruct (startswith sep (String c s)) eqn:E; cbn [orb].
    + split; [reflexivity | intros _].
      pose proof (split_aux_nonempty sep s (String.length sep - 1) EmptyString) as H.
      destruct (split_aux sep (String.length sep - 1) EmptyString s);
        [congruence | simpl; lia].
    + apply IH.
Qed.

(** [len(s.split(sep)) > 1] exactly when [sep in s]. *)
Lemma split_parts (sep s : string) :
  sep <> EmptyString ->
  1 < List.length (split sep s) <-> contains sep s = true.
Proof. intros H. now apply split_aux_parts. Qed.

Lemma lower_char_idem (c : ascii) : lower_char (lower_char c) = lower_char c.
Proof.
  destruct c as [[] [] [] [] [] [] [] []]; reflexivity.
Qed.

Lemma lower_idem (s : string) : lower (lower s) = lower s.
Proof.
  induction s as [|c s IH]; simpl; [reflexivity|].
  now rewrite lower_char_idem, IH.
Qed.

End PyStrFacts.

(** ** The exception hierarchy *)

Module PyExcFacts.
Import PyExc.

(** Every connection-refused exception is a socket error. *)
Lemma refused_is_socket_error (e : exn) :
  isinstance e ConnectionRefusedError = true -> isinstance e OSError = true.
Proof. destruct e as [[] t]; cbn; intros H; (reflexivity || discriminate). Qed.

End PyExcFacts.

(** ** The error classifier *)

Module ClassifierProofs.
Import PyStr PyExc PyStrFacts PyExcFacts Diagnostic.

(** The loop returns the kind of one of the patterns. *)
Lemma first_match_in (patterns : list (list string * string)) (text k : string) :
  first_match patterns text = Some k -> In k (map snd patterns).
Proof.
  induction patterns as [|[p kind] rest IH]; simpl; [discriminate|].
  destruct (re_search p text).
  - intros [= ->]. now left.
  - intros H. right. now apply IH.
Qed.

(** No pattern matches exactly when every pattern fails to match. *)
Lemma first_match_none (patterns : list (list string * string)) (text : string) :
  first_match patterns text = None <->
  forallb (fun p => negb (re_search (fst p) text)) patterns = true.
Proof.
  induction patterns as [|[p kind] rest IH]; simpl; [tauto|].
  destruct (re_search p text); simpl; [split; discriminate | exact IH].
Qed.

(** The pattern [password] matches whatever
    [Application-specific password] matches. *)
Lemma password_shadows_app_password (text : string) :
  re_search ["Application-specific password"] text = true ->
  re_search ["password"] text = true.
Proof.
  unfold re_search. cbn [existsb]. rewrite !orb_false_r.
  change (lower "Application-specific password")
    with ("application-specific " ++ lower "password").
  apply contains_suffix_of_needle.
Qed.

Ltac step_pattern text :=
  match goal with
  | |- context [if re_search ?p text then _ else _] =>
      let E := fresh "E" in destruct (re_search p text) eqn:E
  end.

Lemma first_match_never_app_password (text : string) :
  first_match ERROR_PATTERNS text <> Some "app_password".
Proof.
  unfold ERROR_PATTERNS. cbn [first_match].
  do 4 (step_pattern text; [discriminate|]).
  step_pattern text.
  - apply password_shadows_app_password in E3. congruence.
  - repeat (step_pattern text; [discriminate|]). discriminate.
Qed.

Lemma classificar_never_app_password (erro : exn) (host email : option string) :
  classificar_erro_imap erro host email <> "app_password".
Proof.
  unfold classificar_erro_imap.
  destruct (first_match ERROR_PATTERNS (lower (exn_str erro))) as [k|] eqn:E.
  - intros ->. now apply (first_match_never_app_password _ E).
  - repeat match goal with
           | |- context [if isinstance ?e ?c then _ else _] =>
               destruct (isinstance e c)
           end; discriminate.
Qed.

(** C1. The classifier cannot return the [app_password] kind: the text
    "Application-specific password required" is classified as
    [credentials], because the pattern [password] stands before the pattern
    [Application-specific password] in the ordered list; and no error at
    all is classified as [app_password]. *)
Theorem app_password_pattern_is_shadowed :
  classificar_erro_imap
    (mk_exn IMAP4_error "Application-specific password required") None None
  = "credentials"
  /\ forall erro host email,
       classificar_erro_imap erro host email <> "app_password".
Proof.
  split; [vm_compute; reflexivity | apply classificar_never_app_password].
Qed.

Lemma kinds_of_patterns_in_taxonomy :
  incl (map snd ERROR_PATTERNS) error_kinds.
Proof.
  intros k Hk. cbn in Hk. cbn.
  repeat (destruct Hk as [<- | Hk]; [tauto|]). contradiction.
Qed.

Lemma classificar_in_taxonomy (erro : exn) (host email : option string) :
  In (classificar_erro_imap erro host email) error_kinds.
Proof.
  unfold classificar_erro_imap.
  destruct (first_match ERROR_PATTERNS (lower (exn_str erro))) as [k|] eqn:E.
  - apply kinds_of_patterns_in_taxonomy. now apply first_match_in in E.
  - repeat match goal with
           | |- context [if isinstance ?e ?c then _ else _] =>
               destruct (isinstance e c)
           end; cbn; tauto.
Qed.

(** *** The classifier on any text *)

Lemma any_first_match_in (re_search : string -> string -> bool)
  (patterns : list (string * string)) (text k : string) :
  AnyText.first_match re_search patterns text = Some k ->
  In k (map snd patterns).
Proof.
  induction patterns as [|[p kind] rest IH]; simpl; [discriminate|].
  destruct (re_search p text).
  - intros [= ->]. now left.
  - intros H. right. now apply IH.
Qed.

Lemma any_first_match_none (re_search : string -> string -> bool)
  (patterns : list (string * string)) (text : string) :
  AnyText.first_match re_search patterns text = None <->
  forallb (fun p => negb (re_search (fst p) text)) patterns = true.
Proof.
  induction patterns as [|[p kind] rest IH]; simpl; [tauto|].
  destruct (re_search p text); simpl; [split; discriminate | exact IH].
Qed.

Lemma any_pattern_kinds :
  incl (map snd AnyText.ERROR_PATTERNS) error_kinds
  /\ ~ In "unknown" (map snd AnyText.ERROR_PATTERNS).
Proof.
  split.
  - intros k Hk. cbn in Hk. cbn.
    repeat (destruct Hk as [<- | Hk]; [tauto|]). contradiction.
  - cbn. intros H.
    repeat (destruct H as [H | H]; [discriminate|]). exact H.
Qed.

(** With [lower] and [ascii_search] for its parameters, the classifier on
    any text is the classifier of [Diagnostic]. *)
Lemma first_match_on_ascii (patterns : list (string * string)) (text : string) :
  first_match
    (map (fun p => (split "|" (slice_from 4 (fst p)), snd p)) patterns) text
  = AnyText.first_match AnyText.ascii_search patterns text.
Proof.
  induction patterns as [|[p kind] rest IH]; [reflexivity|].
  cbn [map first_match AnyText.first_match fst snd].
  unfold AnyText.ascii_search at 1. now rewrite IH.
Qed.

Lemma classificar_erro_imap_on_ascii (erro : exn) (host email : option string) :
  classificar_erro_imap erro host email
  = AnyText.classificar_erro_imap lower AnyText.ascii_search erro host email.
Proof.
  unfold classificar_erro_imap, AnyText.classificar_erro_imap.
  now rewrite <- first_match_on_ascii.
Qed.

(** C4. The classifier is total and deterministic, whatever [str.lower] and
    [re.search] compute: it returns a kind of the taxonomy for every error,
    the kind depends on the error alone (not on the host or the email, and
    not on the call), and the kind is [unknown] exactly when the lowered
    text of the error matches none of the patterns and the error belongs to
    none of the runtime categories. *)
Theorem classificar_total_deterministic
  (str_lower : string -> string) (re_search : string -> string -> bool)
  (erro : exn) (host email : option string) :
  let classify := AnyText.classificar_erro_imap str_lower re_search in
  In (classify erro host email) error_kinds
  /\ (forall host' email',
        classify erro host' email' = classify erro host email)
  /\ (classify erro host email = "unknown"
      <-> forallb (fun p => negb (re_search (fst p) (str_lower (exn_str erro))))
            AnyText.ERROR_PATTERNS = true
          /\ existsb (isinstance erro) AnyText.runtime_categories = false).
Proof.
  cbv zeta. destruct any_pattern_kinds as [Hincl Hunknown].
  unfold AnyText.classificar_erro_imap, AnyText.runtime_categories.
  cbn [existsb]. rewrite <- any_first_match_none.
  destruct (AnyText.first_match re_search AnyText.ERROR_PATTERNS
              (str_lower (exn_str erro))) as [k|] eqn:E.
  - apply any_first_match_in in E.
    split; [now apply Hincl|]. split; [reflexivity|].
    split; [intros -> ; contradiction | intros [H _]; discriminate].
  - destruct (isinstance erro IMAP4_error), (isinstance erro SSLError),
      (isinstance erro socket_timeout), (isinstance erro OSError),
      (isinstance erro ConnectionRefusedError); cbn;
      (split; [tauto|]); (split; [reflexivity|]);
      (split; [intros H; try discriminate H; now split
              | intros [_ H]; try discriminate H; reflexivity]).
Qed.

(** C5. A connection-refused exception whose text matches no pattern is
    classified as [socket_error]: [ConnectionRefusedError] is a subclass of
    [socket.error], whose test stands first, so the branch returning
    [connection_refused] is never taken. *)
Theorem refused_exception_is_socket_error :
  classificar_erro_imap (mk_exn ConnectionRefusedError "refused by peer")
    None None = "socket_error"
  /\ forall text host email,
       classificar_erro_imap (mk_exn ConnectionRefusedError text) host email
       = match first_match ERROR_PATTERNS (lower text) with
         | Some kind => kind
         | None => "socket_error"
         end.
Proof.
  split; [vm_compute; reflexivity|].
  intros text host email. unfold classificar_erro_imap. cbn [exn_str].
  destruct (first_match ERROR_PATTERNS (lower text)); reflexivity.
Qed.

End ClassifierProofs.

(** ** The diagnosis composer *)

Module DiagnosisProofs.
Import PyStr PyExc PyStrFacts Diagnostic.

(** With a host that is a string the provider is always identified. *)
Lemma identificar_provedor_some (host : string) (email : option string) :
  exists p, identificar_provedor (Some host) email = Ok p.
Proof.
  unfold identificar_provedor.
  repeat match goal with
         | |- context [if ?b then _ else _] => destruct b
         end; eexists; reflexivity.
Qed.

Lemma diagnosticar_ok_of_provider (erro : exn) (host email : option string)
  (p : string) :
  (if truthy_opt host || truthy_opt email
   then identificar_provedor host email else Ok "generic") = Ok p ->
  exists d, diagnosticar_erro_imap erro host email = Ok d /\ provedor d = p.
Proof.
  intros H. unfold diagnosticar_erro_imap. rewrite H. cbn [obind].
  eexists. split; reflexivity.
Qed.

Lemma diagnosticar_some_host (erro : exn) (host : string) (email : option string) :
  exists d, diagnosticar_erro_imap erro (Some host) email = Ok d.
Proof.
  destruct (identificar_provedor_some host email) as [p Hp].
  destruct (truthy_opt (Some host) || truthy_opt email) eqn:E.
  - destruct (diagnosticar_ok_of_provider erro (Some host) email p) as [d [Hd _]].
    + now rewrite E.
    + now exists d.
  - destruct (diagnosticar_ok_of_provider erro (Some host) email "generic")
      as [d [Hd _]].
    + now rewrite E.
    + now exists d.
Qed.

(** With a host that is a string the sanitized payload is always built. *)
Lemma sanitizar_some_host (erro : exn) (host : string) (email : option string) :
  exists s, sanitizar_erro_imap erro (Some host) email = Ok s.
Proof.
  destruct (diagnosticar_some_host erro host email) as [d Hd].
  unfold sanitizar_erro_imap. rewrite Hd. cbn [obind]. eexists. reflexivity.
Qed.

Lemma sanitizar_ok_iff_diagnosticar_ok (erro : exn) (host email : option string) :
  is_ok (sanitizar_erro_imap erro host email)
  = is_ok (diagnosticar_erro_imap erro host email).
Proof.
  unfold sanitizar_erro_imap.
  destruct (diagnosticar_erro_imap erro host email); reflexivity.
Qed.

Lemma sanitizar_raises_as_diagnosticar (erro : exn) (host email : option string)
  (e : exn) :
  diagnosticar_erro_imap erro host email = Raise e ->
  sanitizar_erro_imap erro host email = Raise e.
Proof. unfold sanitizar_erro_imap. now intros ->. Qed.

Lemma truthy_nonempty (s : string) : s <> EmptyString -> truthy s = true.
Proof. destruct s; [congruence | reflexivity]. Qed.

(** C2. For the error text "Invalid credentials" and the host
    [imap.gmail.com], whatever the class of the error and whatever the
    email, the sanitized diagnosis has provider [gmail], kind
    [credentials], a message that mentions "Gmail" and "senha de
    aplicativo", and a non-empty list of solutions. *)
Theorem invalid_credentials_on_gmail (c : exc_class) (email : option string) :
  exists s,
    sanitizar_erro_imap (mk_exn c "Invalid credentials")
      (Some "imap.gmail.com") email = Ok s
    /\ provider s = "gmail"
    /\ error_type s = "credentials"
    /\ contains "Gmail" (message s) = true
    /\ contains "senha de aplicativo" (message s) = true
    /\ solutions s <> []
    /\ solutions s
       = [ "Para contas com autenticação de dois fatores: use uma senha de aplicativo";
           "Verifique se o formato da senha de app é correto (16 caracteres em grupos de 4)";
           "Tente gerar uma nova senha de aplicativo" ].
Proof.
  assert (Hp : forall e, identificar_provedor (Some "imap.gmail.com") e = Ok "gmail").
  { intros e. unfold identificar_provedor.
    change (contains "gmail" (lower "imap.gmail.com")) with true.
    reflexivity. }
  unfold sanitizar_erro_imap, diagnosticar_erro_imap.
  change (truthy_opt (Some "imap.gmail.com")) with true. cbn [orb].
  rewrite Hp. cbn [obind].
  eexists. split; [reflexivity|].
  repeat split; try (vm_compute; reflexivity).
  vm_compute. discriminate.
Qed.

(** C10. With [host = None] and a non-empty email, both entry points raise
    the [AttributeError] of [identificar_provedor]; they return normally
    exactly when the host is a string, or the host is [None] and the email
    is absent or empty. *)
Theorem host_none_raises_attribute_error
  (erro : exn) (email : string) (Hemail : email <> EmptyString) :
  diagnosticar_erro_imap erro None (Some email) = Raise none_has_no_lower
  /\ sanitizar_erro_imap erro None (Some email) = Raise none_has_no_lower
  /\ exn_class none_has_no_lower = AttributeError
  /\ (forall host email',
        is_ok (diagnosticar_erro_imap erro host email') = true
        <-> (exists h, host = Some h)
            \/ (host = None /\ truthy_opt email' = false))
  /\ (forall host email',
        is_ok (sanitizar_erro_imap erro host email') = true
        <-> (exists h, host = Some h)
            \/ (host = None /\ truthy_opt email' = false)).
Proof.
  assert (Hd : diagnosticar_erro_imap erro None (Some email)
               = Raise none_has_no_lower).
  { unfold diagnosticar_erro_imap. cbn [truthy_opt orb].
    now rewrite (truthy_nonempty email Hemail). }
  assert (Hiff : forall host email',
             is_ok (diagnosticar_erro_imap erro host email') = true
             <-> (exists h, host = Some h)
                 \/ (host = None /\ truthy_opt email' = false)).
  { intros host email'. destruct host as [h|].
    - destruct (diagnosticar_some_host erro h email') as [d ->].
      split; [intros _; left; now exists h | reflexivity].
    - unfold diagnosticar_erro_imap. cbn [truthy_opt orb].
      destruct (truthy_opt email') eqn:E; cbn.
      + split; [discriminate | intros [[h Hh] | [_ H]]; discriminate].
      + split; [intros _; right; now split | reflexivity]. }
  split; [exact Hd|]. split; [now apply sanitizar_raises_as_diagnosticar|].
  split; [reflexivity|]. split; [exact Hiff|].
  intros host email'. rewrite sanitizar_ok_iff_diagnosticar_ok. apply Hiff.
Qed.

Lemma host_none_raises_attribute_error_witness :
  "user@example.com" <> EmptyString
  /\ sanitizar_erro_imap (mk_exn IMAP4_error "LOGIN failed") None
       (Some "user@example.com") = Raise none_has_no_lower.
Proof.
  split; [discriminate|].
  apply (host_none_raises_attribute_error
           (mk_exn IMAP4_error "LOGIN failed") "user@example.com").
  discriminate.
Defined.

End DiagnosisProofs.

(** ** Computations that always return *)

Module EffFacts.
Import PyExc Eff.

Lemma total_ret {A} (a : A) : total (ret a).
Proof. intros t. now exists a, t. Qed.

Lemma total_bind {A B} (m : M A) (k : A -> M B) :
  total m -> (forall a, total (k a)) -> total (bind m k).
Proof.
  intros Hm Hk t. unfold bind.
  destruct (Hm t) as [a [t' ->]]. apply Hk.
Qed.

(** A [try] whose handler always returns always returns, whatever its body. *)
Lemma total_try_except {A} (m : M A) (handler : exn -> M A) :
  (forall e, total (handler e)) -> total (try_except m handler).
Proof.
  intros Hh t. unfold try_except.
  destruct (m t) as [[a | e] t']; [now exists a, t' | apply Hh].
Qed.

Lemma total_lift_ok {A} (a : A) (o : outcome A) : o = Ok a -> total (lift o).
Proof. intros -> t. now exists a, t. Qed.

Lemma total_if {A} (b : bool) (m1 m2 : M A) :
  total m1 -> total m2 -> total (if b then m1 else m2).
Proof. now destruct b. Qed.

Create HintDb total_db.
#[export] Hint Resolve total_ret total_bind total_try_except total_if : total_db.

End EffFacts.

(** ** Provider directory, probes and drivers *)

Module ValidatorProofs.
Import PyStr PyExc Eff PyStrFacts EffFacts Validator Fixtures.
Local Open Scope Z_scope.

Lemma check_dns_total (w : world) (host : string) : total (check_dns w host).
Proof. unfold check_dns. auto with total_db. Qed.

Lemma test_network_connection_total (w : world) (host : string) (port timeout : Z) :
  total (test_network_connection w host port timeout).
Proof. unfold test_network_connection. auto with total_db. Qed.

Lemma sanitizar_total (e : exn) (host email : string) :
  total (sanitizar e host email).
Proof.
  destruct (DiagnosisProofs.sanitizar_some_host e host (Some email)) as [s Hs].
  unfold sanitizar. now apply (total_lift_ok s).
Qed.

(** Nothing propagates past the boundary of the IMAP driver. *)
Lemma test_imap_connection_total (w : world) (email password host : string)
  (port : Z) (secure : bool) (timeout : Z) :
  total (test_imap_connection w email password host port secure timeout).
Proof.
  unfold test_imap_connection.
  apply total_bind; [apply check_dns_total | intros dns_check].
  apply total_if; [apply total_ret|].
  apply total_bind; [apply test_network_connection_total | intros net_check].
  apply total_if; [apply total_ret|].
  apply total_try_except. intros e. unfold imap_except.
  apply total_bind; [apply sanitizar_total | intros d].
  repeat (apply total_if; try apply total_ret).
Qed.

(** Nothing propagates past the boundary of the SMTP driver. *)
Lemma test_smtp_connection_total (w : world) (email password host : string)
  (port : Z) (secure starttls : bool) (timeout : Z) :
  total (test_smtp_connection w email password host port secure starttls timeout).
Proof.
  unfold test_smtp_connection.
  apply total_bind; [apply check_dns_total | intros dns_check].
  apply total_if; [apply total_ret|].
  apply total_bind; [apply test_network_connection_total | intros net_check].
  apply total_if; [apply total_ret|].
  apply total_try_except. intros e. unfold smtp_except.
  repeat (apply total_if; try apply total_ret).
Qed.

Lemma overall_messages_distinct :
  NoDup [MSG_BOTH_OK; MSG_BOTH_FAILED; MSG_IMAP_FAILED; MSG_SMTP_FAILED;
         MSG_NO_TEST].
Proof.
  repeat constructor; cbn; intuition discriminate.
Qed.

(** C3. The orchestrator always answers with a results payload.  When both
    tests are requested the overall success is the conjunction of the two
    drivers' success flags and the message is the one of the four fixed
    phrasings selected by the two flags; when exactly one test is requested
    the overall success and message are those of that driver; when none is
    requested the message is the fixed "no test requested" phrasing. *)
Theorem test_connection_overall (w : world) (q : request) (t : trace) :
  let run_imap :=
    test_imap_connection w (req_email q) (req_password q)
      (ep_host (req_imap q)) (ep_port (req_imap q)) (ep_secure (req_imap q))
      (req_timeout q) in
  let run_smtp :=
    test_smtp_connection w (req_email q) (req_password q)
      (req_smtp_host q) (req_smtp_port q) (req_smtp_secure q)
      (req_smtp_starttls q) (req_timeout q) in
  exists r t',
    test_connection w q t = (Ok (Results r), t')
    /\ match req_test_imap q, req_test_smtp q with
       | true, true =>
           exists i t1 s,
             run_imap t = (Ok i, t1) /\ run_smtp t1 = (Ok s, t')
             /\ res_imap r = Some i /\ res_smtp r = Some s
             /\ res_success r = drv_success i && drv_success s
             /\ res_message r =
                 match drv_success i, drv_success s with
                 | true, true => MSG_BOTH_OK
                 | false, false => MSG_BOTH_FAILED
                 | false, true => MSG_IMAP_FAILED
                 | true, false => MSG_SMTP_FAILED
                 end
       | true, false =>
           exists i,
             run_imap t = (Ok i, t')
             /\ res_imap r = Some i /\ res_smtp r = None
             /\ res_success r = drv_success i
             /\ res_message r = drv_message i
       | false, true =>
           exists s,
             run_smtp t = (Ok s, t')
             /\ res_imap r = None /\ res_smtp r = Some s
             /\ res_success r = drv_success s
             /\ res_message r = drv_message s
       | false, false =>
           t' = t /\ res_imap r = None /\ res_smtp r = None
           /\ res_success r = false /\ res_message r = MSG_NO_TEST
       end.
Proof.
  intros run_imap run_smtp.
  unfold test_connection, try_except, bind.
  destruct (req_test_imap q), (req_test_smtp q).
  - destruct (test_imap_connection_total w (req_email q) (req_password q)
                (ep_host (req_imap q)) (ep_port (req_imap q))
                (ep_secure (req_imap q)) (req_timeout q) t) as [i [t1 Hi]].
    destruct (test_smtp_connection_total w (req_email q) (req_password q)
                (req_smtp_host q) (req_smtp_port q) (req_smtp_secure q)
                (req_smtp_starttls q) (req_timeout q) t1) as [s [t2 Hs]].
    rewrite Hi. cbn [ret]. rewrite Hs. cbn.
    eexists. exists t2. split; [reflexivity|].
    exists i, t1, s. cbn.
    repeat split; try assumption.
    destruct (drv_success i), (drv_success s); reflexivity.
  - destruct (test_imap_connection_total w (req_email q) (req_password q)
                (ep_host (req_imap q)) (ep_port (req_imap q))
                (ep_secure (req_imap q)) (req_timeout q) t) as [i [t1 Hi]].
    rewrite Hi. cbn.
    eexists. exists t1. split; [reflexivity|].
    exists i. cbn. repeat split; assumption.
  - cbn [ret].
    destruct (test_smtp_connection_total w (req_email q) (req_password q)
                (req_smtp_host q) (req_smtp_port q) (req_smtp_secure q)
                (req_smtp_starttls q) (req_timeout q) t) as [s [t2 Hs]].
    rewrite Hs. cbn.
    eexists. exists t2. split; [reflexivity|].
    exists s. cbn. repeat split; assumption.
  - cbn. eexists. exists t. split; [reflexivity|]. cbn. repeat split.
Qed.

(** *** Release of sockets and sessions *)

Lemma attempted_snoc (op : operation) (t : trace) (ev : event) :
  attempted op (t ++ [ev])%list
  = attempted op t || (if operation_eq_dec (ev_op ev) op then true else false).
Proof.
  unfold attempted. rewrite existsb_app. cbn. now rewrite orb_false_r.
Qed.

Lemma returned_snoc (op : operation) (t : trace) (ev : event) :
  returned op (t ++ [ev])%list
  = returned op t
    || ((if operation_eq_dec (ev_op ev) op then true else false)
        && ev_returned ev).
Proof.
  unfold returned. rewrite existsb_app. cbn. now rewrite orb_false_r.
Qed.

(** The probe attempts to close its socket exactly when creating it, setting
    its timeout and [connect_ex] all returned. *)
Lemma close_attempted_iff_connect_returned
  (w : world) (host : string) (port timeout : Z) :
  attempted SockClose (snd (test_network_connection w host port timeout []))
  = is_ok (socket_create w) && is_ok (socket_settimeout w timeout)
    && is_ok (socket_connect_ex w host port).
Proof.
  unfold test_network_connection, try_except, bind, call, ret.
  destruct (socket_create w) as [[]|e0]; cbn; [|reflexivity].
  destruct (socket_settimeout w timeout) as [[]|e1]; cbn; [|reflexivity].
  destruct (socket_connect_ex w host port) as [z|e2]; cbn; [|reflexivity].
  destruct (socket_close w) as [[]|e3]; cbn; [|reflexivity].
  destruct (z =? 0); reflexivity.
Qed.

(** C7. The reachability check does not close its socket on the path where
    the connect attempt raises: in a world where the socket is created and
    [connect_ex] raises a name-resolution error, the check returns its
    failure result with the socket created and no close attempted.  A close
    is attempted only when creation, [settimeout] and [connect_ex] all
    returned. *)
Theorem socket_left_open_when_connect_raises :
  test_network_connection name_not_known "mail.example.invalid" 993 10 []
  = (Ok (mk_check false
           "Erro ao conectar com mail.example.invalid:993: [Errno -2] Name or service not known"
           None),
     [Call SockCreate true; Call SockSetTimeout true; Call SockConnectEx false])
  /\ returned SockCreate
       (snd (test_network_connection name_not_known "mail.example.invalid"
               993 10 [])) = true
  /\ attempted SockClose
       (snd (test_network_connection name_not_known "mail.example.invalid"
               993 10 [])) = false
  /\ forall w host port timeout,
       attempted SockClose (snd (test_network_connection w host port timeout []))
       = is_ok (socket_create w) && is_ok (socket_settimeout w timeout)
         && is_ok (socket_connect_ex w host port).
Proof.
  repeat split; try (vm_compute; reflexivity).
  apply close_attempted_iff_connect_returned.
Qed.

(** The handlers of the IMAP driver build a failure and touch nothing. *)
Lemma imap_except_fails (email host : string) (e : exn) (t : trace) :
  exists r, imap_except email host e t = (Ok r, t) /\ drv_success r = false.
Proof.
  destruct (DiagnosisProofs.sanitizar_some_host e host (Some email)) as [d Hd].
  unfold imap_except, bind, sanitizar, lift. rewrite Hd.
  repeat match goal with
         | |- context [if ?b then _ else _] => destruct b
         end; eexists; split; reflexivity.
Qed.

(** The session of the IMAP driver either succeeds, having attempted a
    logout, or raises without having attempted one. *)
Lemma imap_session_logout (w : world) (email password host : string)
  (port : Z) (secure : bool) (timeout : Z) (t : trace) :
  match imap_session w email password host port secure timeout t with
  | (Ok r, t') => drv_success r = true /\ attempted ImapLogout t' = true
  | (Raise _, t') => attempted ImapLogout t' = attempted ImapLogout t
  end.
Proof.
  unfold imap_session, bind, call, try_except, ret.
  destruct (imap_open w secure host port timeout) as [[]|e0]; cbn;
    [|now rewrite attempted_snoc, orb_false_r].
  destruct (imap_login w email password) as [[]|e1]; cbn;
    [|now rewrite !attempted_snoc, !orb_false_r].
  destruct (imap_list w) as [[status mailbox_list]|e2]; cbn;
    [|now rewrite !attempted_snoc, !orb_false_r].
  destruct (imap_select w "INBOX") as [[]|e3]; cbn;
    [|now rewrite !attempted_snoc, !orb_false_r].
  destruct (imap_logout w) as [[]|e4]; cbn;
    (split; [reflexivity|]); rewrite attempted_snoc; cbn; apply orb_true_r.
Qed.

(** The IMAP driver attempts a logout exactly on its success path. *)
Lemma imap_logout_only_on_success (w : world) (email password host : string)
  (port : Z) (secure : bool) (timeout : Z) :
  attempted ImapLogout
    (snd (test_imap_connection w email password host port secure timeout []))
  = succeeded
      (fst (test_imap_connection w email password host port secure timeout [])).
Proof.
  unfold test_imap_connection.
  pose proof (imap_session_logout w email password host port secure timeout)
    as Hsession.
  pose proof (imap_except_fails email host) as Hexcept.
  remember (imap_session w email password host port secure timeout) as session.
  remember (imap_except email host) as handler.
  clear Heqsession Heqhandler.
  unfold check_dns, test_network_connection, try_except, bind, call, ret.
  destruct (resolve_A w host) as [[|a l]|e]; cbn; try reflexivity.
  destruct (socket_create w) as [[]|e0]; cbn; [|reflexivity].
  destruct (socket_settimeout w timeout) as [[]|e1]; cbn; [|reflexivity].
  destruct (socket_connect_ex w host port) as [z|e2]; cbn; [|reflexivity].
  destruct (socket_close w) as [[]|e3]; cbn; [|reflexivity].
  destruct (z =? 0); cbn; [|reflexivity].
  match goal with
  | |- context [session ?tr] =>
      specialize (Hsession tr); destruct (session tr) as [[r | e] t']
  end.
  - cbn [fst snd succeeded]. destruct Hsession as [-> ->]. reflexivity.
  - destruct (Hexcept e t') as [r [-> Hr]]. cbn [fst snd succeeded].
    rewrite Hr, Hsession. reflexivity.
Qed.

(** The handlers of the SMTP driver build a failure and touch nothing. *)
Lemma smtp_except_fails (w : world) (e : exn) (t : trace) :
  exists r, smtp_except w e t = (Ok r, t) /\ drv_success r = false.
Proof.
  unfold smtp_except.
  repeat match goal with
         | |- context [if ?b then _ else _] => destruct b
         end; eexists; split; reflexivity.
Qed.

(** The session of the SMTP driver succeeds only if [quit] returned; when it
    raises, no [quit] has returned. *)
Lemma smtp_session_quit (w : world) (email password host : string)
  (port : Z) (secure starttls : bool) (timeout : Z) (t : trace) :
  match smtp_session w email password host port secure starttls timeout t with
  | (Ok r, t') => drv_success r = true /\ returned SmtpQuit t' = true
  | (Raise _, t') => returned SmtpQuit t' = returned SmtpQuit t
  end.
Proof.
  unfold smtp_session, bind, call, ret.
  destruct (smtp_open w secure host port timeout) as [[]|e0]; cbn;
    [|now rewrite returned_snoc, orb_false_r].
  destruct (smtp_ehlo w) as [[]|e1]; cbn;
    [|now rewrite !returned_snoc, !orb_false_r].
  destruct (starttls && negb secure).
  - destruct (smtp_starttls w) as [[]|e2]; cbn;
      [|now rewrite !returned_snoc, !orb_false_r].
    destruct (smtp_ehlo_after_starttls w) as [[]|e3]; cbn;
      [|now rewrite !returned_snoc, !orb_false_r].
    destruct (smtp_login w email password) as [[]|e4]; cbn;
      [|now rewrite !returned_snoc, !orb_false_r].
    destruct (smtp_quit w) as [[]|e5]; cbn;
      [|now rewrite !returned_snoc, !orb_false_r].
    split; [reflexivity|]. rewrite returned_snoc. cbn. apply orb_true_r.
  - cbn.
    destruct (smtp_login w email password) as [[]|e4]; cbn;
      [|now rewrite !returned_snoc, !orb_false_r].
    destruct (smtp_quit w) as [[]|e5]; cbn;
      [|now rewrite !returned_snoc, !orb_false_r].
    split; [reflexivity|]. rewrite returned_snoc. cbn. apply orb_true_r.
Qed.

(** The SMTP driver reports success exactly when [quit] returned. *)
Lemma smtp_success_iff_quit_returned (w : world) (email password host : string)
  (port : Z) (secure starttls : bool) (timeout : Z) :
  returned SmtpQuit
    (snd (test_smtp_connection w email password host port secure starttls
            timeout []))
  = succeeded
      (fst (test_smtp_connection w email password host port secure starttls
              timeout [])).
Proof.
  unfold test_smtp_connection.
  pose proof (smtp_session_quit w email password host port secure starttls
                timeout) as Hsession.
  pose proof (smtp_except_fails w) as Hexcept.
  remember (smtp_session w email password host port secure starttls timeout)
    as session.
  remember (smtp_except w) as handler.
  clear Heqsession Heqhandler.
  unfold check_dns, test_network_connection, try_except, bind, call, ret.
  destruct (resolve_A w host) as [[|a l]|e]; cbn; try reflexivity.
  destruct (socket_create w) as [[]|e0]; cbn; [|reflexivity].
  destruct (socket_settimeout w timeout) as [[]|e1]; cbn; [|reflexivity].
  destruct (socket_connect_ex w host port) as [z|e2]; cbn; [|reflexivity].
  destruct (socket_close w) as [[]|e3]; cbn; [|reflexivity].
  destruct (z =? 0); cbn; [|reflexivity].
  match goal with
  | |- context [session ?tr] =>
      specialize (Hsession tr); destruct (session tr) as [[r | e] t']
  end.
  - cbn [fst snd succeeded]. destruct Hsession as [-> ->]. reflexivity.
  - destruct (Hexcept e t') as [r [-> Hr]]. cbn [fst snd succeeded].
    rewrite Hr, Hsession. reflexivity.
Qed.

(** A failing logout does not change what the IMAP session returns. *)
Lemma imap_logout_failure_swallowed (w : world) (o : outcome unit)
  (email password host : string) (port : Z) (secure : bool) (timeout : Z)
  (t : trace) :
  fst (imap_session (set_imap_logout o w) email password host port secure
         timeout t)
  = fst (imap_session w email password host port secure timeout t).
Proof.
  unfold imap_session, bind, call, try_except, ret. cbn.
  destruct (imap_open w secure host port timeout) as [[]|e0]; cbn;
    [|reflexivity].
  destruct (imap_login w email password) as [[]|e1]; cbn; [|reflexivity].
  destruct (imap_list w) as [[status mailbox_list]|e2]; cbn; [|reflexivity].
  destruct (imap_select w "INBOX") as [[]|e3]; cbn; [|reflexivity].
  destruct o as [[]|eo], (imap_logout w) as [[]|e4]; reflexivity.
Qed.

Example imap_logout_failure_changes_nothing :
  fst (test_imap_connection logout_fails "user@example.com" "secret"
         "imap.example.com" 993 true 10 [])
  = fst (test_imap_connection all_fine "user@example.com" "secret"
           "imap.example.com" 993 true 10 []).
Proof. vm_compute. reflexivity. Qed.

(** C6. The drivers do not release the session on every exit path.  In a
    world where the IMAP login is rejected, the IMAP driver returns its
    failure with the session opened and no logout attempted; in general it
    attempts a logout exactly when it succeeds.  In a world where only the
    SMTP [quit] raises, the SMTP driver reports a protocol failure although
    the login returned, while it reports success when [quit] returns; in
    general it reports success exactly when [quit] returned. *)
Theorem session_left_open_on_failure :
  let imap w := test_imap_connection w "user@example.com" "secret"
                  "imap.example.com" 993 true 10 [] in
  let smtp w := test_smtp_connection w "user@example.com" "secret"
                  "smtp.example.com" 587 false true 10 [] in
  (succeeded (fst (imap login_rejected)) = false
   /\ returned ImapOpen (snd (imap login_rejected)) = true
   /\ attempted ImapLogout (snd (imap login_rejected)) = false)
  /\ (succeeded (fst (smtp all_fine)) = true
      /\ returned SmtpLogin (snd (smtp quit_fails)) = true
      /\ attempted SmtpQuit (snd (smtp quit_fails)) = true
      /\ succeeded (fst (smtp quit_fails)) = false
      /\ option_map drv_stage
           (match fst (smtp quit_fails) with Ok r => Some r | Raise _ => None end)
         = Some "protocol")
  /\ (forall w email password host port secure timeout,
        attempted ImapLogout
          (snd (test_imap_connection w email password host port secure
                  timeout []))
        = succeeded
            (fst (test_imap_connection w email password host port secure
                    timeout [])))
  /\ (forall w email password host port secure starttls timeout,
        returned SmtpQuit
          (snd (test_smtp_connection w email password host port secure
                  starttls timeout []))
        = succeeded
            (fst (test_smtp_connection w email password host port secure
                    starttls timeout []))).
Proof.
  cbv zeta.
  split; [repeat split; vm_compute; reflexivity|].
  split; [repeat split; vm_compute; reflexivity|].
  split;
    [apply imap_logout_only_on_success | apply smtp_success_iff_quit_returned].
Qed.

(** *** Provider directory *)

Lemma detect_provider_config_total (w : world) (email : string) :
  total (detect_provider_config w email).
Proof.
  unfold detect_provider_config.
  repeat (apply total_if; [eapply total_lift_ok; reflexivity|]).
  apply total_bind.
  - apply total_try_except. intros e. apply total_ret.
  - intros [cfg|]; apply total_ret.
Qed.

(** With [lower] for its parameter, the directory on any text is the
    directory of [Validator]. *)
Lemma detect_provider_config_on_ascii (w : world) (email : string) :
  AnyText.detect_provider_config lower w email = detect_provider_config w email.
Proof. reflexivity. Qed.

Lemma any_detect_provider_config_total (str_lower : string -> string)
  (w : world) (email : string) :
  total (AnyText.detect_provider_config str_lower w email).
Proof.
  unfold AnyText.detect_provider_config.
  repeat (apply total_if; [eapply total_lift_ok; reflexivity|]).
  apply total_bind.
  - apply total_try_except. intros e. apply total_ret.
  - intros [cfg|]; apply total_ret.
Qed.

(** The lookups of the directory: none for a domain that names a known
    provider, one MX query of the domain otherwise. *)
Lemma any_detect_provider_config_trace (str_lower : string -> string)
  (w : world) (email : string) (t : trace) :
  snd (AnyText.detect_provider_config str_lower w email t)
  = if names_known_provider (AnyText.email_domain str_lower email) then t
    else (t ++ [Call DnsResolveMX
                  (is_ok (resolve_MX w (AnyText.email_domain str_lower email)))])%list.
Proof.
  unfold AnyText.detect_provider_config, names_known_provider.
  fold (AnyText.email_domain str_lower email).
  set (domain := AnyText.email_domain str_lower email).
  destruct (contains "gmail" domain); [reflexivity|].
  destruct (contains "outlook" domain); [reflexivity|].
  destruct (contains "hotmail" domain); [reflexivity|].
  destruct (contains "live" domain); [reflexivity|].
  destruct (contains "yahoo" domain); [reflexivity|].
  cbn [orb]. unfold bind, try_except, call, ret.
  destruct (resolve_MX w domain) as [[|first rest]|e]; cbn; try reflexivity.
  repeat match goal with
         | |- context [if ?b then _ else _] => destruct b
         end; reflexivity.
Qed.

(** The profile does not depend on the trace the directory starts from. *)
Lemma any_detect_provider_config_result (str_lower : string -> string)
  (w : world) (email : string) (t1 t2 : trace) :
  fst (AnyText.detect_provider_config str_lower w email t1)
  = fst (AnyText.detect_provider_config str_lower w email t2).
Proof.
  unfold AnyText.detect_provider_config.
  repeat match goal with
         | |- context [if ?b then lift _ else _] =>
             destruct b; [reflexivity|]
         end.
  unfold bind, try_except, call, ret.
  destruct (resolve_MX w (str_lower (last_item (split "@" email))))
    as [[|first rest]|e]; cbn; try reflexivity.
  repeat match goal with
         | |- context [if ?b then _ else _] => destruct b
         end; reflexivity.
Qed.

(** A domain that names a known provider gets the profile of that provider. *)
Lemma any_detect_provider_config_known (str_lower : string -> string)
  (w : world) (email : string) (t : trace) :
  names_known_provider (AnyText.email_domain str_lower email) = true ->
  fst (AnyText.detect_provider_config str_lower w email t)
  = lookup
      (if contains "gmail" (AnyText.email_domain str_lower email) then "gmail"
       else if contains "yahoo" (AnyText.email_domain str_lower email)
               && negb (contains "outlook" (AnyText.email_domain str_lower email)
                        || contains "hotmail" (AnyText.email_domain str_lower email)
                        || contains "live" (AnyText.email_domain str_lower email))
       then "yahoo" else "outlook")
      KNOWN_PROVIDERS.
Proof.
  unfold AnyText.detect_provider_config, names_known_provider.
  fold (AnyText.email_domain str_lower email).
  set (domain := AnyText.email_domain str_lower email).
  destruct (contains "gmail" domain); [reflexivity|].
  destruct (contains "outlook" domain);
    [intros _; rewrite andb_false_r; reflexivity|].
  destruct (contains "hotmail" domain);
    [intros _; rewrite andb_false_r; reflexivity|].
  destruct (contains "live" domain);
    [intros _; rewrite andb_false_r; reflexivity|].
  destruct (contains "yahoo" domain); [reflexivity | discriminate].
Qed.

Lemma any_detect_provider_config_fallback (str_lower : string -> string)
  (w : world) (email : string) (t : trace) :
  names_known_provider (AnyText.email_domain str_lower email) = false ->
  no_mx_inference w (AnyText.email_domain str_lower email) = true ->
  fst (AnyText.detect_provider_config str_lower w email t)
  = Ok (default_config (AnyText.email_domain str_lower email)).
Proof.
  unfold names_known_provider, no_mx_inference, mx_names_provider,
    AnyText.detect_provider_config.
  fold (AnyText.email_domain str_lower email).
  set (domain := AnyText.email_domain str_lower email).
  intros Hknown Hmx.
  rewrite !orb_false_iff in Hknown.
  destruct Hknown as [[[[Hg Ho] Hh] Hl] Hy].
  rewrite Hg, Ho, Hh, Hl, Hy. cbn [orb].
  unfold bind, try_except, call, ret.
  destruct (resolve_MX w domain) as [[|first rest]|e]; cbn; try reflexivity.
  rewrite negb_true_iff, !orb_false_iff in Hmx.
  destruct Hmx as [[[[Hgo Hgm] Hou] Hmi] Hya].
  rewrite Hgo, Hgm, Hou, Hmi, Hya. reflexivity.
Qed.

(** C8. Provider resolution always returns a profile, whatever [str.lower]
    computes: a failing MX lookup is swallowed.  For a domain that carries
    no known provider name and whose MX lookup yields no inference, the
    profile is the synthesized default: [imap.<domain>] on port 993 with
    implicit TLS and [smtp.<domain>] on port 587 with STARTTLS.  A domain
    that carries a known provider name gets the profile of that provider,
    not the default. *)
Theorem detect_provider_config_default
  (str_lower : string -> string) (w : world) (email : string) (t : trace) :
  let domain := AnyText.email_domain str_lower email in
  let run := AnyText.detect_provider_config str_lower w email t in
  (exists cfg t', run = (Ok cfg, t'))
  /\ (names_known_provider domain = false ->
      no_mx_inference w domain = true ->
      fst run
      = Ok {| cfg_imap := mk_endpoint ("imap." ++ domain) 993 true None;
              cfg_smtp := mk_endpoint ("smtp." ++ domain) 587 false (Some true);
              password_pattern := None;
              password_instructions := None;
              detected := Some "auto" |})
  /\ (names_known_provider domain = true ->
      exists name,
        In name ["gmail"; "outlook"; "yahoo"]
        /\ fst run = lookup name KNOWN_PROVIDERS).
Proof.
  cbv zeta. split; [apply any_detect_provider_config_total|]. split.
  - apply any_detect_provider_config_fallback.
  - intros Hknown.
    rewrite (any_detect_provider_config_known str_lower w email t Hknown).
    eexists. split; [|reflexivity].
    repeat match goal with
           | |- context [if ?b then _ else _] => destruct b
           end; cbn; tauto.
Qed.

Lemma detect_provider_config_default_witness :
  names_known_provider
    (AnyText.email_domain lower "user@unknownmailhost.example") = false
  /\ no_mx_inference all_fine
       (AnyText.email_domain lower "user@unknownmailhost.example") = true
  /\ fst (detect_provider_config all_fine "user@unknownmailhost.example" [])
     = Ok {| cfg_imap := mk_endpoint "imap.unknownmailhost.example" 993 true None;
             cfg_smtp := mk_endpoint "smtp.unknownmailhost.example" 587 false
                           (Some true);
             password_pattern := None;
             password_instructions := None;
             detected := Some "auto" |}.
Proof.
  split; [vm_compute; reflexivity|]. split; [vm_compute; reflexivity|].
  rewrite <- detect_provider_config_on_ascii.
  apply (detect_provider_config_default lower all_fine
           "user@unknownmailhost.example" []);
    vm_compute; reflexivity.
Defined.

Example detect_gmail (w : world) (t : trace) :
  detect_provider_config w "user@gmail.com" t
  = (lookup "gmail" KNOWN_PROVIDERS, t).
Proof. reflexivity. Qed.

Example detect_outlook (w : world) (t : trace) :
  detect_provider_config w "user@outlook.com" t
  = (lookup "outlook" KNOWN_PROVIDERS, t).
Proof. reflexivity. Qed.

(** *** The mailbox listing *)

Lemma list_separator_nonempty : list_separator <> EmptyString.
Proof. discriminate. Qed.

(** What one item of the listing contributes, with the test on the number of
    parts read as a test on the presence of the separator. *)
Lemma mailbox_names_of_spec (mailbox : list_item) :
  mailbox_names_of mailbox
  = match mailbox with
    | ItemBytes b =>
        match decode_utf8 b with
        | Ok decoded =>
            if contains list_separator decoded
            then [strip dquote
                    (nth 1 (split list_separator decoded) EmptyString)]
            else []
        | Raise _ => []
        end
    | ItemOther => []
    end.
Proof.
  destruct mailbox as [b|]; [|reflexivity]. unfold mailbox_names_of.
  destruct (decode_utf8 b) as [decoded|e]; [|reflexivity].
  pose proof (split_parts list_separator decoded list_separator_nonempty) as H.
  destruct (contains list_separator decoded).
  - assert (H1 : (1 < List.length (split list_separator decoded))%nat)
      by now apply H.
    apply Nat.ltb_lt in H1. now rewrite H1.
  - destruct (1 <? List.length (split list_separator decoded))%nat eqn:E;
      [|reflexivity].
    apply Nat.ltb_lt, H in E. discriminate.
Qed.

(** C9. A listing line that decodes as UTF-8 is dropped when its hierarchy
    delimiter is not [.]: the loop splits on the fixed separator [ "." ] and
    appends a name only when the split gives two parts.  The two lines of a
    listing with the delimiter [/] decode and yet give no name, where the
    line of [INBOX] with the delimiter [.] gives [INBOX]; the IMAP driver
    then reports a successful login with an empty list of mailboxes.  So it
    is for every line that decodes and does not hold the separator. *)
Theorem slash_delimited_mailboxes_are_dropped :
  forallb decodes slash_delimited_listing = true
  /\ parse_mailbox_list slash_delimited_listing = []
  /\ parse_mailbox_list [ItemBytes (listing_line "." "INBOX")] = ["INBOX"]
  /\ (exists r t',
        test_imap_connection lists_with_slash "user@gmail.com" "secret"
          "imap.gmail.com" 993 true 30 [] = (Ok r, t')
        /\ drv_success r = true /\ drv_mailboxes r = Some [])
  /\ (forall b,
        decode_utf8 b = Ok b ->
        contains list_separator b = false ->
        mailbox_names_of (ItemBytes b) = []).
Proof.
  split; [vm_compute; reflexivity|]. split; [vm_compute; reflexivity|].
  split; [vm_compute; reflexivity|]. split.
  - destruct (test_imap_connection_total lists_with_slash "user@gmail.com"
                "secret" "imap.gmail.com" 993 true 30 []) as [r [t' H]].
    exists r, t'. split; [exact H|].
    assert (E : fst (test_imap_connection lists_with_slash "user@gmail.com"
                       "secret" "imap.gmail.com" 993 true 30 []) = Ok r)
      by now rewrite H.
    vm_compute in E. injection E as <-. split; reflexivity.
  - intros b Hb Hsep. rewrite mailbox_names_of_spec, Hb, Hsep. reflexivity.
Qed.

Example dot_delimited_entries_are_listed :
  parse_mailbox_list
    [ItemBytes (listing_line "." "INBOX"); ItemOther;
     ItemBytes (listing_line "/" "Drafts"); ItemBytes (listing_line "." "Sent");
     ItemBytes (String (ascii_of_nat 255) (listing_line "." "Broken"))]
  = ["INBOX"; "Sent"].
Proof. vm_compute. reflexivity. Qed.

End ValidatorProofs.

(** ** More facts about the string primitives *)

Module PyStrMore.
Import PyStr PyStrFacts.

Lemma lower_upper_char (c : ascii) : lower_char (upper_char c) = lower_char c.
Proof. destruct c as [[] [] [] [] [] [] [] []]; reflexivity. Qed.

Lemma lower_upper (s : string) : lower (upper s) = lower s.
Proof.
  induction s as [|c s IH]; simpl; [reflexivity|].
  now rewrite lower_upper_char, IH.
Qed.

Lemma append_empty_r (s : string) : s ++ EmptyString = s.
Proof. induction s as [|c s IH]; simpl; [reflexivity | now rewrite IH]. Qed.

Lemma contains_middle (p n t : string) : contains n (p ++ n ++ t) = true.
Proof. apply contains_app. now exists p, t. Qed.

Lemma contains_end (p n : string) : contains n (p ++ n) = true.
Proof. apply contains_app. exists p, EmptyString. now rewrite append_empty_r. Qed.

End PyStrMore.

(** ** More on the classifier and the diagnosis composer *)

Module DiagnosisMore.
Import PyStr PyExc PyStrFacts PyStrMore Diagnostic.

(** X1. On an error text written in ASCII the classifier ignores letter
    case: the text, its upper-cased form and its lower-cased form get the
    same kind, whatever the class of the error and the context.  (Outside
    ASCII this fails: Python raises the sharp s to [SS].) *)
Theorem classificar_ignores_case (c : exc_class) (text : string)
  (host email host' email' : option string) :
  isascii text = true ->
  classificar_erro_imap (mk_exn c (upper text)) host' email'
  = classificar_erro_imap (mk_exn c text) host email
  /\ classificar_erro_imap (mk_exn c (lower text)) host' email'
     = classificar_erro_imap (mk_exn c text) host email.
Proof.
  intros _. unfold classificar_erro_imap, isinstance. cbn [exn_str exn_class].
  now rewrite lower_upper, lower_idem.
Qed.

Lemma classificar_ignores_case_witness :
  isascii "Login Failed" = true
  /\ classificar_erro_imap (mk_exn IMAP4_error "LOGIN FAILED") None None
     = classificar_erro_imap (mk_exn IMAP4_error "Login Failed") None None
  /\ classificar_erro_imap (mk_exn IMAP4_error "login failed") None None
     = classificar_erro_imap (mk_exn IMAP4_error "Login Failed") None None.
Proof.
  split; [reflexivity|].
  apply (classificar_ignores_case IMAP4_error "Login Failed" None None None None).
  reflexivity.
Defined.

(** X2. With a host that is a string, provider identification returns one of
    the four provider names, and a mention of Gmail or Google in the host, or
    of Gmail in the domain of the email, decides for [gmail] whatever else
    the host and the email mention. *)
Theorem identificar_provedor_names (host : string) (email : option string) :
  (exists p, identificar_provedor (Some host) email = Ok p /\ In p provider_names)
  /\ (contains "gmail" (lower host) = true
      \/ contains "google" (lower host) = true
      \/ (exists e, email = Some e
                    /\ contains "gmail" (lower (last_item (split "@" e))) = true) ->
      identificar_provedor (Some host) email = Ok "gmail").
Proof.
  split.
  - unfold identificar_provedor, provider_names.
    repeat match goal with
           | |- context [if ?b then _ else _] => destruct b
           end; eexists; (split; [reflexivity | cbn; tauto]).
  - intros H. unfold identificar_provedor.
    destruct H as [H | [H | [e [-> H]]]].
    + now rewrite H.
    + rewrite H. now rewrite orb_true_r.
    + destruct e as [|a e]; [discriminate H|]. cbn [truthy].
      rewrite H. now rewrite orb_true_r.
Qed.

Lemma identificar_provedor_names_witness :
  identificar_provedor (Some "outlook.office365.com") (Some "someone@gmail.com")
  = Ok "gmail".
Proof.
  apply (identificar_provedor_names "outlook.office365.com"
           (Some "someone@gmail.com")).
  right. right. exists "someone@gmail.com". split; reflexivity.
Defined.

Lemma diagnosticar_inv (erro : exn) (host email : option string) (d : diagnostico) :
  diagnosticar_erro_imap erro host email = Ok d ->
  exists p entry,
    provedor d = p
    /\ tipo_erro d = classificar_erro_imap erro host email
    /\ diag_causa d = causa entry /\ solucoes d = solucao entry
    /\ (entry = default_entry
        \/ In entry (entries (obter_catalogo_provedor p))
        \/ In entry (entries GENERIC_ERRORS)).
Proof.
  unfold diagnosticar_erro_imap.
  destruct (if truthy_opt host || truthy_opt email
            then identificar_provedor host email else Ok "generic")
    as [p|e]; unfold obind; cbv zeta; [|discriminate].
  assert (Hscan : forall c t info,
             scan_catalog c t = Some info -> In info (entries c)).
  { induction c as [|[k v] c IH]; intros t info; cbn; [discriminate|].
    destruct (contains (lower k) (lower t)).
    - intros [= ->]. now left.
    - intros H. right. eapply IH; eassumption. }
  destruct (scan_catalog (obter_catalogo_provedor p) (exn_str erro))
    as [info|] eqn:E1.
  - intros [= <-]. exists p, info. repeat (split; [reflexivity|]).
    right. left. eapply Hscan; eassumption.
  - destruct (negb (p =? "generic")%string).
    + destruct (scan_catalog GENERIC_ERRORS (exn_str erro)) as [info|] eqn:E2.
      * intros [= <-]. exists p, info. repeat (split; [reflexivity|]).
        right. right. eapply Hscan; eassumption.
      * intros [= <-]. exists p, default_entry.
        repeat (split; [reflexivity|]). now left.
    + intros [= <-]. exists p, default_entry.
      repeat (split; [reflexivity|]). now left.
Qed.

Lemma catalogs_well_formed (p : string) (entry : catalog_entry) :
  entry = default_entry
  \/ In entry (entries (obter_catalogo_provedor p))
  \/ In entry (entries GENERIC_ERRORS) ->
  well_formed_entry entry = true.
Proof.
  assert (Hall : forall c, forallb well_formed_entry (entries c) = true ->
                 forall e, In e (entries c) -> well_formed_entry e = true).
  { intros c H e He. rewrite forallb_forall in H. now apply H. }
  intros [-> | [H | H]].
  - vm_compute. reflexivity.
  - revert H. apply Hall. unfold obter_catalogo_provedor.
    repeat match goal with
           | |- context [if ?b then _ else _] => destruct b
           end; vm_compute; reflexivity.
  - revert H. apply Hall. vm_compute. reflexivity.
Qed.

(** X3. Every diagnosis carries a non-empty cause and two or three non-empty
    solution steps, whatever the error, the host and the email: every entry
    of the four catalogs and the default entry are so. *)
Theorem diagnosis_always_has_solutions
  (erro : exn) (host email : option string) (d : diagnostico) :
  diagnosticar_erro_imap erro host email = Ok d ->
  diag_causa d <> EmptyString
  /\ (2 <= List.length (solucoes d) <= 3)%nat
  /\ Forall (fun step => step <> EmptyString) (solucoes d).
Proof.
  intros H. destruct (diagnosticar_inv _ _ _ _ H) as [p [entry [_ [_ [-> [-> Hin]]]]]].
  pose proof (catalogs_well_formed p entry Hin) as W.
  unfold well_formed_entry in W. rewrite !andb_true_iff in W.
  destruct W as [[[Hc Hlo] Hhi] Hsteps].
  split; [destruct (causa entry); [discriminate | discriminate]|].
  split; [split; [now apply Nat.leb_le | now apply Nat.leb_le]|].
  rewrite forallb_forall in Hsteps. apply Forall_forall.
  intros step Hstep Hempty. subst step.
  specialize (Hsteps EmptyString Hstep). discriminate.
Qed.

Lemma diagnosis_always_has_solutions_witness :
  exists d,
    diagnosticar_erro_imap (mk_exn OSError "no route to host")
      (Some "mail.example.org") None = Ok d
    /\ (2 <= List.length (solucoes d) <= 3)%nat.
Proof.
  eexists. split; [vm_compute; reflexivity|].
  eapply (diagnosis_always_has_solutions (mk_exn OSError "no route to host")
            (Some "mail.example.org") None).
  vm_compute. reflexivity.
Defined.

(** X4. The provider never affects the kind: two diagnoses of the same error
    under any two contexts carry the same kind, the one of the classifier,
    and so do the sanitized payloads. *)
Theorem kind_is_independent_of_context
  (erro : exn) (host1 email1 host2 email2 : option string)
  (s1 s2 : sanitized) :
  sanitizar_erro_imap erro host1 email1 = Ok s1 ->
  sanitizar_erro_imap erro host2 email2 = Ok s2 ->
  error_type s1 = error_type s2
  /\ error_type s1 = classificar_erro_imap erro None None.
Proof.
  unfold sanitizar_erro_imap.
  destruct (diagnosticar_erro_imap erro host1 email1) as [d1|] eqn:E1;
    cbn [obind]; [|discriminate].
  destruct (diagnosticar_erro_imap erro host2 email2) as [d2|] eqn:E2;
    cbn [obind]; [|discriminate].
  intros [= <-] [= <-]. cbn.
  destruct (diagnosticar_inv _ _ _ _ E1) as [_ [_ [_ [-> _]]]].
  destruct (diagnosticar_inv _ _ _ _ E2) as [_ [_ [_ [-> _]]]].
  split; reflexivity.
Qed.

Lemma kind_is_independent_of_context_witness :
  exists s1 s2,
    sanitizar_erro_imap (mk_exn IMAP4_error "LOGIN failed")
      (Some "imap.gmail.com") None = Ok s1
    /\ sanitizar_erro_imap (mk_exn IMAP4_error "LOGIN failed")
         (Some "imap.mail.yahoo.com") (Some "u@yahoo.com") = Ok s2
    /\ error_type s1 = error_type s2.
Proof.
  eexists. eexists. split; [vm_compute; reflexivity|].
  split; [vm_compute; reflexivity|].
  eapply (kind_is_independent_of_context (mk_exn IMAP4_error "LOGIN failed")
            (Some "imap.gmail.com") None
            (Some "imap.mail.yahoo.com") (Some "u@yahoo.com"));
    vm_compute; reflexivity.
Defined.

(** X5. The friendly message always names the provider, capitalized, whatever
    the kind and the cause of the diagnosis. *)
Theorem friendly_message_names_provider (d : diagnostico) :
  contains (capitalize (provedor d)) (gerar_mensagem_amigavel d) = true.
Proof.
  unfold gerar_mensagem_amigavel.
  repeat match goal with
         | |- context [if ?b then _ else _] => destruct b
         end; apply contains_middle.
Qed.

End DiagnosisMore.

(** ** Computations that only append to the trace *)

Module EffMore.
Import PyExc Eff.

Lemma extends_ret {A} (a : A) : extends (ret a).
Proof. intros t. unfold ret. cbn. now rewrite app_nil_r. Qed.

Lemma extends_raise {A} (e : exn) : extends (@raise A e).
Proof. intros t. unfold raise. cbn. now rewrite app_nil_r. Qed.

Lemma extends_lift {A} (o : outcome A) : extends (lift o).
Proof. intros t. unfold lift. cbn. now rewrite app_nil_r. Qed.

Lemma extends_call {A} (op : operation) (o : outcome A) : extends (call op o).
Proof. intros t. reflexivity. Qed.

Lemma extends_bind {A B} (m : M A) (k : A -> M B) :
  extends m -> (forall a, extends (k a)) -> extends (bind m k).
Proof.
  intros Hm Hk t. unfold bind. rewrite (Hm t).
  destruct (m []) as [[a | e] tm]; cbn [fst snd].
  - rewrite (Hk a (t ++ tm)%list), (Hk a tm). cbn [fst snd].
    now rewrite app_assoc.
  - reflexivity.
Qed.

Lemma extends_try_except {A} (m : M A) (handler : exn -> M A) :
  extends m -> (forall e, extends (handler e)) -> extends (try_except m handler).
Proof.
  intros Hm Hh t. unfold try_except. rewrite (Hm t).
  destruct (m []) as [[a | e] tm]; cbn [fst snd].
  - reflexivity.
  - rewrite (Hh e (t ++ tm)%list), (Hh e tm). cbn [fst snd].
    now rewrite app_assoc.
Qed.

Lemma extends_if {A} (b : bool) (m1 m2 : M A) :
  extends m1 -> extends m2 -> extends (if b then m1 else m2).
Proof. now destruct b. Qed.

Create HintDb extends_db.
#[export] Hint Resolve extends_ret extends_raise extends_lift extends_call
  extends_bind extends_try_except extends_if : extends_db.

(** The result and the events of a run from any trace are those of the run
    from the empty trace. *)
Lemma run_from {A} (m : M A) (t : trace) :
  extends m -> fst (m t) = fst (m []) /\ snd (m t) = (t ++ events_of m)%list.
Proof. intros H. rewrite (H t). split; reflexivity. Qed.

End EffMore.

(** ** More on the probes and the drivers *)

Module ProbeMore.
Import PyStr PyExc Eff PyStrFacts PyStrMore EffFacts EffMore Validator Fixtures.
Local Open Scope Z_scope.

Ltac extends_step :=
  match goal with
  | |- forall _, _ => intro
  | |- extends (ret _) => apply extends_ret
  | |- extends (raise _) => apply extends_raise
  | |- extends (lift _) => apply extends_lift
  | |- extends (call _ _) => apply extends_call
  | |- extends (bind _ _) => apply extends_bind
  | |- extends (try_except _ _) => apply extends_try_except
  | |- extends (if _ then _ else _) => apply extends_if
  | |- extends (match ?x with _ => _ end) => destruct x
  | |- extends (let '(_, _) := ?x in _) => destruct x
  end.

Ltac extends_auto := repeat extends_step.

Lemma check_dns_extends (w : world) (host : string) : extends (check_dns w host).
Proof. unfold check_dns. extends_auto. Qed.

Lemma test_network_connection_extends (w : world) (host : string)
  (port timeout : Z) : extends (test_network_connection w host port timeout).
Proof. unfold test_network_connection. extends_auto. Qed.

Lemma imap_session_extends (w : world) (email password host : string)
  (port : Z) (secure : bool) (timeout : Z) :
  extends (imap_session w email password host port secure timeout).
Proof. unfold imap_session. extends_auto. Qed.

Lemma imap_except_extends (email host : string) (e : exn) :
  extends (imap_except email host e).
Proof. unfold imap_except, sanitizar. extends_auto. Qed.

Lemma smtp_session_extends (w : world) (email password host : string)
  (port : Z) (secure starttls : bool) (timeout : Z) :
  extends (smtp_session w email password host port secure starttls timeout).
Proof. unfold smtp_session. extends_auto. Qed.

Lemma smtp_except_extends (w : world) (e : exn) : extends (smtp_except w e).
Proof. unfold smtp_except. extends_auto. Qed.

Lemma test_imap_connection_extends (w : world) (email password host : string)
  (port : Z) (secure : bool) (timeout : Z) :
  extends (test_imap_connection w email password host port secure timeout).
Proof.
  unfold test_imap_connection.
  apply extends_bind; [apply check_dns_extends | intros dns_check].
  apply extends_if; [apply extends_ret|].
  apply extends_bind; [apply test_network_connection_extends | intros net_check].
  apply extends_if; [apply extends_ret|].
  apply extends_try_except;
    [apply imap_session_extends | apply imap_except_extends].
Qed.

Lemma test_smtp_connection_extends (w : world) (email password host : string)
  (port : Z) (secure starttls : bool) (timeout : Z) :
  extends (test_smtp_connection w email password host port secure starttls
             timeout).
Proof.
  unfold test_smtp_connection.
  apply extends_bind; [apply check_dns_extends | intros dns_check].
  apply extends_if; [apply extends_ret|].
  apply extends_bind; [apply test_network_connection_extends | intros net_check].
  apply extends_if; [apply extends_ret|].
  apply extends_try_except;
    [apply smtp_session_extends | apply smtp_except_extends].
Qed.

(** X6. The DNS check makes exactly one A query and never raises.  It
    succeeds exactly when the resolver returns at least one address, and
    then hands the addresses on unchanged; its message always names the
    host and, when the resolver raised, quotes the text of the error. *)
Theorem check_dns_outcome (w : world) (host : string) (t : trace) :
  exists r,
    check_dns w host t
    = (Ok r, (t ++ [Call DnsResolveA (is_ok (resolve_A w host))])%list)
    /\ contains host (chk_message r) = true
    /\ match resolve_A w host with
       | Ok (a :: l) => chk_success r = true /\ chk_addresses r = Some (a :: l)
       | Ok [] => chk_success r = false /\ chk_addresses r = None
       | Raise e =>
           chk_success r = false /\ chk_addresses r = None
           /\ contains (exn_str e) (chk_message r) = true
       end.
Proof.
  unfold check_dns, try_except, bind, call, ret.
  destruct (resolve_A w host) as [[|a l]|e]; cbn [is_ok];
    eexists; (split; [reflexivity|]); cbn [chk_message chk_success chk_addresses].
  - split; [apply contains_middle | split; reflexivity].
  - split; [apply contains_middle | split; reflexivity].
  - split; [apply contains_middle|]. repeat split.
    rewrite <- !app_assoc_str. apply contains_end.
Qed.

(** X7. The reachability check never raises.  It succeeds exactly when the
    socket was created, its timeout set, [connect_ex] returned 0 and the
    close returned; in particular a close that raises after a successful
    connect turns the check into a failure.  Its message always names
    [host:port]. *)
Theorem test_network_connection_outcome
  (w : world) (host : string) (port timeout : Z) (t : trace) :
  exists r t',
    test_network_connection w host port timeout t = (Ok r, t')
    /\ chk_success r = reachable w host port timeout
    /\ chk_addresses r = None
    /\ contains (host ++ ":" ++ str_of_Z port) (chk_message r) = true.
Proof.
  unfold test_network_connection, reachable, try_except, bind, call, ret.
  destruct (socket_create w) as [[]|e0];
    [|do 2 eexists; split; [reflexivity|]; repeat split; apply contains_middle].
  destruct (socket_settimeout w timeout) as [[]|e1];
    [|do 2 eexists; split; [reflexivity|]; repeat split; apply contains_middle].
  destruct (socket_connect_ex w host port) as [z|e2];
    [|do 2 eexists; split; [reflexivity|]; repeat split; apply contains_middle].
  destruct (socket_close w) as [[]|e3];
    [|do 2 eexists; split; [reflexivity|]; repeat split; apply contains_middle].
  destruct (z =? 0) eqn:Ez;
    [do 2 eexists; split; [reflexivity|]; repeat split; apply contains_middle|].
  destruct (z =? 111); [|destruct ((z =? 110) || (z =? 10060))];
    do 2 eexists; (split; [reflexivity|]); repeat split;
    first [apply contains_middle | apply contains_end].
Qed.

(** X8. Nothing propagates past the boundary of a handshake driver: for every
    world and every input, the IMAP driver and the SMTP driver return a
    result, whatever raises inside them. *)
Theorem drivers_always_return (w : world) (email password host : string)
  (port : Z) (secure starttls : bool) (timeout : Z) (t : trace) :
  (exists r t',
     test_imap_connection w email password host port secure timeout t
     = (Ok r, t'))
  /\ (exists r t',
       test_smtp_connection w email password host port secure starttls
         timeout t = (Ok r, t')).
Proof.
  split.
  - apply ValidatorProofs.test_imap_connection_total.
  - apply ValidatorProofs.test_smtp_connection_total.
Qed.

(** *** The order of the operations *)

Lemma imap_events_in_order (w : world) (email password host : string)
  (port : Z) (secure : bool) (timeout : Z) :
  let t := events_of
             (test_imap_connection w email password host port secure timeout) in
  is_prefix (operations t) imap_sequence = true
  /\ stops_at_first_raise t = true.
Proof.
  unfold events_of, test_imap_connection.
  pose proof (ValidatorProofs.imap_except_fails email host) as Hexcept.
  remember (imap_except email host) as handler. clear Heqhandler.
  unfold check_dns, test_network_connection, imap_session, try_except, bind,
    call, ret.
  destruct (resolve_A w host) as [[|a l]|e]; cbn; try (split; reflexivity).
  destruct (socket_create w) as [[]|e0]; cbn; [|split; reflexivity].
  destruct (socket_settimeout w timeout) as [[]|e1]; cbn; [|split; reflexivity].
  destruct (socket_connect_ex w host port) as [z|e2]; cbn; [|split; reflexivity].
  destruct (socket_close w) as [[]|e3]; cbn; [|split; reflexivity].
  destruct (z =? 0); cbn; [|split; reflexivity].
  assert (Hclose : forall e tr,
             is_prefix (operations tr) imap_sequence = true ->
             stops_at_first_raise tr = true ->
             is_prefix (operations (snd (handler e tr))) imap_sequence = true
             /\ stops_at_first_raise (snd (handler e tr)) = true).
  { intros e tr H1 H2. destruct (Hexcept e tr) as [r [-> _]]. now split. }
  destruct (imap_open w secure host port timeout) as [[]|e4]; cbn;
    [|apply Hclose; reflexivity].
  destruct (imap_login w email password) as [[]|e5]; cbn;
    [|apply Hclose; reflexivity].
  destruct (imap_list w) as [[status mailbox_list]|e6]; cbn;
    [|apply Hclose; reflexivity].
  destruct (imap_select w "INBOX") as [[]|e7]; cbn;
    [|apply Hclose; reflexivity].
  destruct (imap_logout w) as [[]|e8]; cbn; split; reflexivity.
Qed.

(** X9. The IMAP driver is a linear state machine: its operations are an
    initial part of the sequence DNS query, socket create, set timeout,
    connect, close, IMAP open, login, list, select, logout, and every
    operation before the last one returned.  So a step is attempted only
    after all the steps before it returned, and the run stops at the first
    step that raises. *)
Theorem imap_operations_in_order (w : world) (email password host : string)
  (port : Z) (secure : bool) (timeout : Z) (t : trace) :
  exists added,
    snd (test_imap_connection w email password host port secure timeout t)
    = (t ++ added)%list
    /\ is_prefix (operations added)
         [DnsResolveA; SockCreate; SockSetTimeout; SockConnectEx; SockClose;
          ImapOpen; ImapLogin; ImapList; ImapSelect; ImapLogout] = true
    /\ stops_at_first_raise added = true.
Proof.
  exists (events_of
            (test_imap_connection w email password host port secure timeout)).
  split.
  - apply run_from, test_imap_connection_extends.
  - apply imap_events_in_order.
Qed.

Lemma smtp_events_in_order (w : world) (email password host : string)
  (port : Z) (secure starttls : bool) (timeout : Z) :
  let t := events_of
             (test_smtp_connection w email password host port secure starttls
                timeout) in
  is_prefix (operations t) (smtp_sequence secure starttls) = true
  /\ stops_at_first_raise t = true
  /\ implb (attempted SmtpLogin t && (starttls && negb secure))
       (returned SmtpStartTLS t) = true.
Proof.
  unfold events_of, test_smtp_connection, smtp_sequence.
  pose proof (ValidatorProofs.smtp_except_fails w) as Hexcept.
  remember (smtp_except w) as handler. clear Heqhandler.
  unfold check_dns, test_network_connection, smtp_session, try_except, bind,
    call, ret.
  destruct (resolve_A w host) as [[|a l]|e]; cbn; try (repeat split; reflexivity).
  destruct (socket_create w) as [[]|e0]; cbn; [|repeat split; reflexivity].
  destruct (socket_settimeout w timeout) as [[]|e1]; cbn; [|repeat split; reflexivity].
  destruct (socket_connect_ex w host port) as [z|e2]; cbn; [|repeat split; reflexivity].
  destruct (socket_close w) as [[]|e3]; cbn; [|repeat split; reflexivity].
  destruct (z =? 0); cbn; [|repeat split; reflexivity].
  destruct (smtp_open w secure host port timeout) as [[]|e4]; cbn;
    [|destruct (Hexcept e4 [Call DnsResolveA true; Call SockCreate true;
                            Call SockSetTimeout true; Call SockConnectEx true;
                            Call SockClose true; Call SmtpOpen false])
        as [r [-> _]]; repeat split; reflexivity].
  destruct (smtp_ehlo w) as [[]|e5]; cbn;
    [|destruct (Hexcept e5 [Call DnsResolveA true; Call SockCreate true;
                            Call SockSetTimeout true; Call SockConnectEx true;
                            Call SockClose true; Call SmtpOpen true;
                            Call SmtpEhlo false])
        as [r [-> _]]; repeat split; reflexivity].
  destruct (starttls && negb secure); cbn.
  - destruct (smtp_starttls w) as [[]|e6]; cbn;
      [|match goal with
        | |- context [handler ?e ?tr] =>
            destruct (Hexcept e tr) as [r [-> _]]; repeat split; reflexivity
        end].
    destruct (smtp_ehlo_after_starttls w) as [[]|e7]; cbn;
      [|match goal with
        | |- context [handler ?e ?tr] =>
            destruct (Hexcept e tr) as [r [-> _]]; repeat split; reflexivity
        end].
    destruct (smtp_login w email password) as [[]|e8]; cbn;
      [|match goal with
        | |- context [handler ?e ?tr] =>
            destruct (Hexcept e tr) as [r [-> _]]; repeat split; reflexivity
        end].
    destruct (smtp_quit w) as [[]|e9]; cbn;
      [repeat split; reflexivity
      |match goal with
        | |- context [handler ?e ?tr] =>
            destruct (Hexcept e tr) as [r [-> _]]; repeat split; reflexivity
        end].
  - destruct (smtp_login w email password) as [[]|e8]; cbn;
      [|match goal with
        | |- context [handler ?e ?tr] =>
            destruct (Hexcept e tr) as [r [-> _]]; repeat split; reflexivity
        end].
    destruct (smtp_quit w) as [[]|e9]; cbn;
      [repeat split; reflexivity
      |match goal with
        | |- context [handler ?e ?tr] =>
            destruct (Hexcept e tr) as [r [-> _]]; repeat split; reflexivity
        end].
Qed.

(** X10. The SMTP driver is a linear state machine too: its operations are
    an initial part of the sequence DNS query, socket create, set timeout,
    connect, close, SMTP open, EHLO, then STARTTLS and a second EHLO when
    STARTTLS is requested on a plain connection, then login and quit; every
    operation before the last one returned.  In particular the credentials
    are sent only after STARTTLS returned, when STARTTLS is requested. *)
Theorem smtp_operations_in_order (w : world) (email password host : string)
  (port : Z) (secure starttls : bool) (timeout : Z) (t : trace) :
  exists added,
    snd (test_smtp_connection w email password host port secure starttls
           timeout t)
    = (t ++ added)%list
    /\ is_prefix (operations added)
         ([DnsResolveA; SockCreate; SockSetTimeout; SockConnectEx; SockClose;
           SmtpOpen; SmtpEhlo]
          ++ (if starttls && negb secure then [SmtpStartTLS; SmtpEhlo] else [])
          ++ [SmtpLogin; SmtpQuit])%list = true
    /\ stops_at_first_raise added = true
    /\ implb (attempted SmtpLogin added && (starttls && negb secure))
         (returned SmtpStartTLS added) = true.
Proof.
  exists (events_of
            (test_smtp_connection w email password host port secure starttls
               timeout)).
  split.
  - apply run_from, test_smtp_connection_extends.
  - apply smtp_events_in_order.
Qed.

(** *** The shape of the results *)

Lemma sanitizar_has_solutions (e : exn) (host email : option string)
  (d : Diagnostic.sanitized) :
  Diagnostic.sanitizar_erro_imap e host email = Ok d ->
  Diagnostic.solutions d <> [].
Proof.
  unfold Diagnostic.sanitizar_erro_imap.
  destruct (Diagnostic.diagnosticar_erro_imap e host email) as [g|] eqn:E;
    cbn [obind]; [|discriminate].
  intros [= <-]. cbn [Diagnostic.solutions].
  destruct (DiagnosisMore.diagnosticar_inv _ _ _ _ E)
    as [p [entry [_ [_ [_ [-> Hin]]]]]].
  pose proof (DiagnosisMore.catalogs_well_formed p entry Hin) as W.
  unfold Diagnostic.well_formed_entry in W. rewrite !andb_true_iff in W.
  destruct W as [[[_ Hlo] _] _]. apply Nat.leb_le in Hlo.
  destruct (Diagnostic.solucao entry); [cbn in Hlo; lia | discriminate].
Qed.

Lemma imap_except_shape (email host : string) (e : exn) (t : trace) :
  exists d stage kind,
    imap_except email host e t
    = (Ok (diagnosed (Diagnostic.message d) stage kind d), t)
    /\ In stage handshake_failure_stages
    /\ Diagnostic.sanitizar_erro_imap e (Some host) (Some email) = Ok d.
Proof.
  destruct (DiagnosisProofs.sanitizar_some_host e host (Some email)) as [d Hd].
  unfold imap_except, bind, sanitizar, lift, handshake_failure_stages.
  rewrite Hd. exists d.
  repeat match goal with
         | |- context [if ?b then _ else _] => destruct b
         end;
    do 2 eexists; (split; [reflexivity|]); (split; [cbn; tauto | reflexivity]).
Qed.

Lemma imap_session_shape (w : world) (email password host : string)
  (port : Z) (secure : bool) (timeout : Z) (t t' : trace) (r : driver_result) :
  imap_session w email password host port secure timeout t = (Ok r, t') ->
  exists message names,
    r = mk_driver true message "authenticated" None (Some names) None None
          None None None.
Proof.
  unfold imap_session, bind, call, try_except, ret.
  destruct (imap_open w secure host port timeout) as [[]|e0]; [|discriminate].
  destruct (imap_login w email password) as [[]|e1]; [|discriminate].
  destruct (imap_list w) as [[status mailbox_list]|e2]; [|discriminate].
  destruct (imap_select w "INBOX") as [[]|e3]; [|discriminate].
  destruct (imap_logout w) as [[]|e4]; intros [= <- _];
    do 2 eexists; reflexivity.
Qed.

(** The three shapes of a result of the IMAP driver. *)
Lemma imap_result_cases (w : world) (email password host : string)
  (port : Z) (secure : bool) (timeout : Z) (t t' : trace) (r : driver_result) :
  test_imap_connection w email password host port secure timeout t = (Ok r, t') ->
  (exists message names,
     r = mk_driver true message "authenticated" None (Some names) None None
           None None None)
  \/ (exists message stage details,
        r = failed_check message stage details
        /\ In stage preflight_stages /\ chk_success details = false)
  \/ (exists d stage kind,
        r = diagnosed (Diagnostic.message d) stage kind d
        /\ In stage handshake_failure_stages
        /\ Diagnostic.solutions d <> []).
Proof.
  unfold test_imap_connection, bind.
  destruct (ValidatorProofs.check_dns_total w host t) as [dc [t1 ->]].
  destruct (chk_success dc) eqn:Edc; cbn [negb].
  2: { intros [= <- _]. right. left. do 3 eexists.
       split; [reflexivity|]. split; [cbn; tauto | exact Edc]. }
  destruct (ValidatorProofs.test_network_connection_total w host port timeout t1)
    as [nc [t2 ->]].
  destruct (chk_success nc) eqn:Enc; cbn [negb].
  2: { intros [= <- _]. right. left. do 3 eexists.
       split; [reflexivity|]. split; [cbn; tauto | exact Enc]. }
  unfold try_except.
  destruct (imap_session w email password host port secure timeout t2)
    as [[r0 | e] t3] eqn:Es.
  - intros [= <- _]. left. eapply imap_session_shape; eassumption.
  - destruct (imap_except_shape email host e t3) as [d [stage [kind [-> [Hs Hd]]]]].
    intros [= <- _]. right. right. exists d, stage, kind.
    split; [reflexivity|]. split; [exact Hs|].
    eapply sanitizar_has_solutions; eassumption.
Qed.

(** X11. A result of the IMAP driver has one of three shapes.  A success has
    stage [authenticated] and carries the mailbox names.  A failure of the
    DNS or network check has stage [dns] or [network] and carries the failed
    check as details.  A failure of the handshake has stage
    [authentication], [protocol], [ssl] or [connection] and carries the
    sanitized diagnosis, its message, its error type and its solutions, of
    which there is at least one. *)
Theorem imap_result_shape (w : world) (email password host : string)
  (port : Z) (secure : bool) (timeout : Z) (t : trace) :
  exists r t',
    test_imap_connection w email password host port secure timeout t = (Ok r, t')
    /\ if drv_success r then
         drv_stage r = "authenticated" /\ drv_mailboxes r <> None
         /\ drv_error_type r = None /\ drv_diagnostic_info r = None
         /\ drv_details r = None
       else
         (In (drv_stage r) ["dns"; "network"]
          /\ (exists details,
                drv_details r = Some details /\ chk_success details = false)
          /\ drv_mailboxes r = None /\ drv_error_type r = None
          /\ drv_diagnostic_info r = None)
         \/ (In (drv_stage r) ["authentication"; "protocol"; "ssl"; "connection"]
             /\ (exists d,
                   drv_diagnostic_info r = Some d
                   /\ drv_message r = Diagnostic.message d
                   /\ drv_solutions r = Some (Diagnostic.solutions d)
                   /\ Diagnostic.solutions d <> [])
             /\ drv_error_type r <> None
             /\ drv_mailboxes r = None /\ drv_details r = None).
Proof.
  destruct (ValidatorProofs.test_imap_connection_total w email password host
              port secure timeout t) as [r [t' H]].
  exists r, t'. split; [exact H|].
  destruct (imap_result_cases _ _ _ _ _ _ _ _ _ _ H)
    as [[m [names ->]] | [[m [stage [details [-> [Hs Hd]]]]]
                         | [d [stage [kind [-> [Hs Hd]]]]]]]; cbn.
  - repeat split; discriminate.
  - left. split; [exact Hs|]. split; [now exists details | repeat split].
  - right. split; [exact Hs|]. split; [exists d; repeat split; exact Hd|].
    repeat split; discriminate.
Qed.

Lemma smtp_except_shape (w : world) (e : exn) (t : trace) :
  exists message stage kind code,
    smtp_except w e t = (Ok (smtp_failure message stage kind code), t)
    /\ In (stage, kind)
         [("authentication", "credentials"); ("protocol", "protocol_error");
          ("ssl", "ssl_error"); ("connection", "unknown")]
    /\ (code <> None <-> stage = "authentication").
Proof.
  unfold smtp_except.
  repeat match goal with
         | |- context [if ?b then _ else _] => destruct b
         end;
    do 4 eexists; (split; [reflexivity|]); (split; [cbn; tauto|]);
    split; first [discriminate | congruence | reflexivity].
Qed.

Lemma smtp_session_shape (w : world) (email password host : string)
  (port : Z) (secure starttls : bool) (timeout : Z) (t t' : trace)
  (r : driver_result) :
  smtp_session w email password host port secure starttls timeout t = (Ok r, t') ->
  exists message extensions,
    r = mk_driver true message "authenticated" None None (Some extensions)
          None None None None.
Proof.
  unfold smtp_session, bind, call, ret.
  destruct (smtp_open w secure host port timeout) as [[]|e0]; [|discriminate].
  destruct (smtp_ehlo w) as [[]|e1]; [|discriminate].
  destruct (starttls && negb secure).
  - destruct (smtp_starttls w) as [[]|e2]; [|discriminate].
    destruct (smtp_ehlo_after_starttls w) as [[]|e3]; [|discriminate].
    destruct (smtp_login w email password) as [[]|e4]; [|discriminate].
    destruct (smtp_quit w) as [[]|e5]; [|discriminate].
    intros [= <- _]. do 2 eexists. reflexivity.
  - cbn.
    destruct (smtp_login w email password) as [[]|e4]; [|discriminate].
    destruct (smtp_quit w) as [[]|e5]; [|discriminate].
    intros [= <- _]. do 2 eexists. reflexivity.
Qed.

(** X12. A result of the SMTP driver never carries solutions, a diagnosis or
    mailbox names.  A success has stage [authenticated] and carries the
    extensions.  A failure of the DNS or network check has stage [dns] or
    [network] and carries the failed check.  A failure of the handshake
    pairs the stage and the error type as authentication/credentials,
    protocol/protocol_error, ssl/ssl_error or connection/unknown, and
    carries an error code exactly when the stage is [authentication]. *)
Theorem smtp_result_shape (w : world) (email password host : string)
  (port : Z) (secure starttls : bool) (timeout : Z) (t : trace) :
  exists r t',
    test_smtp_connection w email password host port secure starttls timeout t
    = (Ok r, t')
    /\ drv_solutions r = None /\ drv_diagnostic_info r = None
    /\ drv_mailboxes r = None
    /\ if drv_success r then
         drv_stage r = "authenticated" /\ drv_extensions r <> None
         /\ drv_error_type r = None /\ drv_details r = None
       else
         (In (drv_stage r) ["dns"; "network"]
          /\ (exists details,
                drv_details r = Some details /\ chk_success details = false)
          /\ drv_error_type r = None)
         \/ ((exists kind,
                drv_error_type r = Some kind
                /\ In (drv_stage r, kind)
                     [("authentication", "credentials");
                      ("protocol", "protocol_error");
                      ("ssl", "ssl_error"); ("connection", "unknown")])
             /\ (drv_error_code r <> None <-> drv_stage r = "authentication")
             /\ drv_details r = None /\ drv_extensions r = None).
Proof.
  unfold test_smtp_connection, bind.
  destruct (ValidatorProofs.check_dns_total w host t) as [dc [t1 ->]].
  destruct (chk_success dc) eqn:Edc; cbn [negb].
  2: { do 2 eexists. split; [reflexivity|]. cbn. repeat (split; [reflexivity|]).
       left. split; [tauto|]. split; [now exists dc | reflexivity]. }
  destruct (ValidatorProofs.test_network_connection_total w host port timeout t1)
    as [nc [t2 ->]].
  destruct (chk_success nc) eqn:Enc; cbn [negb].
  2: { do 2 eexists. split; [reflexivity|]. cbn. repeat (split; [reflexivity|]).
       left. split; [tauto|]. split; [now exists nc | reflexivity]. }
  unfold try_except.
  destruct (smtp_session w email password host port secure starttls timeout t2)
    as [[r0 | e] t3] eqn:Es.
  - destruct (smtp_session_shape _ _ _ _ _ _ _ _ _ _ _ Es) as [m [ext ->]].
    do 2 eexists. split; [reflexivity|]. cbn.
    repeat (split; [reflexivity|]). repeat split; discriminate.
  - destruct (smtp_except_shape w e t3)
      as [m [stage [kind [code [-> [Hin Hcode]]]]]].
    do 2 eexists. split; [reflexivity|]. cbn.
    repeat (split; [reflexivity|]). right.
    split; [now exists kind|]. split; [exact Hcode | split; reflexivity].
Qed.

(** *** The orchestrator *)



(** X14. The orchestrator attaches [diagnostics.imap_error] exactly when the
    IMAP probe ran and failed during the handshake; the entry then repeats
    the error type, the diagnosis and the solutions of the driver's result,
    and has at least one solution.  It is absent when the IMAP probe was not
    requested, succeeded, or failed at the DNS or network check. *)
Theorem imap_error_attached_on_handshake_failure
  (w : world) (q : request) (t : trace) :
  match fst (test_connection w q t) with
  | Ok (Results r) =>
      match res_imap_error r with
      | Some ie =>
          exists i,
            res_imap r = Some i /\ drv_success i = false
            /\ In (drv_stage i) ["authentication"; "protocol"; "ssl"; "connection"]
            /\ drv_diagnostic_info i = Some (ie_details ie)
            /\ drv_solutions i = Some (ie_solutions ie)
            /\ drv_error_type i = Some (ie_error_type ie)
            /\ ie_solutions ie <> []
      | None =>
          match res_imap r with
          | Some i => drv_success i = true \/ In (drv_stage i) ["dns"; "network"]
          | None => req_test_imap q = false
          end
      end
  | _ => False
  end.
Proof.
  unfold test_connection, try_except, bind.
  assert (Hs : forall t0,
             req_test_smtp q = true ->
             exists s t1,
               test_smtp_connection w (req_email q) (req_password q)
                 (req_smtp_host q) (req_smtp_port q) (req_smtp_secure q)
                 (req_smtp_starttls q) (req_timeout q) t0 = (Ok s, t1)).
  { intros t0 _. apply ValidatorProofs.test_smtp_connection_total. }
  destruct (req_test_imap q).
  - destruct (ValidatorProofs.test_imap_connection_total w (req_email q)
                (req_password q) (ep_host (req_imap q)) (ep_port (req_imap q))
                (ep_secure (req_imap q)) (req_timeout q) t) as [i [t1 Hi]].
    rewrite Hi. cbn [ret].
    destruct (imap_result_cases _ _ _ _ _ _ _ _ _ _ Hi)
      as [[m [names ->]] | [[m [stage [details [-> [Hst Hd]]]]]
                           | [d [stage [kind [-> [Hst Hd]]]]]]];
      destruct (req_test_smtp q);
      try (destruct (Hs t1 eq_refl) as [s [t2 ->]]); cbn.
    + now left.
    + now left.
    + now right.
    + now right.
    + eexists. split; [reflexivity|]. cbn. repeat split; assumption.
    + eexists. split; [reflexivity|]. cbn. repeat split; assumption.
  - cbn [ret]. destruct (req_test_smtp q);
      try (destruct (Hs t eq_refl) as [s [t2 ->]]); cbn; reflexivity.
Qed.

End ProbeMore.

(** ** More on the provider directory and the mailbox listing *)

Module DirectoryMore.
Import PyStr PyExc Eff PyStrFacts PyStrMore EffFacts EffMore Validator Fixtures.
Local Open Scope Z_scope.

(** X15. Whatever the email and whatever the DNS answers, the profile that
    provider resolution returns has IMAP on port 993 with implicit TLS and
    SMTP on port 587 without implicit TLS and with STARTTLS. *)
Theorem every_profile_uses_standard_ports
  (w : world) (email : string) (t : trace) :
  match fst (detect_provider_config w email t) with
  | Ok cfg =>
      ep_port (cfg_imap cfg) = 993 /\ ep_secure (cfg_imap cfg) = true
      /\ ep_port (cfg_smtp cfg) = 587 /\ ep_secure (cfg_smtp cfg) = false
      /\ ep_starttls (cfg_smtp cfg) = Some true
  | Raise _ => False
  end.
Proof.
  unfold detect_provider_config.
  repeat match goal with
         | |- context [if ?b then lift _ else _] =>
             destruct b; [cbn; repeat split|]
         end.
  unfold bind, try_except, call, ret.
  destruct (resolve_MX w (lower (last_item (split "@" email))))
    as [[|first rest]|e]; cbn; try (repeat split; reflexivity).
  repeat match goal with
         | |- context [if ?b then _ else _] => destruct b
         end; cbn; repeat split; reflexivity.
Qed.

(** X16. Whatever [str.lower] computes, provider resolution does no DNS
    lookup for a domain that carries the name of a known provider, and
    exactly one MX lookup, of the domain, otherwise. *)
Theorem detect_provider_config_lookups (str_lower : string -> string)
  (w : world) (email : string) (t : trace) :
  let domain := AnyText.email_domain str_lower email in
  snd (AnyText.detect_provider_config str_lower w email t)
  = if names_known_provider domain then t
    else (t ++ [Call DnsResolveMX (is_ok (resolve_MX w domain))])%list.
Proof. apply ValidatorProofs.any_detect_provider_config_trace. Qed.

(** X17. Only the exchange of the first MX record counts: two worlds whose
    MX answers for the domain start with records of the same exchange give
    the same profile, whatever the preferences and the other records. *)
Theorem only_first_mx_exchange_counts
  (w1 w2 : world) (email : string) (t1 t2 : trace)
  (first1 first2 : mx_record) (rest1 rest2 : list mx_record) :
  resolve_MX w1 (email_domain email) = Ok (first1 :: rest1) ->
  resolve_MX w2 (email_domain email) = Ok (first2 :: rest2) ->
  exchange first1 = exchange first2 ->
  fst (detect_provider_config w1 email t1)
  = fst (detect_provider_config w2 email t2).
Proof.
  intros H1 H2 Hx. unfold detect_provider_config.
  fold (email_domain email).
  repeat match goal with
         | |- context [if ?b then lift _ else _] =>
             destruct b; [reflexivity|]
         end.
  unfold bind, try_except, call, ret. rewrite H1, H2, Hx. cbn.
  repeat match goal with
         | |- context [if ?b then _ else _] => destruct b
         end; reflexivity.
Qed.

Lemma only_first_mx_exchange_counts_witness :
  fst (detect_provider_config mx_google_first "info@example.org" [])
  = fst (detect_provider_config mx_google_only "info@example.org" [])
  /\ fst (detect_provider_config mx_google_only "info@example.org" [])
     = lookup "gmail" KNOWN_PROVIDERS.
Proof.
  split; [|vm_compute; reflexivity].
  apply (only_first_mx_exchange_counts mx_google_first mx_google_only
           "info@example.org" [] []
           (mk_mx 1 "aspmx.l.google.com.") (mk_mx 10 "aspmx.l.google.com.")
           [mk_mx 5 "mx.backup.example."] []); reflexivity.
Defined.

(** *** The domain of an email *)

Lemma contains_char_cons (c x : ascii) (s : string) :
  contains (String c EmptyString) (String x s)
  = Ascii.eqb c x || contains (String c EmptyString) s.
Proof.
  cbn [contains startswith]. destruct s; now rewrite andb_true_r.
Qed.

Lemma contains_char_app (c : ascii) (a b : string) :
  contains (String c EmptyString) (a ++ b)
  = contains (String c EmptyString) a || contains (String c EmptyString) b.
Proof.
  induction a as [|x a IH]; [reflexivity|].
  change (String x a ++ b) with (String x (a ++ b)).
  rewrite !contains_char_cons, IH. apply orb_assoc.
Qed.

Lemma lower_char_at (x : ascii) :
  Ascii.eqb "@" (lower_char x) = Ascii.eqb "@" x.
Proof. destruct x as [[] [] [] [] [] [] [] []]; reflexivity. Qed.

Lemma lower_keeps_at (s : string) : contains "@" (lower s) = contains "@" s.
Proof.
  induction s as [|x s IH]; [reflexivity|].
  cbn [lower]. now rewrite !contains_char_cons, lower_char_at, IH.
Qed.

Lemma last_cons_nonempty (x : string) (l : list string) :
  l <> [] -> last_item (x :: l) = last_item l.
Proof. destruct l; [congruence | reflexivity]. Qed.

Lemma last_piece_has_no_at (s : string) :
  forall cur,
    contains "@" cur = false ->
    contains "@" (last_item (split_aux "@" 0 cur s)) = false.
Proof.
  induction s as [|c s IH]; intros cur Hcur; [exact Hcur|].
  cbn [split_aux]. destruct (startswith "@" (String c s)) eqn:E.
  - cbn [String.length Nat.sub].
    rewrite last_cons_nonempty by apply split_aux_nonempty.
    now apply IH.
  - apply IH. rewrite contains_char_app, Hcur. cbn [orb].
    rewrite contains_char_cons. cbn [startswith] in E.
    destruct s; cbn in E |- *; rewrite ?andb_true_r in E; now rewrite E.
Qed.

Lemma split_without_at (s : string) :
  forall cur,
    contains "@" s = false -> split_aux "@" 0 cur s = [cur ++ s].
Proof.
  induction s as [|c s IH]; intros cur H.
  - cbn. now rewrite append_empty_r.
  - rewrite contains_char_cons in H. apply orb_false_iff in H.
    destruct H as [Hc Hs]. cbn [split_aux startswith]. rewrite Hc. cbn [andb].
    rewrite IH by assumption. now rewrite app_assoc_str.
Qed.

Lemma lower_char_not_upper (c : ascii) : is_upper (lower_char c) = false.
Proof. destruct c as [[] [] [] [] [] [] [] []]; reflexivity. Qed.

Lemma lower_has_no_capital (s : string) :
  all_chars (fun c => negb (is_upper c)) (lower s) = true.
Proof.
  induction s as [|c s IH]; [reflexivity|].
  cbn [lower all_chars]. now rewrite lower_char_not_upper, IH.
Qed.

Lemma lower_char_ascii (c : ascii) :
  Nat.ltb (nat_of_ascii (lower_char c)) 128 = Nat.ltb (nat_of_ascii c) 128.
Proof. destruct c as [[] [] [] [] [] [] [] []]; reflexivity. Qed.

Lemma lower_isascii (s : string) : isascii (lower s) = isascii s.
Proof.
  unfold isascii. induction s as [|c s IH]; [reflexivity|].
  cbn [lower all_chars]. now rewrite lower_char_ascii, IH.
Qed.

Lemma all_chars_app (p : ascii -> bool) (a b : string) :
  all_chars p (a ++ b) = all_chars p a && all_chars p b.
Proof.
  induction a as [|c a IH]; [reflexivity|].
  cbn [append all_chars]. now rewrite IH, andb_assoc.
Qed.

Lemma last_piece_all_chars (p : ascii -> bool) (sep s : string) :
  forall skip cur,
    all_chars p cur = true -> all_chars p s = true ->
    all_chars p (last_item (split_aux sep skip cur s)) = true.
Proof.
  induction s as [|c s IH]; intros skip cur Hcur Hs; [exact Hcur|].
  cbn [all_chars] in Hs. apply andb_true_iff in Hs. destruct Hs as [Hc Hs].
  cbn [split_aux]. destruct skip as [|k]; [|now apply IH].
  destruct (startswith sep (String c s)).
  - rewrite last_cons_nonempty by apply split_aux_nonempty.
    now apply IH.
  - apply IH; [|exact Hs].
    rewrite all_chars_app, Hcur. cbn [all_chars]. now rewrite Hc.
Qed.

(** X18. The domain taken from an email written in ASCII is written in
    ASCII and holds no [@] and no capital letter; it is the whole email, in
    lower case, when the email holds no [@]. *)
Theorem email_domain_has_no_at (email : string) :
  isascii email = true ->
  isascii (email_domain email) = true
  /\ contains "@" (email_domain email) = false
  /\ all_chars (fun c => negb (is_upper c)) (email_domain email) = true
  /\ (contains "@" email = false -> email_domain email = lower email).
Proof.
  intros Hascii. unfold email_domain, split. split; [|split; [|split]].
  - rewrite lower_isascii. now apply last_piece_all_chars.
  - rewrite lower_keeps_at. now apply last_piece_has_no_at.
  - apply lower_has_no_capital.
  - intros H. now rewrite split_without_at.
Qed.

Lemma email_domain_has_no_at_witness :
  isascii "a@b@Mail.Example.ORG" = true
  /\ email_domain "a@b@Mail.Example.ORG" = "mail.example.org"
  /\ contains "@" (email_domain "a@b@Mail.Example.ORG") = false
  /\ all_chars (fun c => negb (is_upper c))
       (email_domain "a@b@Mail.Example.ORG") = true.
Proof.
  split; [reflexivity|]. split; [reflexivity|].
  destruct (email_domain_has_no_at "a@b@Mail.Example.ORG" eq_refl)
    as [_ [H1 [H2 _]]].
  split; [exact H1 | exact H2].
Defined.

(** *** The mailbox listing *)

Lemma lstrip_first (c : ascii) (s : string) :
  first_char (lstrip c s) <> Some c.
Proof.
  induction s as [|a s IH]; cbn; [discriminate|].
  destruct (Ascii.eqb a c) eqn:E; [exact IH|].
  cbn. intros [= ->]. now rewrite Ascii.eqb_refl in E.
Qed.

Lemma rstrip_last (c : ascii) (s : string) :
  last_char (rstrip c s) <> Some c.
Proof.
  induction s as [|a s IH]; cbn; [discriminate|].
  destruct (rstrip c s) as [|b r] eqn:E.
  - destruct (Ascii.eqb a c) eqn:Ea; cbn; [discriminate|].
    intros [= ->]. now rewrite Ascii.eqb_refl in Ea.
  - exact IH.
Qed.

Lemma rstrip_first (c : ascii) (s : string) :
  first_char s <> Some c -> first_char (rstrip c s) <> Some c.
Proof.
  destruct s as [|a s]; cbn; [discriminate|]. intros Ha.
  destruct (rstrip c s) as [|b r].
  - destruct (Ascii.eqb a c); cbn; [discriminate | exact Ha].
  - exact Ha.
Qed.

Lemma strip_ends (c : ascii) (s : string) :
  first_char (strip c s) <> Some c /\ last_char (strip c s) <> Some c.
Proof.
  unfold strip. split; [apply rstrip_first, lstrip_first | apply rstrip_last].
Qed.

(** X19. No mailbox name returned by the parser starts or ends with a double
    quote. *)
Theorem mailbox_names_are_unquoted
  (mailbox_list : list list_item) (name : string) :
  In name (parse_mailbox_list mailbox_list) ->
  first_char name <> Some dquote /\ last_char name <> Some dquote.
Proof.
  induction mailbox_list as [|mailbox rest IH]; [contradiction|].
  cbn [parse_mailbox_list]. rewrite in_app_iff. intros [H | H]; [|now apply IH].
  unfold mailbox_names_of in H.
  destruct mailbox as [b|]; [|contradiction].
  destruct (decode_utf8 b) as [decoded|]; [|contradiction].
  destruct (1 <? List.length (split list_separator decoded))%nat;
    [|contradiction].
  destruct H as [<- | []]. apply strip_ends.
Qed.

Lemma mailbox_names_are_unquoted_witness :
  In "INBOX" (parse_mailbox_list [ItemBytes (listing_line "." "INBOX")])
  /\ first_char "INBOX" <> Some dquote.
Proof.
  split; [vm_compute; tauto|].
  apply (mailbox_names_are_unquoted [ItemBytes (listing_line "." "INBOX")]).
  vm_compute. tauto.
Defined.

Lemma mailbox_names_of_length (mailbox : list_item) :
  (List.length (mailbox_names_of mailbox) <= 1)%nat.
Proof.
  unfold mailbox_names_of.
  destruct mailbox as [b|]; [|cbn; lia].
  destruct (decode_utf8 b); [|cbn; lia].
  destruct (1 <? _)%nat; cbn; lia.
Qed.

(** The parser reads the items one by one, in order: the names of two
    listings put end to end are the names of the first followed by those of
    the second, and a listing never yields more names than it has items. *)
Lemma parse_mailbox_list_app (l1 l2 : list list_item) :
  parse_mailbox_list (l1 ++ l2)
  = (parse_mailbox_list l1 ++ parse_mailbox_list l2)%list
  /\ (List.length (parse_mailbox_list l1) <= List.length l1)%nat.
Proof.
  split.
  - induction l1 as [|m l1 IH]; [reflexivity|].
    cbn [parse_mailbox_list List.app]. now rewrite IH, app_assoc.
  - induction l1 as [|m l1 IH]; [cbn; lia|].
    cbn [parse_mailbox_list List.length]. rewrite length_app.
    pose proof (mailbox_names_of_length m). lia.
Qed.

End DirectoryMore.

(** ** The routes around the probes *)

Module ServiceProofs.
Import PyStr PyExc Eff PyStrFacts PyStrMore EffFacts EffMore Validator Service
  Fixtures.
Local Open Scope Z_scope.

(** *** The API key *)

Lemma startswith_slice (p s : string) :
  startswith p s = true -> s = p ++ slice_from (String.length p) s.
Proof.
  revert s. induction p as [|a p IH]; intros s; [reflexivity|].
  destruct s as [|b s]; cbn; [discriminate|].
  rewrite andb_true_iff, Ascii.eqb_eq. intros [-> H]. f_equal. now apply IH.
Qed.

(** X20. The guard lets a request through exactly when the configured key
    is not empty and the [Authorization] header is the key prefixed with
    [Bearer ], or the bare key when the key itself does not start with
    [Bearer ]; every other request, and every request when the configured
    key is empty, is answered 401. *)
Theorem require_api_key_accepts {A : Type} (API_KEY : string)
  (authorization : option string) (f : A) :
  (require_api_key API_KEY authorization f = Proceed f
   \/ require_api_key API_KEY authorization f = Unauthorized)
  /\ (require_api_key API_KEY authorization f = Proceed f
      <-> API_KEY <> EmptyString
          /\ (authorization = Some ("Bearer " ++ API_KEY)
              \/ (authorization = Some API_KEY
                  /\ startswith "Bearer " API_KEY = false))).
Proof.
  unfold require_api_key.
  destruct authorization as [k|].
  2: { split; [now right|]. split; [discriminate|].
       intros [_ [H | [H _]]]; discriminate. }
  destruct (truthy k && startswith "Bearer " k) eqn:E.
  - apply andb_true_iff in E. destruct E as [_ E].
    pose proof (startswith_slice "Bearer " k E) as Hk.
    cbn [String.length] in Hk. set (rest := slice_from 7 k) in *.
    clearbody rest.
    destruct (negb (truthy rest) || negb (rest =? API_KEY)%string) eqn:E2.
    + split; [now right|]. split; [discriminate|].
      intros [Hne [H | [H Hs]]].
      * injection H as H. rewrite Hk in H. cbn in H. injection H as H.
        rewrite H in E2. rewrite String.eqb_refl in E2.
        destruct API_KEY; [congruence | discriminate].
      * injection H as H. subst k. congruence.
    + split; [now left|]. split; [intros _ | reflexivity].
      apply orb_false_iff in E2. destruct E2 as [E2 E3].
      apply negb_false_iff in E2, E3. apply String.eqb_eq in E3.
      split.
      * intros ->. rewrite E3 in E2. discriminate.
      * left. now rewrite <- E3, <- Hk.
  - destruct (negb (truthy k) || negb (k =? API_KEY)%string) eqn:E2.
    + split; [now right|]. split; [discriminate|].
      intros [Hne [H | [H Hs]]].
      * injection H as H. subst k. cbn in E. discriminate.
      * injection H as H. subst k. rewrite String.eqb_refl in E2.
        destruct API_KEY; [congruence | discriminate].
    + split; [now left|]. split; [intros _ | reflexivity].
      apply orb_false_iff in E2. destruct E2 as [E2 E3].
      apply negb_false_iff in E2, E3. apply String.eqb_eq in E3. subst k.
      rewrite E2 in E. cbn in E.
      split; [intros ->; discriminate | right; now split].
Qed.

Lemma require_api_key_accepts_witness :
  require_api_key "s3cret" (Some "Bearer s3cret") tt = Proceed tt
  /\ require_api_key "s3cret" (Some "s3cret") tt = Proceed tt
  /\ require_api_key "s3cret" (Some "bearer s3cret") tt = Unauthorized
  /\ require_api_key EmptyString (Some EmptyString) tt = Unauthorized.
Proof.
  split; [|repeat split; reflexivity].
  apply (require_api_key_accepts "s3cret" (Some "Bearer s3cret") tt).
  split; [discriminate | now left].
Defined.

(** *** The uptime *)

(** X21. For a time difference as Python keeps it, with its seconds between
    0 and 86399, the uptime shows the days unchanged, hours below 24,
    minutes and seconds below 60, and these hours, minutes and seconds add
    up to the seconds of the difference. *)
Theorem uptime_fields_decompose (uptime : timedelta) :
  0 <= td_seconds uptime < 86400 ->
  let '(days, hours, minutes, seconds) := uptime_fields uptime in
  days = td_days uptime
  /\ 0 <= hours < 24 /\ 0 <= minutes < 60 /\ 0 <= seconds < 60
  /\ hours * 3600 + minutes * 60 + seconds = td_seconds uptime.
Proof.
  intros H. unfold uptime_fields.
  set (s := td_seconds uptime) in *.
  pose proof (Z.div_mod s 3600 ltac:(lia)) as H1.
  pose proof (Z.mod_pos_bound s 3600 ltac:(lia)) as H2.
  pose proof (Z.div_mod (s mod 3600) 60 ltac:(lia)) as H3.
  pose proof (Z.mod_pos_bound (s mod 3600) 60 ltac:(lia)) as H4.
  assert (0 <= s / 3600 < 24).
  { split; [apply Z.div_pos; lia | apply Z.div_lt_upper_bound; lia]. }
  assert (0 <= (s mod 3600) / 60 < 60).
  { split; [apply Z.div_pos; lia | apply Z.div_lt_upper_bound; lia]. }
  repeat split; lia.
Qed.

Lemma uptime_fields_decompose_witness :
  uptime_fields (mk_timedelta 3 45296 0) = (3, 12, 34, 56)
  /\ uptime_formatted (mk_timedelta 3 45296 0) = "3d 12h 34m 56s"
  /\ 12 * 3600 + 34 * 60 + 56 = 45296.
Proof.
  split; [reflexivity|]. split; [reflexivity|].
  pose proof (uptime_fields_decompose (mk_timedelta 3 45296 0)) as H.
  cbn in H. apply H. lia.
Defined.

(** *** The server check *)

Lemma check_dns_run (w : world) (host : string) (t : trace) :
  exists r,
    check_dns w host t
    = (Ok r, (t ++ [Call DnsResolveA (is_ok (resolve_A w host))])%list)
    /\ chk_success r = dns_ok w host.
Proof.
  unfold check_dns, dns_ok, try_except, bind, call, ret.
  destruct (resolve_A w host) as [[|a l]|e]; eexists; split; reflexivity.
Qed.

Lemma test_network_connection_run (w : world) (host : string)
  (port timeout : Z) (t : trace) :
  exists r added,
    test_network_connection w host port timeout t = (Ok r, (t ++ added)%list)
    /\ chk_success r = reachable w host port timeout
    /\ attempted SockCreate added = true.
Proof.
  unfold test_network_connection, reachable, try_except, bind, call, ret.
  destruct (socket_create w) as [[]|e0].
  2: { do 2 eexists. split; [reflexivity|]. split; reflexivity. }
  destruct (socket_settimeout w timeout) as [[]|e1].
  2: { do 2 eexists. rewrite <- app_assoc.
       split; [reflexivity|]. split; reflexivity. }
  destruct (socket_connect_ex w host port) as [z|e2].
  2: { do 2 eexists. rewrite <- !app_assoc.
       split; [reflexivity|]. split; reflexivity. }
  destruct (socket_close w) as [[]|e3].
  2: { do 2 eexists. rewrite <- !app_assoc.
       split; [reflexivity|]. split; reflexivity. }
  destruct (z =? 0); do 2 eexists; rewrite <- !app_assoc;
    (split; [reflexivity|]); split; reflexivity.
Qed.

(** X22. The server check never raises.  Without a host it answers 400 and
    with a port that is not a number it answers 500, in both cases without
    any network operation.  Otherwise it makes the DNS check, and the
    reachability check only when the port is positive and the DNS check
    succeeded; it succeeds exactly when every check it made succeeded, and
    its message is the one of the reachability check when that one failed,
    and the one of the DNS check otherwise. *)
Theorem check_server_outcome (w : world) (DEFAULT_TIMEOUT : Z)
  (host : option string) (port : outcome Z) (t : trace) :
  match host, port with
  | None, _ =>
      check_server w DEFAULT_TIMEOUT host port t
      = (Ok (ServerBadRequest "Parâmetro host é obrigatório"), t)
  | Some h, Raise e =>
      check_server w DEFAULT_TIMEOUT host port t
      = (Ok (ServerError ("Erro interno do servidor: " ++ exn_str e)), t)
  | Some h, Ok p =>
      exists r added,
        check_server w DEFAULT_TIMEOUT host port t
        = (Ok (ServerResult r), (t ++ added)%list)
        /\ srv_success r
           = dns_ok w h && (negb (0 <? p) || reachable w h p DEFAULT_TIMEOUT)
        /\ present (srv_network r) = (0 <? p) && dns_ok w h
        /\ attempted SockCreate added = (0 <? p) && dns_ok w h
        /\ srv_message r
           = match srv_network r with
             | Some n =>
                 if chk_success n then chk_message (srv_dns r)
                 else chk_message n
             | None => chk_message (srv_dns r)
             end
  end.
Proof.
  unfold check_server, try_except, bind, lift, ret.
  destruct host as [h|]; [|reflexivity].
  destruct port as [p|e]; [|reflexivity].
  destruct (check_dns_run w h t) as [d [-> Hd]].
  destruct (0 <? p); cbn [andb negb orb].
  - rewrite Hd. destruct (dns_ok w h) eqn:Edns.
    + destruct (test_network_connection_run w h p DEFAULT_TIMEOUT
                  (t ++ [Call DnsResolveA (is_ok (resolve_A w h))])%list)
        as [n [added [-> [Hn Ha]]]].
      do 2 eexists. rewrite <- app_assoc. split; [reflexivity|].
      cbn [srv_success srv_message srv_network srv_dns present].
      rewrite Hn. cbn [andb].
      repeat split.
      * cbn. exact Ha.
      * destruct (reachable w h p DEFAULT_TIMEOUT); reflexivity.
    + do 2 eexists. split; [reflexivity|].
      cbn [srv_success srv_message srv_network srv_dns present].
      repeat split.
  - do 2 eexists. split; [reflexivity|].
    cbn [srv_success srv_message srv_network srv_dns present].
    rewrite Hd. rewrite andb_true_r. repeat split.
Qed.

(** *** The endpoint settings *)

(** X23. The settings of a request never fail to resolve, and every setting
    that the request gives is used as given, whether or not provider
    resolution ran: detected values only fill the settings that the request
    leaves out. *)
Theorem explicit_settings_win (w : world) (data : settings_request) (t : trace) :
  exists s t',
    resolve_settings w data t = (Ok s, t')
    /\ honours (sr_imapHost data) (set_imap_host s)
    /\ honours (sr_imapPort data) (set_imap_port s)
    /\ honours (sr_imapSecure data) (set_imap_secure s)
    /\ honours (sr_smtpHost data) (set_smtp_host s)
    /\ honours (sr_smtpPort data) (set_smtp_port s)
    /\ honours (sr_smtpSecure data) (set_smtp_secure s)
    /\ honours (sr_smtpStartTLS data) (set_smtp_starttls s).
Proof.
  unfold resolve_settings, bind, ret.
  destruct (negb (present (sr_imapHost data) && present (sr_imapPort data)
                  && present (sr_smtpHost data) && present (sr_smtpPort data))
            || get (sr_autodetect data) true) eqn:E.
  - destruct (ValidatorProofs.detect_provider_config_total w (sr_email data) t)
      as [cfg [t' ->]].
    do 2 eexists. split; [reflexivity|].
    cbn [set_imap_host set_imap_port set_imap_secure set_smtp_host
         set_smtp_port set_smtp_secure set_smtp_starttls].
    unfold honours, get.
    destruct (sr_imapHost data), (sr_imapPort data), (sr_imapSecure data),
      (sr_smtpHost data), (sr_smtpPort data), (sr_smtpSecure data),
      (sr_smtpStartTLS data); repeat split.
  - apply orb_false_iff in E. destruct E as [E _].
    apply negb_false_iff in E. rewrite !andb_true_iff in E.
    destruct E as [[[E1 E2] E3] E4].
    destruct (sr_imapHost data) as [ih|]; [|discriminate].
    destruct (sr_imapPort data) as [ip|]; [|discriminate].
    destruct (sr_smtpHost data) as [sh|]; [|discriminate].
    destruct (sr_smtpPort data) as [sp|]; [|discriminate].
    cbn. do 2 eexists. split; [reflexivity|].
    cbn [set_imap_host set_imap_port set_imap_secure set_smtp_host
         set_smtp_port set_smtp_secure set_smtp_starttls].
    unfold honours, get.
    destruct (sr_imapSecure data), (sr_smtpSecure data),
      (sr_smtpStartTLS data); repeat split.
Qed.

(** X24. Provider resolution, with its possible DNS lookup, is skipped only
    when the request gives the four hosts and ports and sets [autodetect] to
    false: with [autodetect] left out it runs even if every setting is
    given.  When it is skipped, a missing [imapSecure] is true exactly for
    port 993, a missing [smtpSecure] exactly for port 465 and a missing
    [smtpStartTLS] exactly for port 587. *)
Theorem detection_skipped_only_on_request
  (w : world) (data : settings_request) (t : trace) :
  snd (resolve_settings w data t)
  = (if detection_skipped data then t
     else snd (detect_provider_config w (sr_email data) t))
  /\ (detection_skipped data = true ->
      exists imap_host imap_port smtp_host smtp_port,
        sr_autodetect data = Some false
        /\ sr_imapHost data = Some imap_host /\ sr_imapPort data = Some imap_port
        /\ sr_smtpHost data = Some smtp_host
        /\ sr_smtpPort data = Some smtp_port
        /\ fst (resolve_settings w data t)
           = Ok (mk_settings imap_host imap_port
                   (get (sr_imapSecure data) (imap_port =? 993))
                   smtp_host smtp_port
                   (get (sr_smtpSecure data) (smtp_port =? 465))
                   (get (sr_smtpStartTLS data) (smtp_port =? 587)))).
Proof.
  unfold resolve_settings, detection_skipped, bind, ret.
  destruct (sr_imapHost data) as [ih|], (sr_imapPort data) as [ip|],
    (sr_smtpHost data) as [sh|], (sr_smtpPort data) as [sp|];
    cbn [present andb negb orb];
    try (split; [|discriminate];
         destruct (ValidatorProofs.detect_provider_config_total w
                     (sr_email data) t) as [cfg [t' ->]]; reflexivity).
  destruct (sr_autodetect data) as [[|]|]; cbn [get negb].
  - split; [|discriminate].
    destruct (ValidatorProofs.detect_provider_config_total w (sr_email data) t)
      as [cfg [t' ->]]. reflexivity.
  - split; [reflexivity|]. intros _. exists ih, ip, sh, sp.
    repeat split.
  - split; [|discriminate].
    destruct (ValidatorProofs.detect_provider_config_total w (sr_email data) t)
      as [cfg [t' ->]]. reflexivity.
Qed.

Lemma detection_skipped_only_on_request_witness :
  let data := mk_settings_request "user@example.org" (Some false)
                (Some "mail.example.org") (Some 143) None
                (Some "mail.example.org") (Some 465) None None in
  detection_skipped data = true
  /\ fst (resolve_settings all_fine data [])
     = Ok (mk_settings "mail.example.org" 143 false
             "mail.example.org" 465 true false).
Proof.
  cbv zeta. split; [reflexivity|].
  destruct (detection_skipped_only_on_request all_fine
              (mk_settings_request "user@example.org" (Some false)
                 (Some "mail.example.org") (Some 143) None
                 (Some "mail.example.org") (Some 465) None None) [])
    as [_ H].
  destruct (H eq_refl) as [ih [ip [sh [sp [_ [H1 [H2 [H3 [H4 H5]]]]]]]]].
  cbn in H1, H2, H3, H4. injection H1 as <-. injection H2 as <-.
  injection H3 as <-. injection H4 as <-. exact H5.
Defined.

(** *** The domain report *)

Lemma provider_is_gmail (str_lower : string -> string) (domain : string)
  (mx_records : list mx_record) :
  String.eqb (provider_name_of str_lower domain mx_records) "Gmail"
  = contains "gmail" domain.
Proof.
  unfold provider_name_of.
  repeat match goal with
         | |- context [if ?b then _ else _] => destruct b
         | |- context [match ?x with [] => _ | _ :: _ => _ end] => destruct x
         end; reflexivity.
Qed.

Lemma verify_email_domain_run (str_lower : string -> string)
  (w later : world) (email : string) (t : trace) :
  let domain := AnyText.email_domain str_lower email in
  let mx_records :=
    match resolve_MX w domain with Ok l => l | Raise _ => [] end in
  exists cfg,
    fst (AnyText.detect_provider_config str_lower later email t) = Ok cfg
    /\ verify_email_domain str_lower w later (Some email) t
       = (Ok (DomainReport
                (mk_domain_report domain
                   (0 <? Z.of_nat (List.length mx_records))
                   mx_records
                   (provider_name_of str_lower domain mx_records)
                   (cfg_imap cfg) (cfg_smtp cfg)
                   (if contains "gmail" domain then Some true else None)
                   (if contains "gmail" domain
                    then Some "Para o Gmail, você precisa ativar a verificação em duas etapas e usar uma senha de aplicativo."
                    else None))),
          ((t ++ [Call DnsResolveMX (is_ok (resolve_MX w domain))])
             ++ (if names_known_provider domain then []
                 else [Call DnsResolveMX
                         (is_ok (resolve_MX later domain))]))%list).
Proof.
  cbv zeta. set (domain := AnyText.email_domain str_lower email).
  set (t1 := (t ++ [Call DnsResolveMX (is_ok (resolve_MX w domain))])%list).
  destruct (ValidatorProofs.any_detect_provider_config_total str_lower later
              email t1) as [cfg [t' Hcfg]].
  pose proof (ValidatorProofs.any_detect_provider_config_trace str_lower later
                email t1) as Htrace.
  pose proof (ValidatorProofs.any_detect_provider_config_result str_lower later
                email t t1) as Hresult.
  rewrite Hcfg in Htrace, Hresult. cbn [fst snd] in Htrace, Hresult.
  fold domain in Htrace.
  exists cfg. split; [exact Hresult|].
  unfold verify_email_domain, try_except, bind, call, ret.
  fold (AnyText.email_domain str_lower email). fold domain. fold t1.
  destruct (resolve_MX w domain) as [l|e] eqn:Emx;
    cbn [is_ok] in *; rewrite Hcfg; rewrite provider_is_gmail;
    destruct (names_known_provider domain);
    rewrite Htrace; rewrite ?app_nil_r; reflexivity.
Qed.

(** X25. The domain report always comes, for the domain of the email and
    whatever [str.lower] computes, also when the MX query of the route
    raises: then it lists no MX record.  The records it lists are those of
    the route's own query, and the settings are those that provider
    resolution returns from its own, later query.  The report names the
    provider [Gmail], and asks for an app password, exactly when the domain
    holds [gmail], and then the settings are those of Gmail. *)
Theorem verify_email_domain_report (str_lower : string -> string)
  (w later : world) (email : string) (t : trace) :
  let domain := AnyText.email_domain str_lower email in
  exists r t' cfg,
    verify_email_domain str_lower w later (Some email) t
    = (Ok (DomainReport r), t')
    /\ dr_domain r = domain
    /\ dr_mxRecords r
       = match resolve_MX w domain with Ok l => l | Raise _ => [] end
    /\ dr_hasMxRecords r
       = match dr_mxRecords r with [] => false | _ :: _ => true end
    /\ fst (AnyText.detect_provider_config str_lower later email t) = Ok cfg
    /\ dr_imap r = cfg_imap cfg /\ dr_smtp r = cfg_smtp cfg
    /\ (dr_provider r = "Gmail" <-> contains "gmail" domain = true)
    /\ (dr_needsAppPassword r = Some true <-> contains "gmail" domain = true)
    /\ (contains "gmail" domain = true ->
        dr_imap r = mk_endpoint "imap.gmail.com" 993 true None
        /\ dr_smtp r = mk_endpoint "smtp.gmail.com" 587 false (Some true)).
Proof.
  cbv zeta.
  destruct (verify_email_domain_run str_lower w later email t)
    as [cfg [Hcfg ->]].
  do 2 eexists. exists cfg. split; [reflexivity|].
  cbn [dr_domain dr_mxRecords dr_hasMxRecords dr_needsAppPassword dr_provider
       dr_imap dr_smtp].
  split; [reflexivity|]. split; [reflexivity|]. split.
  { destruct (resolve_MX w (AnyText.email_domain str_lower email)) as [[|x l]|e];
      reflexivity. }
  split; [exact Hcfg|]. split; [reflexivity|]. split; [reflexivity|].
  split; [|split].
  - rewrite <- (provider_is_gmail str_lower _
                  match resolve_MX w (AnyText.email_domain str_lower email)
                  with Ok l => l | Raise _ => [] end).
    symmetry. apply String.eqb_eq.
  - destruct (contains "gmail" (AnyText.email_domain str_lower email));
      split; congruence.
  - intros Hg. revert Hcfg. unfold AnyText.detect_provider_config.
    fold (AnyText.email_domain str_lower email). rewrite Hg. cbn.
    intros [= <-]. split; reflexivity.
Qed.

(** The name and the settings of a report come from two queries: when the
    first one fails and the second one names Google, the report calls the
    provider unknown and gives the settings of Gmail. *)
Example provider_name_and_settings_can_disagree :
  exists r,
    fst (verify_email_domain lower all_fine mx_google_only
           (Some "info@example.org") [])
    = Ok (DomainReport r)
    /\ dr_provider r = "Desconhecido"
    /\ dr_imap r = mk_endpoint "imap.gmail.com" 993 true None.
Proof. eexists. split; [reflexivity|]. split; reflexivity. Qed.

(** X26. Whatever [str.lower] computes, the domain report queries the MX
    records of the domain once itself, and provider resolution queries them
    a second time unless the domain names a known provider; each of the two
    queries has its own answer, and nothing else is queried. *)
Theorem verify_email_domain_lookups (str_lower : string -> string)
  (w later : world) (email : string) (t : trace) :
  let domain := AnyText.email_domain str_lower email in
  snd (verify_email_domain str_lower w later (Some email) t)
  = (t ++ [Call DnsResolveMX (is_ok (resolve_MX w domain))]
       ++ (if names_known_provider domain then []
           else [Call DnsResolveMX (is_ok (resolve_MX later domain))]))%list.
Proof.
  cbv zeta.
  destruct (verify_email_domain_run str_lower w later email t)
    as [cfg [_ ->]].
  cbn [snd]. now rewrite <- app_assoc.
Qed.

(** *** The provider check and the health check *)

Lemma probe_endpoint_run (w : world) (ok_message host : string) (port : Z)
  (all_success : bool) (t : trace) :
  exists entry t',
    probe_endpoint w ok_message host port all_success t
    = (Ok (entry, all_success && endpoint_ok w host port), t')
    /\ pe_success entry = endpoint_ok w host port.
Proof.
  unfold probe_endpoint, endpoint_ok, try_except, bind, ret.
  destruct (check_dns_run w host t) as [d [-> Hd]]. rewrite Hd.
  destruct (dns_ok w host).
  - destruct (test_network_connection_run w host port 5
                (t ++ [Call DnsResolveA (is_ok (resolve_A w host))])%list)
      as [n [added [-> [Hn _]]]].
    rewrite Hn. cbn [andb].
    destruct (reachable w host port 5); cbn [negb];
      rewrite ?andb_true_r, ?andb_false_r;
      do 2 eexists; split; reflexivity.
  - cbn [andb]. rewrite andb_false_r. do 2 eexists. split; reflexivity.
Qed.

(** X27. The provider check never raises and reports on Gmail, Outlook and
    Yahoo, in this order.  Its overall success is the conjunction of the six
    entries it reports, and holds exactly when, for each of the six
    endpoints, the DNS check succeeds and the endpoint is reachable within
    five seconds; its message says which of the two is the case. *)
Theorem check_email_providers_outcome (w : world) (t : trace) :
  exists r t',
    check_email_providers w t = (Ok r, t')
    /\ map fst (cep_providers r) = ["Gmail"; "Outlook"; "Yahoo"]
    /\ cep_success r
       = forallb (fun p => endpoint_ok w (pt_imap p) (pt_imap_port p)
                           && endpoint_ok w (pt_smtp p) (pt_smtp_port p))
           providers_to_check
    /\ cep_success r
       = forallb (fun e => pe_success (fst (snd e)) && pe_success (snd (snd e)))
           (cep_providers r)
    /\ cep_message r
       = if cep_success r then "Todos os provedores acessíveis"
         else "Problemas de conectividade detectados".
Proof.
  unfold check_email_providers, providers_to_check.
  cbn [check_providers_loop pt_name pt_imap pt_imap_port pt_smtp pt_smtp_port].
  unfold bind.
  destruct (probe_endpoint_run w "Conectividade IMAP OK" "imap.gmail.com" 993
              true t) as [e1 [t1 [-> H1]]].
  cbn [fst snd].
  destruct (probe_endpoint_run w "Conectividade SMTP OK" "smtp.gmail.com" 587
              (true && endpoint_ok w "imap.gmail.com" 993) t1)
    as [e2 [t2 [-> H2]]].
  cbn [fst snd].
  destruct (probe_endpoint_run w "Conectividade IMAP OK"
              "outlook.office365.com" 993
              (true && endpoint_ok w "imap.gmail.com" 993
               && endpoint_ok w "smtp.gmail.com" 587) t2)
    as [e3 [t3 [-> H3]]].
  cbn [fst snd].
  destruct (probe_endpoint_run w "Conectividade SMTP OK" "smtp.office365.com"
              587
              (true && endpoint_ok w "imap.gmail.com" 993
               && endpoint_ok w "smtp.gmail.com" 587
               && endpoint_ok w "outlook.office365.com" 993) t3)
    as [e4 [t4 [-> H4]]].
  cbn [fst snd].
  destruct (probe_endpoint_run w "Conectividade IMAP OK" "imap.mail.yahoo.com"
              993
              (true && endpoint_ok w "imap.gmail.com" 993
               && endpoint_ok w "smtp.gmail.com" 587
               && endpoint_ok w "outlook.office365.com" 993
               && endpoint_ok w "smtp.office365.com" 587) t4)
    as [e5 [t5 [-> H5]]].
  cbn [fst snd].
  destruct (probe_endpoint_run w "Conectividade SMTP OK" "smtp.mail.yahoo.com"
              587
              (true && endpoint_ok w "imap.gmail.com" 993
               && endpoint_ok w "smtp.gmail.com" 587
               && endpoint_ok w "outlook.office365.com" 993
               && endpoint_ok w "smtp.office365.com" 587
               && endpoint_ok w "imap.mail.yahoo.com" 993) t5)
    as [e6 [t6 [-> H6]]].
  cbn [fst snd ret].
  do 2 eexists. split; [reflexivity|].
  cbn [cep_success cep_message cep_providers].
  split; [reflexivity|].
  split; [|split; [|reflexivity]].
  - cbn [forallb pt_imap pt_imap_port pt_smtp pt_smtp_port andb].
    destruct (endpoint_ok w "imap.gmail.com" 993),
      (endpoint_ok w "smtp.gmail.com" 587),
      (endpoint_ok w "outlook.office365.com" 993),
      (endpoint_ok w "smtp.office365.com" 587),
      (endpoint_ok w "imap.mail.yahoo.com" 993),
      (endpoint_ok w "smtp.mail.yahoo.com" 587); reflexivity.
  - cbn. rewrite H1, H2, H3, H4, H5, H6.
    destruct (endpoint_ok w "imap.gmail.com" 993),
      (endpoint_ok w "smtp.gmail.com" 587),
      (endpoint_ok w "outlook.office365.com" 993),
      (endpoint_ok w "smtp.office365.com" 587),
      (endpoint_ok w "imap.mail.yahoo.com" 993),
      (endpoint_ok w "smtp.mail.yahoo.com" 587); reflexivity.
Qed.

Lemma check_external_connectivity_run (w : world) (t : trace) :
  exists r t',
    check_external_connectivity w t = (Ok r, t')
    /\ con_overall_success r
       = dns_ok w "dns.google" && reachable w "www.google.com" 443 5
    /\ map fst (con_targets r) = ["dns.google"; "www.google.com"].
Proof.
  unfold check_external_connectivity, HEALTH_CHECK_TARGETS.
  cbn [connectivity_loop]. unfold connectivity_loop_body.
  cbn [ht_host ht_port ht_protocol existsb String.eqb Ascii.eqb Bool.eqb orb].
  unfold try_except, bind, ret.
  destruct (check_dns_run w "dns.google" t) as [d [-> Hd]].
  destruct (test_network_connection_run w "www.google.com" 443 5
              (t ++ [Call DnsResolveA (is_ok (resolve_A w "dns.google"))])%list)
    as [n [added [-> [Hn _]]]].
  do 2 eexists. split; [reflexivity|]. cbn. rewrite Hd, Hn.
  split; [now rewrite andb_true_r | reflexivity].
Qed.

(** X28. A health check that is not asked for details answers [healthy]
    without any network operation; details are asked for only by the
    argument [detailed=true], in any letter case.  A detailed check answers
    [unhealthy] when reading the host name, platform or Python version
    raises.  Otherwise its status is [warning] when sampling the resources
    failed with a non-empty error text, even if the connectivity is down;
    else [healthy] when [dns.google] resolves and [www.google.com:443] is
    reachable, and [degraded] when not. *)
Theorem health_check_status (snapshot : Type) (w : world)
  (h : host_system snapshot) (detailed : option string) (t : trace) :
  if String.eqb (lower (get detailed "false")) "true" then
    match hs_hostname _ h, hs_platform _ h, hs_python_version _ h with
    | Ok _, Ok _, Ok _ =>
        exists d t',
          health_check snapshot w h detailed t = (Ok (HealthDetailed _ d), t')
          /\ hd_status _ d
             = if resources_error _ (get_system_resources _ h) then "warning"
               else if dns_ok w "dns.google"
                       && reachable w "www.google.com" 443 5
               then "healthy" else "degraded"
    | _, _, _ =>
        exists e,
          health_check snapshot w h detailed t
          = (Ok (HealthError _ "unhealthy" e), t)
    end
  else health_check snapshot w h detailed t = (Ok (HealthBasic _ "healthy"), t).
Proof.
  unfold health_check.
  destruct (lower (get detailed "false") =? "true")%string; [|reflexivity].
  cbn [negb]. unfold try_except, bind, lift, ret.
  destruct (hs_hostname _ h) as [hn|e]; [|now exists (exn_str e)].
  destruct (hs_platform _ h) as [pf|e]; [|now exists (exn_str e)].
  destruct (hs_python_version _ h) as [pv|e]; [|now exists (exn_str e)].
  destruct (check_external_connectivity_run w t) as [r [t' [-> [Hr _]]]].
  do 2 eexists. split; [reflexivity|]. cbn [hd_status]. rewrite Hr.
  destruct (resources_error _ (get_system_resources _ h)); [reflexivity|].
  destruct (dns_ok w "dns.google" && reachable w "www.google.com" 443 5);
    reflexivity.
Qed.

End ServiceProofs.

(** ** The diagnostic endpoint *)

Module EndpointProofs.
Import PyStr PyExc Eff PyStrFacts PyStrMore EffFacts EffMore Validator
  DiagnosticEndpoint Fixtures.
Local Open Scope Z_scope.

Lemma teste_except_run (email host : string) (result : test_result) (e : exn)
  (t : trace) :
  exists d,
    teste_except email host result e t
    = (Ok (mk_test_result (tr_success result) (Diagnostic.message d)
             (tr_test_type result) (Some d) (tr_server_capabilities result)
             (tr_server_features result) (tr_folders result)
             (tr_server_info result)), t).
Proof.
  destruct (DiagnosisProofs.diagnosticar_some_host e host (Some email)) as [g Hg].
  destruct (DiagnosisProofs.sanitizar_some_host e host (Some email)) as [d Hd].
  exists d. unfold teste_except, bind, lift, ret. now rewrite Hg, Hd.
Qed.

Ltac use_except :=
  match goal with
  | |- context [teste_except ?email ?host ?result ?e ?t] =>
      let d := fresh "d" in
      destruct (teste_except_run email host result e t) as [d ->]
  end.

(** X29. The specific IMAP test never raises.  It reports success exactly
    when the connection opened, the test type is [login] or [all], and the
    login returned, even if the listing of the folders raised afterwards.
    The folders are listed, and reported, only for the test type [all]: the
    test type [folders] neither logs in nor lists anything.  Without a
    diagnosis, the message is the completion message on success and empty
    otherwise. *)
Theorem teste_imap_especifico_outcome (w : world) (server : imap_server)
  (email password host : string) (port : Z) (secure : bool)
  (test_type : string) :
  let run := teste_imap_especifico w server email password host port secure
               test_type [] in
  let wants_login := existsb (String.eqb test_type) ["login"; "all"] in
  exists r,
    fst run = Ok r
    /\ tr_success r
       = is_ok (imap_open w secure host port 30) && wants_login
         && is_ok (imap_login w email password)
    /\ attempted ImapLogin (snd run)
       = is_ok (imap_open w secure host port 30) && wants_login
    /\ attempted ImapList (snd run)
       = is_ok (imap_open w secure host port 30)
         && String.eqb test_type "all"
         && is_ok (imap_login w email password)
    /\ (if String.eqb test_type "all" then True else tr_folders r = None)
    /\ match tr_diagnostics r with
       | Some d => tr_message r = Diagnostic.message d
       | None =>
           tr_message r
           = if tr_success r
             then "Teste de " ++ test_type ++ " completado com sucesso"
             else EmptyString
       end.
Proof.
  cbv zeta.
  unfold teste_imap_especifico, attempt, bind, call, try_except, ret.
  cbn [existsb].
  destruct (imap_open w secure host port 30) as [[]|e0]; cbn [is_ok andb].
  2: { cbn -[teste_except]. use_except. eexists. split; [reflexivity|]. cbn.
       repeat split. now destruct (test_type =? "all")%string. }
  destruct (String.eqb_spec test_type "all") as [->|Hall].
  - cbn -[teste_except].
    destruct (imap_login w email password) as [[]|e1]; cbn -[teste_except].
    2: { use_except. eexists. split; [reflexivity|]. cbn. repeat split. }
    destruct (imap_list w) as [[status mailbox_list]|e2]; cbn -[teste_except].
    2: { use_except. eexists. split; [reflexivity|]. cbn. repeat split. }
    destruct (status =? "OK")%string; cbn;
      destruct (read_server_info server) as [[info|]|e3];
      destruct (imap_logout w) as [[]|e4]; cbn;
      eexists; (split; [reflexivity|]); cbn; repeat split.
  - rewrite orb_false_r.
    destruct (String.eqb_spec test_type "login") as [->|Hlogin].
    + cbn -[teste_except].
      destruct (imap_login w email password) as [[]|e1]; cbn -[teste_except].
      2: { use_except. eexists. split; [reflexivity|]. cbn. repeat split. }
      destruct (read_server_info server) as [[info|]|e3];
        destruct (imap_logout w) as [[]|e4]; cbn;
        eexists; (split; [reflexivity|]); cbn; repeat split.
    + cbn [orb andb].
      destruct (test_type =? "capabilities")%string; cbn;
        destruct (read_server_info server) as [[info|]|e3];
        destruct (imap_logout w) as [[]|e4]; cbn;
        eexists; (split; [reflexivity|]); cbn; repeat split.
Qed.

(** *** The capabilities of a server *)

Lemma collect_sasl_methods_extends (caps : list pyobj) :
  forall acc methods,
    collect_sasl_methods caps acc = Ok methods ->
    exists new, methods = (acc ++ new)%list.
Proof.
  induction caps as [|cap rest IH]; intros acc methods;
    cbn [collect_sasl_methods].
  - intros [= <-]. exists []. now rewrite app_nil_r.
  - destruct cap as [b|s]; cbn [starts_with_auth obind]; [|discriminate].
    destruct (startswith "AUTH=" b).
    + destruct (decode_utf8 (slice_from 5 b)) as [m|]; cbn [obind];
        [|discriminate].
      intros H. destruct (IH _ _ H) as [new ->].
      exists (m :: new). now rewrite <- app_assoc.
    + apply IH.
Qed.

Lemma sasl_supported_iff_methods (caps : list pyobj) :
  forall acc methods flag,
    any_starts_with_auth caps = Ok flag ->
    collect_sasl_methods caps acc = Ok methods ->
    exists new, methods = (acc ++ new)%list /\ (flag = true <-> new <> []).
Proof.
  induction caps as [|cap rest IH]; intros acc methods flag;
    cbn [any_starts_with_auth collect_sasl_methods].
  - intros [= <-] [= <-]. exists []. rewrite app_nil_r.
    split; [reflexivity | split; [discriminate | congruence]].
  - destruct cap as [b|s]; cbn [starts_with_auth obind]; [|discriminate].
    destruct (startswith "AUTH=" b).
    + intros [= <-].
      destruct (decode_utf8 (slice_from 5 b)) as [m|]; cbn [obind];
        [|discriminate].
      intros H. destruct (collect_sasl_methods_extends _ _ _ H) as [new ->].
      exists (m :: new). rewrite <- app_assoc.
      split; [reflexivity | split; [discriminate | reflexivity]].
    + apply IH.
Qed.

(** X30. The capability report never raises.  It succeeds only if the
    closing logout returned, and then has no error and says that SASL is
    supported exactly when it lists at least one SASL mechanism; a failed
    report always carries an error text and an error type.  When the first
    capability is a [str] instead of a [bytes], the report of an open
    connection fails with the error type [unknown], with the capabilities
    listed and without features. *)
Theorem imap_server_capabilities_outcome (w : world) (server : imap_server)
  (host : string) (port : Z) (secure : bool) :
  let run := imap_server_capabilities w server (Some host) (Ok port) secure [] in
  exists r,
    fst run = Ok (CapabilitiesResult r)
    /\ (if cap_success r then
          returned ImapLogout (snd run) = true /\ cap_error r = None
          /\ exists features methods,
               cap_features r = Some features
               /\ cf_sasl_methods features = Some methods
               /\ (cf_sasl_supported features = true <-> methods <> [])
        else cap_error r <> None /\ cap_error_type r <> None)
    /\ match srv_capabilities server, imap_open w secure host port 10 with
       | PyStr _ :: _, Ok _ =>
           cap_success r = false /\ cap_error_type r = Some "unknown"
           /\ cap_features r = None
           /\ cap_capabilities r = map py_str (srv_capabilities server)
       | _, _ => True
       end.
Proof.
  cbv zeta.
  unfold imap_server_capabilities, attempt, try_except, bind, call, lift, ret.
  destruct (imap_open w secure host port 10) as [[]|e0].
  2: { eexists. split; [reflexivity|]. cbn.
       split; [split; discriminate|].
       now destruct (srv_capabilities server) as [|[]]. }
  unfold read_capabilities.
  destruct (srv_capabilities server) as [|cap rest] eqn:Ecaps.
  - cbn [any_starts_with_auth collect_sasl_methods map].
    destruct (read_server_info server) as [info|e1].
    2: { eexists. split; [reflexivity|]. cbn.
         split; [split; discriminate | exact I]. }
    destruct (imap_logout w) as [[]|e2].
    2: { destruct info; eexists; (split; [reflexivity|]); cbn;
         (split; [split; discriminate | exact I]). }
    destruct info; eexists; (split; [reflexivity|]); cbn;
      (split; [|exact I]);
      (split; [reflexivity|]); (split; [reflexivity|]);
      do 2 eexists; (split; [reflexivity|]); (split; [reflexivity|]);
      (split; [discriminate | congruence]).
  - destruct cap as [b|s].
    2: { cbn. eexists. split; [reflexivity|]. cbn.
         split; [split; discriminate|]. repeat split. }
    destruct (any_starts_with_auth (PyBytes b :: rest)) as [flag|e1] eqn:Eany.
    2: { eexists. split; [reflexivity|]. cbn.
         split; [split; discriminate | exact I]. }
    destruct (read_server_info server) as [info|e2].
    2: { eexists. split; [reflexivity|]. cbn.
         split; [split; discriminate | exact I]. }
    destruct (collect_sasl_methods (PyBytes b :: rest) []) as [methods|e3]
      eqn:Ecol.
    2: { destruct info; eexists; (split; [reflexivity|]); cbn;
         (split; [split; discriminate | exact I]). }
    destruct (sasl_supported_iff_methods _ _ _ _ Eany Ecol) as [new [Hnew Hflag]].
    cbn [List.app] in Hnew. subst new.
    destruct (imap_logout w) as [[]|e4].
    2: { destruct info; eexists; (split; [reflexivity|]); cbn;
         (split; [split; discriminate | exact I]). }
    destruct info; eexists; (split; [reflexivity|]); cbn;
      (split; [|exact I]);
      (split; [reflexivity|]); (split; [reflexivity|]);
      do 2 eexists; (split; [reflexivity|]); (split; [reflexivity|]);
      exact Hflag.
Qed.

End EndpointProofs.
